(** * Textract table extractor add-on: the job driver of [main.py]

    A shallow embedding of [TableExtractor] (cost estimation, credit gate,
    page iteration, per-table output files, archive) and the properties of
    its orchestration.

    The add-on talks to the hosting platform, to the analysis service and to
    the local file system.  The embedding keeps these as follows.
    - Configuration ([self.data]) is a finite map from option names to Python
      values; a value is [None], an integer or a string.  Numbers that are
      not integers are not covered: a statement that hinges on a page
      number not being usable names [None] and strings, see [none_or_str].
    - The collaborators (document store, credit ledger, image decoder,
      analysis service and the construction of its client, upload endpoint)
      are the fields of an environment record [Env]: each call is answered
      by the environment and may fail.
    - The job itself is a computation in a state-and-exception monad [M].
      The state holds the working directory, the file tree, the credential
      file and the log of the calls made to the outside world, in order.
      [sys.exit(n)] is the outcome [Exit n], an uncaught exception is
      [Raise e]. *)

From stdpp Require Import gmap strings list fin_maps pretty sorting.
From Stdlib Require Import ZArith Lia Ascii.

Local Open Scope Z_scope.

(** ** Python values and exceptions *)

Inductive pyval :=
  | PyNone
  | PyInt (n : Z)
  | PyStr (s : string).

Global Instance pyval_eq_dec : EqDecision pyval.
Proof. solve_decision. Defined.

Inductive exn :=
  | TypeError
  | ValueError
  | APIError
  | KeyError
  | IndexError
  | FileExistsError
  | FileNotFoundError
  | NotADirectoryError
  | IsADirectoryError
  | ImageError
  | ServiceError
  | UploadError
  | ProfileNotFound
  | ConfigParseError.

Global Instance exn_eq_dec : EqDecision exn.
Proof. solve_decision. Defined.

(** Truth value of an object, as [not self.org_id] tests it. *)
Definition truthy (v : pyval) : bool :=
  match v with
  | PyNone => false
  | PyInt n => negb (n =? 0)
  | PyStr s => negb (String.eqb s "")
  end.

(** [None] or a string: a value that raises [TypeError] when it is compared
    with an integer, or subtracted from one. *)
Definition none_or_str (v : pyval) : bool :=
  match v with
  | PyNone | PyStr _ => true
  | PyInt _ => false
  end.

(** ** Files *)

#[local] Set Warnings "-register-all".
Inductive content :=
  | Bytes (b : string)
  | ZipArchive (entries : list (string * content)).
#[local] Set Warnings "register-all".

Inductive node :=
  | Dir
  | File (c : content).

(** A path is the list of its components from the root of the file tree. *)
Abbreviation path := (list string).

(** ** The outside world *)

(** One detected table, with the two serializations the library offers. *)
Record Table := mkTable {
  to_csv : string;
  to_excel : content;
}.

Module Document.
(** A document of the store: [get_large_image p] answers the request for
    the image of page [p], [None] when the request fails. *)
Record t := mk {
  id : Z;
  page_count : Z;
  get_large_image : Z → option content;
}.
End Document.

Record Env := mkEnv {
  (** [self.data] *)
  data : gmap string pyval;
  (** [self.get_document_count()] *)
  get_document_count : option Z;
  (** [self.org_id] *)
  org_id : pyval;
  (** [self.get_documents()] *)
  get_documents : list Document.t;
  (** [self.charge_credits(amount)]: the exception it raises, if any *)
  charge_credits_raises : Z → option exn;
  (** [os.environ["TOKEN"]] *)
  environ_TOKEN : option string;
  (** [Textractor(profile_name="default", region_name="us-east-1")]: the
      exception that building the client raises, if any, given the content
      of the credential file ([None]: no such file) *)
  textractor_raises : option string → option exn;
  (** decoding a GIF and encoding it as PNG *)
  gif_to_png : content → option content;
  (** [extractor.analyze_document(...)]: the tables found on an image *)
  analyze_document : content → option (list Table);
  (** [self.upload_file(f)]: the exception it raises, if any *)
  upload_file_raises : option exn;
}.

(** ** Calls to the outside world, as logged *)

Inductive event :=
  | EvMessage (msg : string)
  | EvCharge (amount : Z)
  | EvGetImage (doc : Z) (page : Z)
  | EvAnalyze (doc : Z) (page : Z)
  | EvWrite (p : path) (c : content)
  | EvUpload (c : content).

Record State := mkState {
  st_log : list event;
  st_cwd : path;
  st_fs : gmap path node;
  st_credentials : option string;
}.

(** ** The monad of the job *)

Inductive outcome (A : Type) :=
  | Ok (a : A)
  | Exit (code : Z)
  | Raise (e : exn).
Arguments Ok {A} a.
Arguments Exit {A} code.
Arguments Raise {A} e.

Definition M (A : Type) : Type := State → outcome A * State.

Definition ret {A} (a : A) : M A := λ st, (Ok a, st).

Definition bind {A B} (m : M A) (k : A → M B) : M B :=
  λ st, match m st with
        | (Ok a, st') => k a st'
        | (Exit c, st') => (Exit c, st')
        | (Raise e, st') => (Raise e, st')
        end.

Declare Scope job_scope.
Delimit Scope job_scope with job.
Notation "x ⇐ m ; k" := (bind m (λ x, k))
  (at level 100, m at next level, k at level 200, right associativity)
  : job_scope.
Notation "m ;; k" := (bind m (λ _, k))
  (at level 100, k at level 200, right associativity) : job_scope.
Local Open Scope job_scope.

Definition raise {A} (e : exn) : M A := λ st, (Raise e, st).

(** [sys.exit(code)] *)
Definition sys_exit {A} (code : Z) : M A := λ st, (Exit code, st).

(** [try: m except e (handled e): h] *)
Definition try_except {A} (m : M A) (handled : exn → bool) (h : M A) : M A :=
  λ st, match m st with
        | (Raise e, st') => if handled e then h st' else (Raise e, st')
        | r => r
        end.

Definition log_event (e : event) : M unit :=
  λ st, (Ok tt, mkState (st_log st ++ [e]) (st_cwd st) (st_fs st)
                        (st_credentials st)).

Fixpoint for_each {A} (l : list A) (body : A → M unit) : M unit :=
  match l with
  | [] => ret tt
  | x :: l' => body x ;; for_each l' body
  end.

(** ** Python operators on the values of the configuration *)

(** Ordering comparisons: integers with integers, strings with strings
    (lexicographic; on UTF-8 bytes this is the order of the code points);
    anything else raises [TypeError]. *)
Definition py_compare (v w : pyval) : M comparison :=
  match v, w with
  | PyInt a, PyInt b => ret (a ?= b)
  | PyStr s, PyStr t => ret (String.compare s t)
  | _, _ => raise TypeError
  end.

Definition py_lt (v w : pyval) : M bool :=
  c ⇐ py_compare v w; ret (match c with Lt => true | _ => false end).
Definition py_le (v w : pyval) : M bool :=
  c ⇐ py_compare v w; ret (match c with Gt => false | _ => true end).
Definition py_gt (v w : pyval) : M bool :=
  c ⇐ py_compare v w; ret (match c with Gt => true | _ => false end).

(** Arithmetic.  In every arithmetic expression of the program one operand
    is an integer, so the operation raises [TypeError] unless the other one
    is an integer too. *)
Definition py_arith (f : Z → Z → Z) (v w : pyval) : M Z :=
  match v, w with
  | PyInt a, PyInt b => ret (f a b)
  | _, _ => raise TypeError
  end.
Definition py_add := py_arith Z.add.
Definition py_sub := py_arith Z.sub.

(** [range(lo, hi)]: the integers [lo], [lo + 1], ..., [hi - 1] *)
Definition Zrange (lo hi : Z) : list Z := seqZ lo (hi - lo).

Definition py_range (v : pyval) (hi : Z) : M (list Z) :=
  match v with
  | PyInt lo => ret (Zrange lo hi)
  | _ => raise TypeError
  end.

(** ** The file system and the process *)

Definition set_fs (fs : gmap path node) (st : State) : State :=
  mkState (st_log st) (st_cwd st) fs (st_credentials st).
Definition set_cwd (d : path) (st : State) : State :=
  mkState (st_log st) d (st_fs st) (st_credentials st).

(** [os.makedirs(name)] for a single fresh component *)
Definition makedirs (name : string) : M unit :=
  λ st, let p := st_cwd st ++ [name] in
        match st_fs st !! p with
        | Some _ => (Raise FileExistsError, st)
        | None => (Ok tt, set_fs (<[p := Dir]> (st_fs st)) st)
        end.

(** [os.chdir(name)]; [".."] is the parent directory, and the parent of the
    root is the root. *)
Definition chdir (name : string) : M unit :=
  λ st, if String.eqb name ".." then (Ok tt, set_cwd (removelast (st_cwd st)) st)
        else let p := st_cwd st ++ [name] in
             match st_fs st !! p with
             | Some Dir => (Ok tt, set_cwd p st)
             | Some (File _) => (Raise NotADirectoryError, st)
             | None => (Raise FileNotFoundError, st)
             end.

(** [with open(name, "w") as f: f.write(c)] *)
Definition write_file (name : string) (c : content) : M unit :=
  λ st, let p := st_cwd st ++ [name] in
        match st_fs st !! p with
        | Some Dir => (Raise IsADirectoryError, st)
        | _ => log_event (EvWrite p c) (set_fs (<[p := File c]> (st_fs st)) st)
        end.

(** Reading a file of the working directory *)
Definition read_file (name : string) : M content :=
  λ st, match st_fs st !! (st_cwd st ++ [name]) with
        | Some (File c) => (Ok c, st)
        | Some Dir => (Raise IsADirectoryError, st)
        | None => (Raise FileNotFoundError, st)
        end.

(** [os.path.relpath(p, top)], as its components *)
Fixpoint strip_prefix (top p : path) : option path :=
  match top, p with
  | [], _ => Some p
  | x :: top', y :: p' => if decide (x = y) then strip_prefix top' p' else None
  | _ :: _, [] => None
  end.

Fixpoint join_path (rel : path) : string :=
  match rel with
  | [] => ""
  | [x] => x
  | x :: rel' => x +:+ "/" +:+ join_path rel'
  end.

(** The files that [os.walk(top)] visits, each with its path relative to
    [top].  The order in which a directory lists its entries is not
    specified; the model takes the order of the finite map. *)
Definition walk_files (top : path) (fs : gmap path node) : list (path * content) :=
  omap (λ pn : path * node,
          match pn.2 with
          | File c =>
              match strip_prefix top pn.1 with
              | Some (x :: rel) => Some (x :: rel, c)
              | _ => None
              end
          | Dir => None
          end) (map_to_list fs).

(** ** The add-on *)

Section AddOn.
Context (self : Env).

(** [self.data.get(key, default)] *)
Definition data_get (key : string) (default : pyval) : pyval :=
  match data self !! key with
  | Some v => v
  | None => default
  end.

Definition set_message (msg : string) : M unit := log_event (EvMessage msg).

(** [self.charge_credits(amount)] *)
Definition charge_credits (amount : Z) : M unit :=
  match charge_credits_raises self amount with
  | Some e => raise e
  | None => log_event (EvCharge amount)
  end.

(** The body of the loop of [calculate_cost]: the new value of
    [total_num_pages]. *)
Definition cost_step (total_num_pages : Z) (doc : Document.t) : M Z :=
  let start_page := data_get "start_page" (PyInt 1) in
  let end_page := data_get "end_page" PyNone in
  c ⇐ py_le end_page (PyInt (Document.page_count doc));
  let last_page := if c then end_page else PyInt (Document.page_count doc) in
  d ⇐ py_sub last_page start_page;
  pages_to_analyze ⇐ py_add (PyInt d) (PyInt 1);
  py_add (PyInt total_num_pages) (PyInt pages_to_analyze).

Fixpoint cost_loop (total_num_pages : Z) (documents : list Document.t) : M Z :=
  match documents with
  | [] => ret total_num_pages
  | doc :: rest => t ⇐ cost_step total_num_pages doc; cost_loop t rest
  end.

Definition calculate_cost (documents : list Document.t) : M Z :=
  total_num_pages ⇐ cost_loop 0 documents;
  let cost := total_num_pages * 10 in
  ret cost.

Definition msg_no_documents : string :=
  "It looks like no documents were selected. Search for some or select them and run again.".
Definition msg_no_organization : string := "No organization to charge.".
Definition msg_insufficient : string :=
  "You do not have sufficient AI credits to run this Add-On on this document set".
Definition msg_end_before_start : string :=
  "The end page you provided is smaller than the start page, try again".
Definition msg_start_below_one : string :=
  "Your start page is less than 1, please try again".

Definition validate : M bool :=
  match get_document_count self with
  | None => set_message msg_no_documents ;; sys_exit 0
  | Some _ =>
      if negb (truthy (org_id self))
      then set_message msg_no_organization ;; sys_exit 0
      else
        ai_credit_cost ⇐ calculate_cost (get_documents self);
        try_except
          (charge_credits ai_credit_cost ;; ret true)
          (λ e, match e with ValueError | APIError => true | _ => false end)
          (ret false)
  end.

(** Writes the credential file of the analysis service.  The home
    directory lies outside the working tree of the job, so the file is a
    component of the state of its own. *)
Definition setup_credential_file : M unit :=
  match environ_TOKEN self with
  | None => raise KeyError
  | Some credentials =>
      λ st, (Ok tt, mkState (st_log st) (st_cwd st) (st_fs st) (Some credentials))
  end.

Definition convert_to_png (gif_filename png_filename : string) : M unit :=
  gif_image ⇐ read_file gif_filename;
  match gif_to_png self gif_image with
  | None => raise ImageError
  | Some png => write_file png_filename png
  end.

(** The name of the output file of table [i] of page [page_number] of
    document [doc] *)
Definition table_filename (ext : string) (doc page_number : Z) (i : nat) : string :=
  pretty doc +:+ "-" +:+ pretty page_number +:+ "-table" +:+ pretty i +:+ ext.

Definition page_filename (ext : string) (doc page_number : Z) : string :=
  pretty doc +:+ "-page" +:+ pretty page_number +:+ ext.

(** [table = EntityList(doc.tables[i])], then [table[0]] *)
Definition table_at (tables : list Table) (i : nat) : M Table :=
  match tables !! i with
  | Some t => ret t
  | None => raise IndexError
  end.

(** The two branches on [output_format], lines 121-139 *)
Definition write_tables (output_format : pyval) (doc page_number : Z)
    (tables : list Table) : M unit :=
  if decide (output_format = PyStr "csv") then
    chdir "tables" ;;
    for_each (seq 0 (length tables)) (λ i,
      table ⇐ table_at tables i;
      let csv_filename := table_filename ".csv" doc page_number i in
      let csv_string := to_csv table in
      write_file csv_filename (Bytes csv_string)) ;;
    chdir ".."
  else
    chdir "tables" ;;
    for_each (seq 0 (length tables)) (λ i,
      table ⇐ table_at tables i;
      write_file (table_filename ".xlsx" doc page_number i) (to_excel table)) ;;
    chdir "..".

(** The body of the loop over the pages, lines 109-139 *)
Definition process_page (output_format : pyval) (document : Document.t)
    (page_number : Z) : M unit :=
  log_event (EvGetImage (Document.id document) page_number) ;;
  match Document.get_large_image document page_number with
  | None => raise APIError
  | Some image_data =>
      let gif_filename := page_filename ".gif" (Document.id document) page_number in
      write_file gif_filename image_data ;;
      let png_filename := page_filename ".png" (Document.id document) page_number in
      convert_to_png gif_filename png_filename ;;
      image ⇐ read_file png_filename;
      log_event (EvAnalyze (Document.id document) page_number) ;;
      match analyze_document self image with
      | None => raise ServiceError
      | Some tables =>
          write_tables output_format (Document.id document) page_number tables
      end
  end.

(** The body of the loop over the documents, lines 105-139 *)
Definition process_document (output_format start_page end_page : pyval)
    (document : Document.t) : M unit :=
  e1 ⇐ py_add end_page (PyInt 1);
  c ⇐ py_gt end_page (PyInt (Document.page_count document));
  let outer_bound := if c then Document.page_count document + 1 else e1 in
  pages ⇐ py_range start_page outer_bound;
  for_each pages (process_page output_format document).

(** Lines 141-145: the archive of every file below [tables] *)
Definition write_archive : M unit :=
  λ st, let files := walk_files (st_cwd st ++ ["tables"]) (st_fs st) in
        write_file "all_tables.zip"
          (ZipArchive ((λ f : path * content, (join_path f.1, f.2)) <$> files)) st.

(** [self.upload_file(open(name))] *)
Definition upload_file (name : string) : M unit :=
  c ⇐ read_file name;
  match upload_file_raises self with
  | Some e => raise e
  | None => log_event (EvUpload c)
  end.

(** Line 100: the client of the analysis service is built from the
    [default] profile of the credential file, and building it raises when
    the file holds no usable such profile.  A client that is built changes
    nothing the job observes. *)
Definition Textractor : M unit :=
  λ st, match textractor_raises self (st_credentials st) with
        | Some e => (Raise e, st)
        | None => (Ok tt, st)
        end.

(** Lines 99-146, after the checks *)
Definition extract_tables (output_format start_page end_page : pyval) : M unit :=
  setup_credential_file ;;
  Textractor ;;
  makedirs "out" ;;
  chdir "out" ;;
  makedirs "tables" ;;
  for_each (get_documents self)
    (process_document output_format start_page end_page) ;;
  write_archive ;;
  upload_file "all_tables.zip".

Definition main : M unit :=
  let output_format := data_get "output_format" (PyStr "csv") in
  let start_page := data_get "start_page" (PyInt 1) in
  let end_page := data_get "end_page" (PyInt 1) in
  ok ⇐ validate;
  if negb ok then set_message msg_insufficient ;; sys_exit 0
  else
    c1 ⇐ py_lt end_page start_page;
    if c1 then set_message msg_end_before_start ;; sys_exit 0
    else
      c2 ⇐ py_lt start_page (PyInt 1);
      if c2 then set_message msg_start_below_one ;; sys_exit 0
      else extract_tables output_format start_page end_page.
End AddOn.

(** The state in which a job starts: nothing logged, no credential file. *)
Definition initial_state (cwd : path) (fs : gmap path node) : State :=
  mkState [] cwd fs None.

(** ** Reference quantities *)

Definition Zsum (l : list Z) : Z := foldr Z.add 0 l.

(** The term of one document in the cost: not clamped at zero. *)
Definition raw_pages (s e : Z) (doc : Document.t) : Z :=
  Z.min e (Document.page_count doc) - s + 1.

(** The pages of a document that fall in the range: the term of the cost,
    clamped at zero. *)
Definition effective_pages (s e : Z) (doc : Document.t) : Z :=
  Z.max 0 (Z.min e (Document.page_count doc) - s + 1).

(** The pages of a document that the loop of [main] visits. *)
Definition pages_of (s e : Z) (doc : Document.t) : list Z :=
  Zrange s (Z.min e (Document.page_count doc) + 1).

(** The pages a job with range [s..e] is to analyse, in order *)
Definition expected_pages (self : Env) (s e : Z) : list (Z * Z) :=
  get_documents self ≫= λ doc, pair (Document.id doc) <$> pages_of s e doc.

(** ** States of the job *)

Definition add_event (e : event) (st : State) : State :=
  mkState (st_log st ++ [e]) (st_cwd st) (st_fs st) (st_credentials st).

(** The state in which the loop over the documents starts: both
    directories made, the process in [out], the credential file written. *)
Definition loop_start (st : State) (credentials : string) : State :=
  let out := st_cwd st ++ ["out"] in
  mkState (st_log st) out
          (<[out ++ ["tables"] := Dir]> (<[out := Dir]> (st_fs st)))
          (Some credentials).

(** The entries of the archive of a file tree, seen from [out] *)
Definition archive_entries (out : path) (fs : gmap path node) : list (string * content) :=
  (λ f : path * content, (join_path f.1, f.2)) <$> walk_files (out ++ ["tables"]) fs.

(** A file tree is well formed when whatever lies below a path lies in a
    directory. *)
Definition fs_wf (fs : gmap path node) : Prop :=
  ∀ p x, is_Some (fs !! (p ++ [x])) → p ≠ [] → fs !! p = Some Dir.

(** A state in which a page can be processed: the process is in [out], and
    [tables] is a directory, the only one directly in [out]. *)
Definition page_ready (out : path) (st : State) : Prop :=
  st_cwd st = out
  ∧ st_fs st !! (out ++ ["tables"]) = Some Dir
  ∧ ∀ f, st_fs st !! (out ++ [f]) = Some Dir → f = "tables".

(** ** Traces

    What a stretch of the log says about the file tree and about the work
    done. *)

Definition apply_write (fs : gmap path node) (ev : event) : gmap path node :=
  match ev with
  | EvWrite p c => <[p := File c]> fs
  | _ => fs
  end.

(** [st'] is [st] after the calls [evs]: the log grew by [evs], the file tree
    changed by the writes among them, the credential file did not change. *)
Definition extends (evs : list event) (st st' : State) : Prop :=
  st_log st' = st_log st ++ evs
  ∧ st_fs st' = foldl apply_write (st_fs st) evs
  ∧ st_credentials st' = st_credentials st.

(** A computation started in directory [d] whose calls, seen through [obs],
    are an initial part of [ideal], and all of [ideal] when it returns; it
    then is back in [d]. *)
Definition runs_as {A X} (obs : list event → list X) (d : path) (m : M A)
    (ideal : list X) : Prop :=
  ∀ st r st', st_cwd st = d → m st = (r, st') →
    ∃ evs, extends evs st st'
           ∧ obs evs `prefix_of` ideal
           ∧ (∀ a, r = Ok a → obs evs = ideal ∧ st_cwd st' = d).

Class Observation {X} (obs : list event → list X) : Prop := {
  obs_nil : obs [] = [];
  obs_app l1 l2 : obs (l1 ++ l2) = obs l1 ++ obs l2;
}.

(** The pages submitted to the analysis service *)
Definition analysed (evs : list event) : list (Z * Z) :=
  omap (λ ev, match ev with EvAnalyze d p => Some (d, p) | _ => None end) evs.

(** The amounts charged *)
Definition charged (evs : list event) : list Z :=
  omap (λ ev, match ev with EvCharge c => Some c | _ => None end) evs.

(** The files written directly into [out/tables], by name *)
Definition table_writes (out : path) (evs : list event) : list (string * content) :=
  omap (λ ev, match ev with
              | EvWrite p c =>
                  match strip_prefix (out ++ ["tables"]) p with
                  | Some [name] => Some (name, c)
                  | _ => None
                  end
              | _ => None
              end) evs.

(** The content of [out/tables] that these writes leave: for each name the
    last content written. *)
Definition written_tables (out : path) (evs : list event) : gmap string content :=
  list_to_map (reverse (table_writes out evs)).

(** The writes of the archive file *)
Definition archive_writes (out : path) (evs : list event) : list content :=
  omap (λ ev, match ev with
              | EvWrite p c =>
                  if decide (p = out ++ ["all_tables.zip"]) then Some c else None
              | _ => None
              end) evs.

(** Calls to the ledger and messages to the user: the only calls made
    before the work starts. *)
Definition is_gate_event (ev : event) : Prop :=
  match ev with
  | EvMessage _ | EvCharge _ => True
  | _ => False
  end.

(** Where the loop writes: page images directly in [out], table files
    directly in [out/tables]. *)
Definition job_write (out : path) (ev : event) : Prop :=
  match ev with
  | EvWrite q _ =>
      (∃ ext d p, q = out ++ [page_filename ext d p])
      ∨ (∃ name, q = out ++ ["tables"; name])
  | _ => True
  end.

(** ** The calls a job is to make *)

Definition table_ext (output_format : pyval) : string :=
  if decide (output_format = PyStr "csv") then ".csv" else ".xlsx".

Definition table_content (output_format : pyval) (t : Table) : content :=
  if decide (output_format = PyStr "csv") then Bytes (to_csv t) else to_excel t.

(** The writes of the tables of one page, into directory [dir] *)
Definition table_events (dir : path) (output_format : pyval) (doc page_number : Z)
    (tables : list Table) : list event :=
  imap (λ i t, EvWrite (dir ++ [table_filename (table_ext output_format) doc page_number i])
                       (table_content output_format t)) tables.

(** The tables of page [p] of [doc]: image request, decoding and analysis
    composed; [None] when one of them fails. *)
Definition page_tables (self : Env) (doc : Document.t) (p : Z) : option (list Table) :=
  match Document.get_large_image doc p with
  | None => None
  | Some img =>
      match gif_to_png self img with
      | None => None
      | Some png => analyze_document self png
      end
  end.

(** The calls that one page gives rise to, as far as the collaborators let
    the page get. *)
Definition page_events (self : Env) (out : path) (output_format : pyval)
    (doc : Document.t) (p : Z) : list event :=
  EvGetImage (Document.id doc) p ::
  match Document.get_large_image doc p with
  | None => []
  | Some img =>
      EvWrite (out ++ [page_filename ".gif" (Document.id doc) p]) img ::
      match gif_to_png self img with
      | None => []
      | Some png =>
          EvWrite (out ++ [page_filename ".png" (Document.id doc) p]) png ::
          EvAnalyze (Document.id doc) p ::
          match analyze_document self png with
          | None => []
          | Some tables =>
              table_events (out ++ ["tables"]) output_format (Document.id doc) p tables
          end
      end
  end.

Definition job_events (self : Env) (out : path) (output_format : pyval)
    (s e : Z) : list event :=
  get_documents self ≫= λ doc,
    pages_of s e doc ≫= page_events self out output_format doc.

(** ** Characters of file names *)

Fixpoint contains (c : ascii) (s : string) : bool :=
  match s with
  | EmptyString => false
  | String a s' => if decide (a = c) then true else contains c s'
  end.

Definition is_digit (c : ascii) : bool :=
  match Ascii.is_nat c with Some _ => true | None => false end.

Fixpoint all_digits (s : string) : bool :=
  match s with
  | EmptyString => true
  | String a s' => is_digit a && all_digits s'
  end.

(** ** Sample jobs

    Concrete environments on which the statements below are exercised. *)

Definition sample_document (i pc : Z) : Document.t :=
  Document.mk i pc (λ _, Some (Bytes "GIF89a")).

(** A service client that is built from a credential file with a [default]
    profile and from no other. *)
Definition default_profile (credentials : option string) : option exn :=
  match credentials with
  | None => Some ProfileNotFound
  | Some c => if decide (c = "[default]") then None else Some ConfigParseError
  end.

(** A platform on which every call succeeds and every page shows [tables]. *)
Definition sample_env (cfg : gmap string pyval) (docs : list Document.t)
    (tables : list Table) : Env :=
  mkEnv cfg (Some (Z.of_nat (length docs))) (PyInt 7) docs (λ _, None)
        (Some "[default]") default_profile
        (λ _, Some (Bytes "PNG")) (λ _, Some tables) None.

(** The same platform with a ledger that refuses every charge with [e]. *)
Definition broke_env (e : exn) (cfg : gmap string pyval) (docs : list Document.t) : Env :=
  mkEnv cfg (Some (Z.of_nat (length docs))) (PyInt 7) docs (λ _, Some e)
        (Some "[default]") default_profile
        (λ _, Some (Bytes "PNG")) (λ _, Some []) None.

Definition page_config (s e : Z) : gmap string pyval :=
  <["start_page" := PyInt s]> (<["end_page" := PyInt e]> ∅).

Definition two_tables : list Table :=
  [mkTable "a,b" (Bytes "xlsx-0"); mkTable "c,d" (Bytes "xlsx-1")].

(** A job over two documents of five and two pages, pages 2 to 3, where
    every page shows the same two tables. *)
Definition sample_job : Env :=
  sample_env (page_config 2 3) [sample_document 1 5; sample_document 2 2] two_tables.

(** A job over a document of ten pages and one of two pages, pages 5 to 6,
    no table anywhere. *)
Definition short_document_job : Env :=
  sample_env (page_config 5 6) [sample_document 1 10; sample_document 2 2] [].

(** Nothing selected and no search: the platform has no count to give. *)
Definition empty_selection_job : Env :=
  mkEnv (page_config 1 1) None (PyInt 7) [] (λ _, None)
        (Some "[default]") default_profile
        (λ _, Some (Bytes "PNG")) (λ _, Some []) None.

(** A search that matches no document: the count is 0, the list is empty. *)
Definition empty_search_job : Env := sample_env (page_config 1 1) [] [].

(** A job whose [TOKEN] holds no profile. *)
Definition bad_token_job : Env :=
  mkEnv (page_config 1 2) (Some 1) (PyInt 7) [sample_document 1 5] (λ _, None)
        (Some "t") default_profile
        (λ _, Some (Bytes "PNG")) (λ _, Some []) None.

(** ** The function [main] does not call

    [download_image(url, filename)], lines 68-72.  The answer of
    [requests.get] comes from [requests_get]: the body of the response, or
    the exception the request raises.  A response is written whatever its
    status. *)
Definition download_image (requests_get : string → exn + content)
    (url filename : string) : M unit :=
  match requests_get url with
  | inl e => raise e
  | inr response_content => write_file filename response_content
  end.

(** ** Further observations *)

(** The archives uploaded *)
Definition uploads (evs : list event) : list content :=
  omap (λ ev, match ev with EvUpload c => Some c | _ => None end) evs.

(** [st] with [evs] added to its log and nothing else changed *)
Definition with_log (evs : list event) (st : State) : State :=
  mkState (st_log st ++ evs) (st_cwd st) (st_fs st) (st_credentials st).

(** A computation that never ends in [sys.exit] *)
Definition never_exits {A} (m : M A) : Prop :=
  ∀ st c st', m st ≠ (Exit c, st').

(** ** Running the monad *)

Lemma bind_Ok {A B} (m : M A) (k : A → M B) st a st' :
  m st = (Ok a, st') → bind m k st = k a st'.
Proof. unfold bind. by intros ->. Qed.

Lemma Zrange_length lo hi : length (Zrange lo hi) = Z.to_nat (hi - lo).
Proof. apply length_seqZ. Qed.

Lemma elem_of_Zrange lo hi x : x ∈ Zrange lo hi ↔ lo ≤ x < hi.
Proof. unfold Zrange. rewrite elem_of_seqZ. lia. Qed.

Lemma seq_sorted j n : StronglySorted lt (seq j n).
Proof.
  revert j. induction n as [|n IH]; intros j; [constructor|].
  cbn [seq]. constructor; [apply IH|].
  apply Forall_forall. intros x Hx%elem_of_seq. lia.
Qed.

Lemma Zrange_sorted lo hi : StronglySorted Z.lt (Zrange lo hi).
Proof.
  unfold Zrange, seqZ.
  apply (StronglySorted_fmap _ lt); [intros x y; lia|apply seq_sorted].
Qed.

Lemma NoDup_Zrange lo hi : NoDup (Zrange lo hi).
Proof. apply NoDup_seqZ. Qed.

Lemma pages_of_length s e doc :
  Z.of_nat (length (pages_of s e doc)) = Z.max 0 (raw_pages s e doc).
Proof. unfold pages_of, raw_pages. rewrite Zrange_length. lia. Qed.

(** ** The cost estimator *)

Section Cost.
Context (self : Env).

Lemma cost_step_int s e total doc st :
  data self !! "end_page" = Some (PyInt e) →
  data_get self "start_page" (PyInt 1) = PyInt s →
  cost_step self total doc st = (Ok (total + raw_pages s e doc), st).
Proof.
  intros He Hs. unfold cost_step, raw_pages. rewrite Hs.
  unfold data_get at 1 2. rewrite He.
  unfold py_le, py_compare, py_sub, py_add, py_arith, bind, ret. simpl.
  destruct (Z.compare_spec e (Document.page_count doc)); simpl;
    do 2 f_equal; lia.
Qed.

Lemma cost_loop_int s e docs : ∀ total st,
  data self !! "end_page" = Some (PyInt e) →
  data_get self "start_page" (PyInt 1) = PyInt s →
  cost_loop self total docs st = (Ok (total + Zsum (raw_pages s e <$> docs)), st).
Proof.
  induction docs as [|doc docs IH]; intros total st He Hs.
  - cbn. unfold ret. by rewrite Z.add_0_r.
  - cbn [cost_loop]. erewrite bind_Ok by by apply cost_step_int.
    rewrite IH by done. rewrite fmap_cons. cbn [Zsum foldr].
    by rewrite Z.add_assoc.
Qed.

Lemma cost_loop_int_cost s e docs st :
  data self !! "end_page" = Some (PyInt e) →
  data_get self "start_page" (PyInt 1) = PyInt s →
  calculate_cost self docs st = (Ok (Zsum (raw_pages s e <$> docs) * 10), st).
Proof.
  intros He Hs. unfold calculate_cost. erewrite bind_Ok by by apply cost_loop_int.
  by rewrite Z.add_0_l.
Qed.

(** The estimator never changes the state, whatever it returns. *)
Lemma cost_step_pure total doc st r st' :
  cost_step self total doc st = (r, st') → st' = st.
Proof.
  unfold cost_step, py_le, py_compare, py_sub, py_add, py_arith, bind, ret, raise.
  repeat (case_match; simplify_eq/=); congruence.
Qed.

Lemma cost_loop_pure docs : ∀ total st r st',
  cost_loop self total docs st = (r, st') → st' = st.
Proof.
  induction docs as [|doc docs IH]; intros total st r st'; simpl.
  - unfold ret. congruence.
  - unfold bind. destruct (cost_step self total doc st) as [[t|c|e] st1] eqn:E;
      apply cost_step_pure in E as ->; [by apply IH|congruence..].
Qed.

Lemma calculate_cost_pure docs st r st' :
  calculate_cost self docs st = (r, st') → st' = st.
Proof.
  unfold calculate_cost, bind.
  destruct (cost_loop self 0 docs st) as [[t|c|e] st1] eqn:E;
    apply cost_loop_pure in E as ->; unfold ret; congruence.
Qed.

Lemma Zsum_raw_pages_nonpos s e docs :
  e < s → Zsum (raw_pages s e <$> docs) ≤ 0.
Proof.
  intros Hes. induction docs as [|doc docs IH]; [done|].
  rewrite fmap_cons. cbn [Zsum foldr]. fold (Zsum (raw_pages s e <$> docs)).
  unfold raw_pages at 1. lia.
Qed.
End Cost.

(** ** The cost estimator: the formula *)

(** C1. With [end_page] configured as the integer [e] and [start_page] read
    as the integer [s] (its default is 1), [calculate_cost] returns ten times
    the sum over the documents of [min(e, page_count) - s + 1]; the sum is not
    clamped, so it is at most zero when [e < s]; and the call leaves the
    state as it found it. *)
Theorem C1_calculate_cost_formula (self : Env) (docs : list Document.t)
    (s e : Z) (st : State) :
  data self !! "end_page" = Some (PyInt e) →
  data_get self "start_page" (PyInt 1) = PyInt s →
  let total :=
    Zsum ((λ doc, Z.min e (Document.page_count doc) - s + 1) <$> docs) in
  calculate_cost self docs st = (Ok (total * 10), st)
  ∧ (e < s → total * 10 ≤ 0).
Proof.
  intros He Hs total. change total with (Zsum (raw_pages s e <$> docs)).
  split.
  - unfold calculate_cost. erewrite bind_Ok by by apply cost_loop_int.
    by rewrite Z.add_0_l.
  - intros Hes. pose proof (Zsum_raw_pages_nonpos s e docs Hes). lia.
Qed.

Lemma C1_calculate_cost_witness :
  calculate_cost (sample_env (page_config 5 2) [sample_document 1 10] [])
    [sample_document 1 10] (initial_state [] ∅)
  = (Ok (-20), initial_state [] ∅).
Proof.
  pose proof (C1_calculate_cost_formula
    (sample_env (page_config 5 2) [sample_document 1 10] [])
    [sample_document 1 10] 5 2 (initial_state [] ∅) eq_refl eq_refl) as [H _].
  exact H.
Defined.

(** ** Early exits *)

Section Exits.
Context (self : Env).

Lemma validate_refused n c e st :
  get_document_count self = Some n →
  truthy (org_id self) = true →
  calculate_cost self (get_documents self) st = (Ok c, st) →
  charge_credits_raises self c = Some e →
  e = ValueError ∨ e = APIError →
  validate self st = (Ok false, st).
Proof.
  intros Hn Horg Hc Hch He. unfold validate. rewrite Hn, Horg. simpl.
  erewrite bind_Ok by done.
  unfold try_except, charge_credits, bind, raise. rewrite Hch.
  by destruct He as [-> | ->].
Qed.

(** What a [validate] that returns [True] has done: computed the cost
    and charged it, and nothing else. *)
Lemma validate_true_inv st st1 :
  validate self st = (Ok true, st1) →
  ∃ c, calculate_cost self (get_documents self) st = (Ok c, st)
       ∧ charge_credits_raises self c = None
       ∧ st1 = add_event (EvCharge c) st.
Proof.
  unfold validate.
  destruct (get_document_count self); [|by unfold bind, set_message, log_event].
  destruct (negb _); [by unfold bind, set_message, log_event|].
  unfold bind at 1.
  destruct (calculate_cost _ _ _) as [[c|x|x] st0] eqn:E; [|done..].
  pose proof (calculate_cost_pure _ _ _ _ _ E) as ->.
  unfold try_except, charge_credits, bind, raise, ret.
  destruct (charge_credits_raises self c) as [x|] eqn:Ech.
  - destruct x; simpl; congruence.
  - simpl. intros [= <-]. eauto.
Qed.
End Exits.

(** X21. When [get_document_count()] is [None], [main] sets the
    no-documents message and exits with status 0; that message is the only
    call made: no charge, no image request, no analysis, no file. *)
Theorem X21_no_document_count_exit (self : Env) (st : State) :
  get_document_count self = None →
  main self st = (Exit 0, add_event (EvMessage msg_no_documents) st).
Proof.
  intros Hn. unfold main, validate. rewrite Hn.
  by unfold bind, set_message, log_event, sys_exit.
Qed.

Lemma X21_no_document_count_exit_witness :
  main (mkEnv ∅ None (PyInt 7) [] (λ _, None) None default_profile
              (λ _, None) (λ _, None) None)
       (initial_state [] ∅)
  = (Exit 0, mkState [EvMessage msg_no_documents] [] ∅ None).
Proof.
  exact (X21_no_document_count_exit
    (mkEnv ∅ None (PyInt 7) [] (λ _, None) None default_profile
           (λ _, None) (λ _, None) None)
    (initial_state [] ∅) eq_refl).
Defined.

(** C8 (the program departs from the claim).  [validate] stops a job
    without documents only when [get_document_count()] is [None].  With
    nothing selected and no search that is the case, and the job ends with
    the no-documents message.  With a search that matches no document the
    count is 0 and the list of documents is empty: the test [is None] lets
    the job through, 0 credits are charged, no message is set, and the job
    goes on to write and upload an archive without entries. *)
Theorem C8_empty_search_not_stopped :
  main empty_selection_job (initial_state [] ∅)
  = (Exit 0, mkState [EvMessage msg_no_documents] [] ∅ None)
  ∧ get_document_count empty_search_job = Some 0
  ∧ get_documents empty_search_job = []
  ∧ ∃ st', main empty_search_job (initial_state [] ∅) = (Ok tt, st')
           ∧ st_log st'
             = [EvCharge 0;
                EvWrite ["out"; "all_tables.zip"] (ZipArchive []);
                EvUpload (ZipArchive [])].
Proof.
  split; [reflexivity|]. split; [reflexivity|]. split; [reflexivity|].
  eexists. split; [vm_compute; reflexivity|].
  reflexivity.
Qed.

(** C9. When [charge_credits] raises [ValueError] or [APIError], in either
    case [main] sets the insufficient-credits message and exits with status
    0; the final state is the same for both, nothing was charged, and no
    page was requested, analysed or written. *)
Theorem C9_charge_failure_exit (self : Env) (n c : Z) (e : exn) (st : State) :
  get_document_count self = Some n →
  truthy (org_id self) = true →
  calculate_cost self (get_documents self) st = (Ok c, st) →
  charge_credits_raises self c = Some e →
  e = ValueError ∨ e = APIError →
  main self st = (Exit 0, add_event (EvMessage msg_insufficient) st).
Proof.
  intros Hn Horg Hc Hch He. unfold main.
  erewrite bind_Ok by by eapply validate_refused.
  by unfold bind, set_message, log_event, sys_exit.
Qed.

Lemma C9_charge_failure_witness :
  main (broke_env ValueError (page_config 1 2) [sample_document 1 5]) (initial_state [] ∅)
  = (Exit 0, mkState [EvMessage msg_insufficient] [] ∅ None)
  ∧ main (broke_env APIError (page_config 1 2) [sample_document 1 5]) (initial_state [] ∅)
  = (Exit 0, mkState [EvMessage msg_insufficient] [] ∅ None).
Proof.
  split.
  - exact (C9_charge_failure_exit
      (broke_env ValueError (page_config 1 2) [sample_document 1 5]) 1 20 ValueError
      (initial_state [] ∅) eq_refl eq_refl eq_refl eq_refl (or_introl eq_refl)).
  - exact (C9_charge_failure_exit
      (broke_env APIError (page_config 1 2) [sample_document 1 5]) 1 20 APIError
      (initial_state [] ∅) eq_refl eq_refl eq_refl eq_refl (or_intror eq_refl)).
Defined.

(** C3. Whenever [validate] has returned [True] (the charge went through)
    and the pages read by [main] are integers with [end_page < start_page],
    the cost [c] was computed by [calculate_cost] from the configuration as
    it stands and charged first; [main] then sets the end-before-start
    message and exits with status 0.  The log ends with the charge followed
    by the message: nothing undoes the charge. *)
Theorem C3_charge_before_range_check (self : Env) (s e : Z) (st st1 : State) :
  validate self st = (Ok true, st1) →
  data_get self "start_page" (PyInt 1) = PyInt s →
  data_get self "end_page" (PyInt 1) = PyInt e →
  e < s →
  ∃ c, calculate_cost self (get_documents self) st = (Ok c, st)
       ∧ st1 = add_event (EvCharge c) st
       ∧ main self st
         = (Exit 0, mkState (st_log st ++ [EvCharge c; EvMessage msg_end_before_start])
                            (st_cwd st) (st_fs st) (st_credentials st)).
Proof.
  intros Hv Hs He Hlt.
  destruct (validate_true_inv _ _ _ Hv) as (c & Hc & Hch & ->).
  exists c. split; [done|]. split; [done|].
  unfold main. erewrite bind_Ok by done. rewrite Hs, He. simpl.
  unfold py_lt, py_compare, bind, ret. simpl.
  assert ((e ?= s) = Lt) as -> by by apply Z.compare_lt_iff.
  unfold set_message, log_event, sys_exit, add_event. simpl.
  by rewrite <-app_assoc.
Qed.

Lemma C3_charge_before_range_check_witness :
  ∃ c, calculate_cost (sample_env (page_config 5 2) [sample_document 1 10] [])
         [sample_document 1 10] (initial_state [] ∅) = (Ok c, initial_state [] ∅)
       ∧ add_event (EvCharge (-20)) (initial_state [] ∅)
         = add_event (EvCharge c) (initial_state [] ∅)
       ∧ main (sample_env (page_config 5 2) [sample_document 1 10] []) (initial_state [] ∅)
         = (Exit 0, mkState [EvCharge c; EvMessage msg_end_before_start] [] ∅ None).
Proof.
  apply (C3_charge_before_range_check
    (sample_env (page_config 5 2) [sample_document 1 10] []) 5 2
    (initial_state [] ∅) (add_event (EvCharge (-20)) (initial_state [] ∅))).
  - reflexivity.
  - reflexivity.
  - reflexivity.
  - lia.
Defined.

(** Without [end_page] in the configuration, [calculate_cost] raises
    [TypeError] at the first document, whatever [main] would later read. *)
Lemma unconfigured_end_page_TypeError (self : Env) (n : Z) doc docs (st : State) :
  data self !! "end_page" = None →
  get_document_count self = Some n →
  truthy (org_id self) = true →
  get_documents self = doc :: docs →
  main self st = (Raise TypeError, st).
Proof.
  intros He Hn Horg Hdocs. unfold main, validate. rewrite Hn, Horg, Hdocs.
  cbn [negb]. unfold calculate_cost. cbn [cost_loop].
  unfold cost_step.
  assert (data_get self "end_page" PyNone = PyNone) as ->
    by (unfold data_get; by rewrite He).
  reflexivity.
Qed.

(** C7 (the program departs from the claim).  With nothing configured,
    [main] reads [end_page] as 1 but [calculate_cost] reads it as [None]:
    for one document of three pages the comparison [None <= 3] raises
    [TypeError] before anything is charged.  With [end_page] set to 1
    explicitly the same job charges 10 credits and analyses page 1. *)
Theorem C7_unconfigured_end_page_raises :
  main (sample_env ∅ [sample_document 1 3] []) (initial_state [] ∅)
  = (Raise TypeError, initial_state [] ∅)
  ∧ ∃ st', main (sample_env (<["end_page" := PyInt 1]> ∅) [sample_document 1 3] [])
             (initial_state [] ∅) = (Ok tt, st')
           ∧ [EvCharge 10; EvAnalyze 1 1] ⊆ st_log st'.
Proof.
  split; [reflexivity|].
  eexists. split; [vm_compute; reflexivity|].
  intros x Hx. vm_compute.
  apply elem_of_cons in Hx as [->|Hx]; [by left|].
  apply list_elem_of_singleton in Hx as ->. set_solver.
Qed.

(** ** File names *)

Lemma app_nil_l_s (t : string) : "" +:+ t = t.
Proof. done. Qed.
Lemma app_String a (s t : string) : String a s +:+ t = String a (s +:+ t).
Proof. done. Qed.

Lemma contains_app c s t : contains c (s +:+ t) = contains c s || contains c t.
Proof.
  induction s as [|a s IH]; [done|].
  rewrite app_String. simpl. by case_decide.
Qed.

Lemma all_digits_contains c s :
  is_digit c = false → all_digits s → contains c s = false.
Proof.
  intros Hc. induction s as [|a s IH]; [done|]. simpl.
  intros [Ha Hs]%andb_True. case_decide as E; [|by apply IH].
  subst a. rewrite Hc in Ha. done.
Qed.

Lemma pretty_N_char_digit x : is_digit (pretty_N_char x) = true.
Proof. unfold pretty_N_char. by repeat case_match. Qed.

Lemma pretty_N_go_digits x : ∀ s, all_digits s → all_digits (pretty_N_go x s).
Proof.
  induction (N.lt_wf_0 x) as [x _ IH]; intros s Hs.
  assert (x = 0 ∨ 0 < x)%N as [->|?] by lia.
  - by rewrite pretty_N_go_0.
  - rewrite pretty_N_go_step by done. apply IH; [by apply N.div_lt|].
    simpl. rewrite pretty_N_char_digit. done.
Qed.

Lemma pretty_N_go_length x : ∀ s,
  (String.length s ≤ String.length (pretty_N_go x s))%nat.
Proof.
  induction (N.lt_wf_0 x) as [x _ IH]; intros s.
  assert (x = 0 ∨ 0 < x)%N as [->|?] by lia; [by rewrite pretty_N_go_0|].
  rewrite pretty_N_go_step by done.
  etrans; [|by eapply IH, N.div_lt]. simpl. lia.
Qed.

Lemma pretty_N_digits (x : N) : all_digits (pretty x) ∧ pretty x ≠ "".
Proof.
  unfold pretty, pretty_N. case_decide as E; [done|]. split.
  - by apply pretty_N_go_digits.
  - rewrite pretty_N_go_step by lia.
    intros Heq. pose proof (pretty_N_go_length (x `div` 10)
      (String (pretty_N_char (x `mod` 10)) "")) as Hl.
    rewrite Heq in Hl. simpl in Hl. lia.
Qed.

(** A decimal rendering is a run of digits, after a minus sign when the
    number is negative. *)
Lemma pretty_Z_shape (z : Z) :
  ∃ t, all_digits t ∧ t ≠ "" ∧ (pretty z = t ∨ pretty z = String "-" t).
Proof.
  destruct z as [|x|x].
  - exists "0". eauto.
  - exists (pretty (N.pos x)). destruct (pretty_N_digits (N.pos x)). eauto.
  - exists (pretty (N.pos x)). destruct (pretty_N_digits (N.pos x)). eauto.
Qed.

Lemma all_digits_split s1 : ∀ s2 c r1 r2,
  all_digits s1 → all_digits s2 → is_digit c = false →
  s1 +:+ String c r1 = s2 +:+ String c r2 → s1 = s2 ∧ r1 = r2.
Proof.
  induction s1 as [|a s1 IH]; intros [|b s2] c r1 r2 H1 H2 Hc Heq.
  - rewrite !app_nil_l_s in Heq. by simplify_eq.
  - rewrite app_nil_l_s, app_String in Heq. simplify_eq.
    simpl in H2. rewrite Hc in H2. done.
  - rewrite app_nil_l_s, app_String in Heq. simplify_eq.
    simpl in H1. rewrite Hc in H1. done.
  - rewrite !app_String in Heq. simplify_eq.
    simpl in H1, H2. apply andb_True in H1 as [_ H1]. apply andb_True in H2 as [_ H2].
    destruct (IH s2 c r1 r2 H1 H2 Hc) as [-> ->]; done.
Qed.

Lemma pretty_Z_split (a b : Z) (c : ascii) (r1 r2 : string) :
  is_digit c = false →
  pretty a +:+ String c r1 = pretty b +:+ String c r2 → a = b ∧ r1 = r2.
Proof.
  intros Hc Heq.
  destruct (pretty_Z_shape a) as (ta & Hta & Hna & Ha).
  destruct (pretty_Z_shape b) as (tb & Htb & Hnb & Hb).
  assert (pretty a = pretty b ∧ r1 = r2) as [Hp ->];
    [|split; [by apply (inj pretty)|done]].
  destruct Ha as [Ha|Ha], Hb as [Hb|Hb]; rewrite Ha, Hb in Heq |- *.
  - destruct (all_digits_split ta tb c r1 r2) as [-> ->]; done.
  - destruct ta as [|x ta]; [done|]. rewrite !app_String in Heq. by simplify_eq.
  - destruct tb as [|x tb]; [done|]. rewrite !app_String in Heq. by simplify_eq.
  - rewrite !app_String in Heq. simplify_eq.
    destruct (all_digits_split ta tb c r1 r2) as [-> ->]; done.
Qed.

Lemma pretty_nat_Z (i : nat) : pretty i = pretty (Z.of_nat i).
Proof.
  unfold pretty at 1, pretty_nat. destruct i; [done|]. simpl. done.
Qed.

Lemma table_filename_inj e1 e2 d1 p1 i1 d2 p2 i2 :
  table_filename (String "." e1) d1 p1 i1 = table_filename (String "." e2) d2 p2 i2 →
  d1 = d2 ∧ p1 = p2 ∧ i1 = i2 ∧ e1 = e2.
Proof.
  unfold table_filename. intros H.
  apply pretty_Z_split in H as [-> H]; [|done].
  apply pretty_Z_split in H as [-> H]; [|done].
  rewrite !pretty_nat_Z in H.
  apply (inj (String.app "table")) in H.
  apply pretty_Z_split in H as [H ->]; [|done].
  split; [done|]. split; [done|]. split; [lia|done].
Qed.

Lemma page_filename_dash ext d p : contains "-" (page_filename ext d p) = true.
Proof.
  unfold page_filename. rewrite !contains_app. simpl.
  by rewrite orb_true_r.
Qed.

Lemma pretty_Z_no_slash (z : Z) : contains "/" (pretty z) = false.
Proof.
  destruct (pretty_Z_shape z) as (t & Ht & _ & [-> | ->]).
  - by apply all_digits_contains.
  - simpl. by apply all_digits_contains.
Qed.

Lemma table_filename_no_slash ext d p i :
  contains "/" ext = false → contains "/" (table_filename ext d p i) = false.
Proof.
  intros He. unfold table_filename. rewrite !contains_app, pretty_nat_Z.
  rewrite !pretty_Z_no_slash, He. done.
Qed.

Lemma page_filename_ne ext d p name :
  contains "-" name = false → page_filename ext d p ≠ name.
Proof. intros Hn <-. by rewrite page_filename_dash in Hn. Qed.

(** ** Traces: general facts *)

Global Instance id_observation : Observation (λ evs : list event, evs).
Proof. by split. Qed.

Global Instance omap_observation {X} (f : event → option X) : Observation (omap f).
Proof. split; [done|]. intros l1 l2. apply omap_app. Qed.

Global Instance analysed_observation : Observation analysed.
Proof. apply omap_observation. Qed.
Global Instance table_writes_observation out : Observation (table_writes out).
Proof. apply omap_observation. Qed.
Global Instance archive_writes_observation out : Observation (archive_writes out).
Proof. apply omap_observation. Qed.

Lemma obs_prefix {X} (obs : list event → list X) `{!Observation obs} l1 l2 :
  l1 `prefix_of` l2 → obs l1 `prefix_of` obs l2.
Proof. intros [k ->]. rewrite obs_app. by apply prefix_app_r. Qed.

Lemma extends_nil st : extends [] st st.
Proof. unfold extends. by rewrite app_nil_r. Qed.

Lemma extends_app evs1 evs2 st st1 st2 :
  extends evs1 st st1 → extends evs2 st1 st2 → extends (evs1 ++ evs2) st st2.
Proof.
  intros (Hl1 & Hf1 & Hc1) (Hl2 & Hf2 & Hc2). split; [|split].
  - by rewrite Hl2, Hl1, app_assoc.
  - by rewrite Hf2, Hf1, foldl_app.
  - by rewrite Hc2.
Qed.

Lemma runs_as_obs {A X} (obs : list event → list X) `{!Observation obs}
    d (m : M A) ideal :
  runs_as (λ evs, evs) d m ideal → runs_as obs d m (obs ideal).
Proof.
  intros Hm st r st' Hd Hrun.
  destruct (Hm st r st' Hd Hrun) as (evs & Hext & Hpre & Hok).
  exists evs. split; [done|]. split; [by apply obs_prefix|].
  intros a Ha. destruct (Hok a Ha) as [-> ?]. done.
Qed.

Lemma for_each_runs_as {A X} (obs : list event → list X) `{!Observation obs}
    d (l : list A) (body : A → M unit) (ideal : A → list X) :
  (∀ x, x ∈ l → runs_as obs d (body x) (ideal x)) →
  runs_as obs d (for_each l body) (l ≫= ideal).
Proof.
  induction l as [|x l IH]; intros Hbody st r st' Hd Hrun.
  - injection Hrun as <- <-. exists []. split; [apply extends_nil|].
    rewrite obs_nil. split; [done|]. by intros a _.
  - cbn [for_each] in Hrun. unfold bind in Hrun.
    destruct (body x st) as [[[]|c|e] st1] eqn:Hx.
    + destruct (Hbody x (list_elem_of_here _ _) st _ st1 Hd Hx)
        as (evs1 & Hext1 & _ & Hok1).
      destruct (Hok1 () eq_refl) as [Hobs1 Hd1].
      destruct (IH (λ y Hy, Hbody y (list_elem_of_further _ _ _ Hy)) st1 r st' Hd1 Hrun)
        as (evs2 & Hext2 & Hpre2 & Hok2).
      exists (evs1 ++ evs2). split; [by eapply extends_app|].
      rewrite obs_app, Hobs1, bind_cons. split; [by apply prefix_app|].
      intros a Ha. destruct (Hok2 a Ha) as [-> ?]. done.
    + injection Hrun as <- <-.
      destruct (Hbody x (list_elem_of_here _ _) st _ st1 Hd Hx)
        as (evs1 & Hext1 & Hpre1 & _).
      exists evs1. split; [done|]. rewrite bind_cons.
      split; [by apply prefix_app_r|]. by intros a.
    + injection Hrun as <- <-.
      destruct (Hbody x (list_elem_of_here _ _) st _ st1 Hd Hx)
        as (evs1 & Hext1 & Hpre1 & _).
      exists evs1. split; [done|]. rewrite bind_cons.
      split; [by apply prefix_app_r|]. by intros a.
Qed.

(** ** The steps of the job, as traces *)

Lemma write_file_cases name c st :
  (st_fs st !! (st_cwd st ++ [name]) = Some Dir
   ∧ write_file name c st = (Raise IsADirectoryError, st))
  ∨ (st_fs st !! (st_cwd st ++ [name]) ≠ Some Dir
     ∧ write_file name c st
       = (Ok tt, mkState (st_log st ++ [EvWrite (st_cwd st ++ [name]) c]) (st_cwd st)
                         (<[st_cwd st ++ [name] := File c]> (st_fs st))
                         (st_credentials st))).
Proof.
  unfold write_file.
  destruct (st_fs st !! (st_cwd st ++ [name])) as [[|c']|] eqn:E; [by left|right..];
    by rewrite ?E.
Qed.

Lemma write_file_runs_as d name c :
  runs_as (λ evs, evs) d (write_file name c) [EvWrite (d ++ [name]) c].
Proof.
  intros st r st' Hd Hrun.
  destruct (write_file_cases name c st) as [[_ H]|[_ H]]; rewrite H in Hrun;
    injection Hrun as <- <-.
  - exists []. split; [apply extends_nil|]. split; [apply prefix_nil|done].
  - exists [EvWrite (d ++ [name]) c]. rewrite Hd. split; [by split|].
    split; [done|]. by intros a _.
Qed.

Lemma chdir_up st :
  chdir ".." st = (Ok tt, set_cwd (removelast (st_cwd st)) st).
Proof. done. Qed.

(** Stepping into [tables], working there, and stepping back *)
Lemma in_tables_runs_as out (loop : M unit) ideal :
  runs_as (λ evs, evs) (out ++ ["tables"]) loop ideal →
  runs_as (λ evs, evs) out (chdir "tables" ;; loop ;; chdir "..") ideal.
Proof.
  intros Hloop st r st' Hd Hrun. unfold bind at 1 in Hrun.
  unfold chdir at 1 in Hrun. cbn [String.eqb Ascii.eqb Bool.eqb] in Hrun.
  destruct (st_fs st !! (st_cwd st ++ ["tables"])) as [[|c]|] eqn:E;
    [|injection Hrun as <- <-; exists []; split;
       [apply extends_nil|split; [apply prefix_nil|done]]..].
  unfold bind in Hrun.
  destruct (loop (set_cwd (st_cwd st ++ ["tables"]) st)) as [r1 st2] eqn:Hl.
  assert (st_cwd (set_cwd (st_cwd st ++ ["tables"]) st) = out ++ ["tables"]) as Hd1
    by by rewrite <-Hd.
  destruct (Hloop _ _ _ Hd1 Hl) as (evs & Hext & Hpre & Hok).
  exists evs. destruct r1 as [[]|c|e].
  - destruct (Hok () eq_refl) as [-> Hd2]. rewrite chdir_up in Hrun.
    injection Hrun as <- <-. split; [exact Hext|]. split; [done|].
    intros a _. split; [done|]. simpl. rewrite Hd2. apply removelast_last.
  - injection Hrun as <- <-. split; [exact Hext|]. split; [done|]. by intros a.
  - injection Hrun as <- <-. split; [exact Hext|]. split; [done|]. by intros a.
Qed.

Lemma seq_bind_lookup {A B} (f : nat → A → B) (l : list A) :
  (seq 0 (length l) ≫= λ i, match l !! i with Some t => [f i t] | None => [] end)
  = imap f l.
Proof.
  revert f. induction l as [|x l IH]; intros f; [done|].
  cbn [length seq]. rewrite bind_cons, <-fmap_S_seq. cbn [imap lookup].
  f_equal. rewrite <-IH. by rewrite list_fmap_bind.
Qed.

Lemma table_loop_runs_as dir tables (name : nat → string) (cont : Table → content) :
  runs_as (λ evs, evs) dir
    (for_each (seq 0 (length tables)) (λ i,
       table ⇐ table_at tables i; write_file (name i) (cont table)))
    (imap (λ i t, EvWrite (dir ++ [name i]) (cont t)) tables).
Proof.
  rewrite <-seq_bind_lookup. apply for_each_runs_as; [apply _|].
  intros i _ st r st' Hd Hrun. unfold bind, table_at in Hrun.
  destruct (tables !! i) as [t|].
  - by eapply write_file_runs_as.
  - injection Hrun as <- <-. exists []. split; [apply extends_nil|]. done.
Qed.

Lemma write_tables_runs_as out output_format doc p tables :
  runs_as (λ evs, evs) out (write_tables output_format doc p tables)
    (table_events (out ++ ["tables"]) output_format doc p tables).
Proof.
  unfold write_tables, table_events, table_ext, table_content.
  case_decide; apply in_tables_runs_as, table_loop_runs_as.
Qed.

Lemma omap_imap_None {A B C} (f : B → option C) (g : nat → A → B) (l : list A) :
  (∀ i t, f (g i t) = None) → omap f (imap g l) = [].
Proof.
  revert g. induction l as [|x l IH]; intros g Hg; [done|].
  simpl. rewrite Hg. apply IH. intros i t. apply Hg.
Qed.

Lemma analysed_cons ev evs :
  analysed (ev :: evs)
  = match ev with EvAnalyze d p => [(d, p)] | _ => [] end ++ analysed evs.
Proof. by destruct ev. Qed.

Lemma analysed_table_events dir output_format doc p tables :
  analysed (table_events dir output_format doc p tables) = [].
Proof. by apply omap_imap_None. Qed.

Section Pages.
Context (self : Env) (out : path) (output_format : pyval).

(** One page: the calls made are those of [page_events], cut short only
    when a write finds a directory in its way; the page returns only if
    the image request, the decoding and the analysis all succeeded. *)
Lemma process_page_spec doc p st r st' :
  st_cwd st = out →
  process_page self output_format doc p st = (r, st') →
  ∃ evs, extends evs st st'
         ∧ evs `prefix_of` page_events self out output_format doc p
         ∧ (r = Ok tt →
            evs = page_events self out output_format doc p
            ∧ st_cwd st' = out
            ∧ is_Some (page_tables self doc p)).
Proof.
  intros Hd Hrun. destruct st as [log cwd fs cred]. simpl in Hd. subst cwd.
  unfold process_page, page_events, page_tables in *.
  unfold bind at 1, log_event at 1 in Hrun. cbn [st_log st_cwd st_fs st_credentials] in Hrun.
  destruct (Document.get_large_image doc p) as [img|].
  2:{ injection Hrun as <- <-. exists [EvGetImage (Document.id doc) p].
      split; [by split|]. split; [done|]. by intros. }
  set (gif := page_filename ".gif" (Document.id doc) p) in *.
  set (png := page_filename ".png" (Document.id doc) p) in *.
  unfold bind at 1 in Hrun.
  destruct (write_file_cases gif img
              (mkState (log ++ [EvGetImage (Document.id doc) p]) out fs cred))
    as [[_ H]|[_ H]]; rewrite H in Hrun; clear H.
  { injection Hrun as <- <-. exists [EvGetImage (Document.id doc) p].
    split; [by split|]. split; [by apply prefix_cons, prefix_nil|]. by intros. }
  cbn [st_log st_cwd st_fs st_credentials] in Hrun.
  unfold bind at 1, convert_to_png, bind at 1, read_file at 1 in Hrun.
  cbn [st_log st_cwd st_fs st_credentials] in Hrun.
  rewrite lookup_insert_eq in Hrun.
  destruct (gif_to_png self img) as [pngc|].
  2:{ injection Hrun as <- <-.
      exists [EvGetImage (Document.id doc) p; EvWrite (out ++ [gif]) img].
      split; [split; [by rewrite <-app_assoc|done]|]. split; [done|]. by intros. }
  match type of Hrun with context [write_file png pngc ?s] =>
    destruct (write_file_cases png pngc s) as [[_ H]|[_ H]]; rewrite H in Hrun; clear H
  end.
  { injection Hrun as <- <-.
    exists [EvGetImage (Document.id doc) p; EvWrite (out ++ [gif]) img].
    split; [split; [by rewrite <-app_assoc|done]|].
    split; [by do 2 apply prefix_cons; apply prefix_nil|]. by intros. }
  cbn [st_log st_cwd st_fs st_credentials] in Hrun.
  unfold bind at 1, read_file at 1 in Hrun.
  cbn [st_log st_cwd st_fs st_credentials] in Hrun.
  rewrite lookup_insert_eq in Hrun.
  unfold bind at 1, log_event at 1 in Hrun.
  cbn [st_log st_cwd st_fs st_credentials] in Hrun.
  set (pre := [EvGetImage (Document.id doc) p; EvWrite (out ++ [gif]) img;
               EvWrite (out ++ [png]) pngc; EvAnalyze (Document.id doc) p]).
  match type of Hrun with context [mkState ?l out ?f cred] =>
    assert (extends pre (mkState log out fs cred) (mkState l out f cred)) as Hpre
      by (split; [by rewrite <-!app_assoc|done]);
    set (st4 := mkState l out f cred) in *
  end.
  destruct (analyze_document self pngc) as [tables|].
  2:{ injection Hrun as <- <-. exists pre. split; [done|]. split; [done|]. by intros. }
  destruct (write_tables_runs_as out output_format (Document.id doc) p tables
              st4 r st' eq_refl Hrun) as (evs & Hext & Hpr & Hok).
  exists (pre ++ evs). split; [by eapply extends_app|].
  split; [by apply (prefix_app pre)|].
  intros ->. destruct (Hok () eq_refl) as [-> ?]. done.
Qed.

Lemma page_events_analysed doc p :
  analysed (page_events self out output_format doc p)
    `prefix_of` [(Document.id doc, p)]
  ∧ (is_Some (page_tables self doc p) →
     analysed (page_events self out output_format doc p) = [(Document.id doc, p)]).
Proof.
  unfold page_events, page_tables.
  destruct (Document.get_large_image doc p) as [img|];
    [|split; [apply prefix_nil|by intros [? ?]]].
  destruct (gif_to_png self img) as [png|];
    [|split; [apply prefix_nil|by intros [? ?]]].
  destruct (analyze_document self png) as [tables|];
    [|split; [reflexivity|by intros [? ?]]].
  rewrite !analysed_cons, analysed_table_events. done.
Qed.

Lemma process_page_analysed doc p :
  runs_as analysed out (process_page self output_format doc p)
    [(Document.id doc, p)].
Proof.
  intros st r st' Hd Hrun.
  destruct (process_page_spec doc p st r st' Hd Hrun) as (evs & Hext & Hpre & Hok).
  destruct (page_events_analysed doc p) as [Hp Heq].
  exists evs. split; [done|]. split.
  - apply (obs_prefix analysed) in Hpre. by etrans.
  - intros [] ->. destruct (Hok eq_refl) as (-> & ? & Hts). auto.
Qed.

Lemma process_page_obs {X} (obs : list event → list X) `{!Observation obs} doc p :
  runs_as obs out (process_page self output_format doc p)
    (obs (page_events self out output_format doc p)).
Proof.
  apply runs_as_obs; [done|]. intros st r st' Hd Hrun.
  destruct (process_page_spec doc p st r st' Hd Hrun) as (evs & Hext & Hpre & Hok).
  exists evs. split; [done|]. split; [done|].
  intros [] ->. by destruct (Hok eq_refl) as (-> & ? & _).
Qed.

(** One document, for integer pages: the pages [s .. min(e, page_count)] *)
Lemma process_document_runs_as {X} (obs : list event → list X)
    `{!Observation obs} (ideal : Document.t → Z → list X) s e doc :
  (∀ p, runs_as obs out (process_page self output_format doc p) (ideal doc p)) →
  runs_as obs out (process_document self output_format (PyInt s) (PyInt e) doc)
    (pages_of s e doc ≫= ideal doc).
Proof.
  intros Hpage. unfold process_document, py_add, py_arith, py_gt, py_compare, py_range.
  intros st r st' Hd Hrun. unfold bind at 1 2 3 4, ret in Hrun.
  assert ((if match e ?= Document.page_count doc with Gt => true | _ => false end
           then Document.page_count doc + 1 else e + 1)
          = Z.min e (Document.page_count doc) + 1) as Hb.
  { destruct (Z.compare_spec e (Document.page_count doc)); lia. }
  rewrite Hb in Hrun.
  eapply (for_each_runs_as obs out _ _ (ideal doc)); [|done|exact Hrun].
  intros p _. apply Hpage.
Qed.

Lemma process_documents_runs_as {X} (obs : list event → list X)
    `{!Observation obs} (ideal : Document.t → Z → list X) s e docs :
  (∀ doc p, runs_as obs out (process_page self output_format doc p) (ideal doc p)) →
  runs_as obs out
    (for_each docs (process_document self output_format (PyInt s) (PyInt e)))
    (docs ≫= λ doc, pages_of s e doc ≫= ideal doc).
Proof.
  intros Hpage. apply for_each_runs_as; [done|].
  intros doc _. by apply process_document_runs_as.
Qed.

(** A document whose last page in range lies before [s] is passed over:
    nothing happens and the loop goes on. *)
Lemma process_document_empty s e doc st :
  Z.min e (Document.page_count doc) < s →
  process_document self output_format (PyInt s) (PyInt e) doc st = (Ok tt, st).
Proof.
  intros Hlt. unfold process_document, py_add, py_arith, py_gt, py_compare, py_range.
  unfold bind, ret.
  assert ((if match e ?= Document.page_count doc with Gt => true | _ => false end
           then Document.page_count doc + 1 else e + 1)
          = Z.min e (Document.page_count doc) + 1) as ->.
  { destruct (Z.compare_spec e (Document.page_count doc)); lia. }
  unfold Zrange. by rewrite seqZ_nil by lia.
Qed.
End Pages.

(** ** The job as a whole *)

Section Job.
Context (self : Env).

Lemma validate_cases st rv st1 :
  validate self st = (rv, st1) →
  (rv = Ok true
   ∧ ∃ c, calculate_cost self (get_documents self) st = (Ok c, st)
          ∧ charge_credits_raises self c = None
          ∧ st1 = add_event (EvCharge c) st)
  ∨ (rv ≠ Ok true
     ∧ ∃ evs, extends evs st st1 ∧ st_cwd st1 = st_cwd st
              ∧ Forall is_gate_event evs).
Proof.
  assert (∀ r, r ≠ Ok true →
    (r = Ok true ∧ ∃ c, calculate_cost self (get_documents self) st = (Ok c, st)
          ∧ charge_credits_raises self c = None
          ∧ st = add_event (EvCharge c) st)
    ∨ (r ≠ Ok true ∧ ∃ evs, extends evs st st ∧ st_cwd st = st_cwd st
              ∧ Forall is_gate_event evs)) as Hstay.
  { intros r Hr. right. split; [done|]. exists [].
    split; [apply extends_nil|by split]. }
  assert (∀ msg,
    (@Exit bool 0 = Ok true ∧ ∃ c, calculate_cost self (get_documents self) st = (Ok c, st)
          ∧ charge_credits_raises self c = None
          ∧ add_event (EvMessage msg) st = add_event (EvCharge c) st)
    ∨ (@Exit bool 0 ≠ Ok true
       ∧ ∃ evs, extends evs st (add_event (EvMessage msg) st)
                ∧ st_cwd (add_event (EvMessage msg) st) = st_cwd st
                ∧ Forall is_gate_event evs)) as Hmsg.
  { intros msg. right. split; [done|]. exists [EvMessage msg].
    split; [by split|]. split; [done|]. by repeat constructor. }
  unfold validate. destruct (get_document_count self).
  2:{ unfold bind, set_message, log_event, sys_exit. intros [= <- <-]. apply Hmsg. }
  destruct (negb _).
  { unfold bind, set_message, log_event, sys_exit. intros [= <- <-]. apply Hmsg. }
  unfold bind at 1.
  destruct (calculate_cost _ _ _) as [[c|x|x] st0] eqn:E;
    pose proof (calculate_cost_pure _ _ _ _ _ E) as ->.
  2,3: by intros [= <- <-]; apply Hstay.
  unfold try_except, charge_credits, bind, raise, ret, log_event.
  destruct (charge_credits_raises self c) as [x|] eqn:Hch.
  - destruct x; simpl; intros [= <- <-]; by apply Hstay.
  - intros [= <- <-]. left. split; [done|]. by exists c.
Qed.

(** Either [main] stops at the gate (cost, charge, range checks), having
    made only ledger and message calls, or the pages it read are integers
    [1 <= s <= e], the cost was charged, and what remains is
    [extract_tables]. *)
Lemma main_cases st r st' :
  main self st = (r, st') →
  ((∀ a, r ≠ Ok a)
   ∧ ∃ evs, extends evs st st' ∧ st_cwd st' = st_cwd st ∧ Forall is_gate_event evs)
  ∨ (∃ c s e,
       calculate_cost self (get_documents self) st = (Ok c, st)
       ∧ charge_credits_raises self c = None
       ∧ data_get self "start_page" (PyInt 1) = PyInt s
       ∧ data_get self "end_page" (PyInt 1) = PyInt e
       ∧ 1 ≤ s ≤ e
       ∧ extract_tables self (data_get self "output_format" (PyStr "csv"))
           (PyInt s) (PyInt e) (add_event (EvCharge c) st) = (r, st')).
Proof.
  unfold main. unfold bind at 1.
  destruct (validate self st) as [rv st1] eqn:Hv.
  destruct (validate_cases _ _ _ Hv)
    as [[-> (c & Hc & Hch & ->)] | [Hne (evs & Hext & Hcwd & Hg)]].
  - cbn [negb].
    assert (∀ r0 : outcome unit, (∀ a, r0 ≠ Ok a) →
      ((∀ a, r0 ≠ Ok a)
       ∧ ∃ evs, extends evs st (add_event (EvCharge c) st)
                ∧ st_cwd (add_event (EvCharge c) st) = st_cwd st
                ∧ Forall is_gate_event evs)
      ∨ (∃ c0 s e,
           calculate_cost self (get_documents self) st = (Ok c0, st)
           ∧ charge_credits_raises self c0 = None
           ∧ data_get self "start_page" (PyInt 1) = PyInt s
           ∧ data_get self "end_page" (PyInt 1) = PyInt e
           ∧ 1 ≤ s ≤ e
           ∧ extract_tables self (data_get self "output_format" (PyStr "csv"))
               (PyInt s) (PyInt e) (add_event (EvCharge c0) st)
             = (r0, add_event (EvCharge c) st))) as Hstop.
    { intros r0 Hr0. left. split; [done|]. exists [EvCharge c].
      split; [by split|]. split; [done|]. by repeat constructor. }
    assert (∀ msg,
      ((∀ a : unit, Exit 0 ≠ Ok a)
       ∧ ∃ evs, extends evs st (add_event (EvMessage msg) (add_event (EvCharge c) st))
                ∧ st_cwd (add_event (EvMessage msg) (add_event (EvCharge c) st))
                  = st_cwd st
                ∧ Forall is_gate_event evs)
      ∨ (∃ c0 s e,
           calculate_cost self (get_documents self) st = (Ok c0, st)
           ∧ charge_credits_raises self c0 = None
           ∧ data_get self "start_page" (PyInt 1) = PyInt s
           ∧ data_get self "end_page" (PyInt 1) = PyInt e
           ∧ 1 ≤ s ≤ e
           ∧ extract_tables self (data_get self "output_format" (PyStr "csv"))
               (PyInt s) (PyInt e) (add_event (EvCharge c0) st)
             = (Exit 0, add_event (EvMessage msg) (add_event (EvCharge c) st))))
      as Hmsg.
    { intros msg. left. split; [done|]. exists [EvCharge c; EvMessage msg].
      split; [split; [simpl; by rewrite <-app_assoc|done]|].
      split; [done|]. by repeat constructor. }
    destruct (data_get self "end_page" (PyInt 1)) as [|e|e] eqn:He;
      destruct (data_get self "start_page" (PyInt 1)) as [|s|s] eqn:Hs;
      unfold py_lt, py_compare, bind, ret, raise;
      try (intros [= <- <-]; by apply Hstop).
    + destruct (Z.compare_spec e s).
      * destruct (Z.compare_spec s 1).
        -- intros Hrun. right. exists c, s, e. repeat (split; [done || lia|]). done.
        -- unfold set_message, log_event, sys_exit. intros [= <- <-]. apply Hmsg.
        -- intros Hrun. right. exists c, s, e. repeat (split; [done || lia|]). done.
      * unfold set_message, log_event, sys_exit. intros [= <- <-]. apply Hmsg.
      * destruct (Z.compare_spec s 1).
        -- intros Hrun. right. exists c, s, e. repeat (split; [done || lia|]). done.
        -- unfold set_message, log_event, sys_exit. intros [= <- <-]. apply Hmsg.
        -- intros Hrun. right. exists c, s, e. repeat (split; [done || lia|]). done.
    + destruct (String.compare e s);
        try (intros [= <- <-]; by apply Hstop).
      unfold set_message, log_event, sys_exit. intros [= <- <-]. apply Hmsg.
  - intros Hrun. left. destruct rv as [[]|x|x]; [done|..].
    + unfold bind, set_message, log_event, sys_exit in Hrun. simpl in Hrun.
      injection Hrun as <- <-. split; [done|].
      exists (evs ++ [EvMessage msg_insufficient]).
      split; [|split; [done|]].
      * eapply extends_app; [done|]. by split.
      * apply Forall_app. split; [done|]. by repeat constructor.
    + injection Hrun as <- <-. split; [done|]. eauto.
    + injection Hrun as <- <-. split; [done|]. eauto.
Qed.

(** [extract_tables] either fails while it sets up (no call made), or
    reaches the loop in the state [loop_start]: the service client was
    built from the credential file that holds [TOKEN]. *)
Lemma extract_tables_cases output_format start_page end_page st r st' :
  extract_tables self output_format start_page end_page st = (r, st') →
  ((∀ a, r ≠ Ok a) ∧ st_log st' = st_log st)
  ∨ (∃ tok,
       (environ_TOKEN self = Some tok ∧ textractor_raises self (Some tok) = None)
       ∧ st_fs st !! (st_cwd st ++ ["out"]) = None
       ∧ st_fs st !! ((st_cwd st ++ ["out"]) ++ ["tables"]) = None
       ∧ (for_each (get_documents self)
            (process_document self output_format start_page end_page) ;;
          write_archive ;; upload_file self "all_tables.zip") (loop_start st tok)
         = (r, st')).
Proof.
  unfold extract_tables, setup_credential_file.
  destruct (environ_TOKEN self) as [tok|];
    [|unfold bind, raise; intros [= <- <-]; by left].
  unfold bind at 1 2, Textractor at 1. cbn [st_log st_cwd st_fs st_credentials].
  destruct (textractor_raises self (Some tok)) as [x|] eqn:Etex;
    [intros [= <- <-]; by left|].
  unfold bind at 1, makedirs at 1. cbn [st_log st_cwd st_fs st_credentials].
  destruct (st_fs st !! (st_cwd st ++ ["out"])) eqn:Eout;
    [intros [= <- <-]; by left|].
  unfold set_fs. cbn [st_log st_cwd st_fs st_credentials].
  unfold bind at 1, chdir at 1. cbn [String.eqb Ascii.eqb Bool.eqb].
  cbn [st_log st_cwd st_fs st_credentials]. rewrite lookup_insert_eq.
  unfold set_cwd. cbn [st_log st_cwd st_fs st_credentials].
  unfold bind at 1, makedirs at 1. cbn [st_log st_cwd st_fs st_credentials].
  rewrite lookup_insert_ne by (intros H; by apply (f_equal length) in H;
    rewrite !length_app in H; simpl in H; lia).
  destruct (st_fs st !! ((st_cwd st ++ ["out"]) ++ ["tables"])) eqn:Etab;
    [intros [= <- <-]; by left|].
  unfold set_fs. cbn [st_log st_cwd st_fs st_credentials].
  intros Hrun. right. exists tok. by repeat split.
Qed.

(** The archive and its upload, from a state [st] in directory [out] *)
Lemma finish_cases out st r st' :
  st_cwd st = out →
  (write_archive ;; upload_file self "all_tables.zip") st = (r, st') →
  let ar := ZipArchive (archive_entries out (st_fs st)) in
  let zip := out ++ ["all_tables.zip"] in
  ∃ tail, st_log st' = st_log st ++ tail
          ∧ tail `prefix_of` [EvWrite zip ar; EvUpload ar]
          ∧ (∀ a, r = Ok a →
               tail = [EvWrite zip ar; EvUpload ar]
               ∧ upload_file_raises self = None
               ∧ st_fs st !! zip ≠ Some Dir
               ∧ st_fs st' = <[zip := File ar]> (st_fs st)
               ∧ st_cwd st' = out).
Proof.
  intros Hd. unfold bind at 1, write_archive. rewrite Hd.
  fold (archive_entries out (st_fs st)).
  destruct (write_file_cases "all_tables.zip"
              (ZipArchive (archive_entries out (st_fs st))) st) as [[_ H]|[Hnd H]];
    rewrite H; clear H.
  { intros [= <- <-]. exists []. rewrite app_nil_r.
    split; [done|]. split; [apply prefix_nil|]. by intros a. }
  unfold upload_file, bind at 1, read_file at 1.
  cbn [st_log st_cwd st_fs st_credentials]. rewrite lookup_insert_eq, Hd.
  destruct (upload_file_raises self) as [x|].
  - intros [= <- <-]. eexists [_]. split; [done|].
    split; [by apply prefix_cons, prefix_nil|]. by intros a.
  - unfold log_event. intros [= <- <-]. eexists [_; _].
    cbn [st_log st_cwd st_fs st_credentials]. rewrite <-app_assoc.
    split; [done|]. split; [done|]. intros a _. rewrite Hd in Hnd. done.
Qed.

Lemma obs_gate_events {X} (obs : list event → list X) `{!Observation obs} evs :
  (∀ ev, is_gate_event ev → obs [ev] = []) →
  Forall is_gate_event evs → obs evs = [].
Proof.
  intros Hg. induction 1 as [|ev evs Hev _ IH]; [apply obs_nil|].
  change (ev :: evs) with ([ev] ++ evs). by rewrite obs_app, Hg, IH.
Qed.

(** The calls of [extract_tables], seen through an observation that sees
    neither the archive nor the upload *)
Lemma extract_tables_obs {X} (obs : list event → list X) `{!Observation obs}
    (ideal : Document.t → Z → list X) output_format s e st r st' :
  (∀ c, obs [EvWrite ((st_cwd st ++ ["out"]) ++ ["all_tables.zip"]) c] = []) →
  (∀ c, obs [EvUpload c] = []) →
  (∀ doc p, runs_as obs (st_cwd st ++ ["out"])
              (process_page self output_format doc p) (ideal doc p)) →
  extract_tables self output_format (PyInt s) (PyInt e) st = (r, st') →
  ∃ evs, st_log st' = st_log st ++ evs
         ∧ obs evs `prefix_of` (get_documents self ≫= λ doc, pages_of s e doc ≫= ideal doc)
         ∧ (∀ a, r = Ok a →
              obs evs = (get_documents self ≫= λ doc, pages_of s e doc ≫= ideal doc)).
Proof.
  intros Hzip Hup Hpage Hrun.
  destruct (extract_tables_cases _ _ _ _ _ _ Hrun)
    as [[Hne Hlog] | (tok & _ & _ & _ & Hloop)].
  { exists []. rewrite app_nil_r, obs_nil. split; [done|].
    split; [apply prefix_nil|]. intros a ->. by destruct (Hne a). }
  unfold bind at 1 in Hloop.
  destruct (for_each _ _ _) as [r1 st2] eqn:Hl in Hloop.
  destruct (process_documents_runs_as self _ output_format obs ideal s e
              (get_documents self) Hpage (loop_start st tok) _ _ eq_refl Hl)
    as (evs1 & (Hlog1 & _ & _) & Hpre1 & Hok1).
  cbn [loop_start st_log] in Hlog1.
  destruct r1 as [[]|x|x].
  2,3: injection Hloop as <- <-; exists evs1; split; [done|]; split; [done|];
       by intros a.
  destruct (Hok1 () eq_refl) as [Hobs1 Hd2].
  destruct (finish_cases _ _ _ _ Hd2 Hloop) as (tail & Hlog2 & Hpre2 & _).
  assert (obs tail = []) as Htail.
  { apply (obs_prefix obs) in Hpre2.
    change [EvWrite ?p ?c; ?u] with ([EvWrite p c] ++ [u]) in Hpre2.
    rewrite obs_app, Hzip, Hup in Hpre2. by apply prefix_nil_inv in Hpre2. }
  exists (evs1 ++ tail). split; [by rewrite Hlog2, Hlog1, app_assoc|].
  rewrite (obs_app (obs:=obs)), Htail, app_nil_r, Hobs1.
  split; [done|]. by intros a _.
Qed.

(** The calls of [main], seen through such an observation that does not
    see the gate either: nothing, or an initial part of the ideal trace of
    the job for integer pages [1 <= s <= e], and all of it if [main]
    returns. *)
Lemma main_obs {X} (obs : list event → list X) `{!Observation obs}
    (ideal : Document.t → Z → list X) st r st' :
  (∀ ev, is_gate_event ev → obs [ev] = []) →
  (∀ c, obs [EvWrite ((st_cwd st ++ ["out"]) ++ ["all_tables.zip"]) c] = []) →
  (∀ c, obs [EvUpload c] = []) →
  (∀ doc p, runs_as obs (st_cwd st ++ ["out"])
              (process_page self (data_get self "output_format" (PyStr "csv")) doc p)
              (ideal doc p)) →
  main self st = (r, st') →
  ∃ evs, st_log st' = st_log st ++ evs
    ∧ (((∀ a, r ≠ Ok a) ∧ obs evs = [])
       ∨ ∃ s e,
           data_get self "start_page" (PyInt 1) = PyInt s
           ∧ data_get self "end_page" (PyInt 1) = PyInt e
           ∧ 1 ≤ s ≤ e
           ∧ obs evs `prefix_of`
               (get_documents self ≫= λ doc, pages_of s e doc ≫= ideal doc)
           ∧ (∀ a, r = Ok a →
                obs evs = (get_documents self ≫= λ doc, pages_of s e doc ≫= ideal doc))).
Proof.
  intros Hgate Hzip Hup Hpage Hrun.
  destruct (main_cases _ _ _ Hrun)
    as [[Hne (evs & (Hlog & _) & _ & Hg)]
       | (c & s & e & _ & _ & Hs & He & Hse & Hex)].
  - exists evs. split; [done|]. left. split; [done|]. by apply obs_gate_events.
  - destruct (extract_tables_obs obs ideal _ s e (add_event (EvCharge c) st)
                r st' Hzip Hup Hpage Hex) as (evs & Hlog & Hpre & Hok).
    exists ([EvCharge c] ++ evs). cbn [add_event st_log] in Hlog.
    split; [by rewrite Hlog, app_assoc|].
    right. exists s, e. rewrite (obs_app (obs:=obs)), Hgate by done.
    split; [done|]. split; [done|]. split; [done|]. split; [done|]. exact Hok.
Qed.
End Job.

(** A run of [main] that returns has analysed every page of the job. *)
Lemma main_analysed_all (self : Env) (st st' : State) :
  main self st = (Ok tt, st') →
  ∃ s e, data_get self "start_page" (PyInt 1) = PyInt s
         ∧ data_get self "end_page" (PyInt 1) = PyInt e
         ∧ ∃ evs, st_log st' = st_log st ++ evs
                  ∧ analysed evs = expected_pages self s e.
Proof.
  intros Hrun.
  destruct (main_obs self analysed (λ doc p, [(Document.id doc, p)]) st (Ok tt) st')
    as (evs & Hlog & Hev); [by intros []|done|done| |done|].
  { intros doc p. apply process_page_analysed. }
  destruct Hev as [[Hne _] | (s & e & Hs & He & _ & _ & Hok)]; [by destruct (Hne tt)|].
  exists s, e. split; [done|]. split; [done|]. exists evs. split; [done|].
  by apply (Hok tt).
Qed.

(** ** Page iteration *)

Lemma analysed_gate ev : is_gate_event ev → analysed [ev] = [].
Proof. by destruct ev. Qed.

(** C4. Take any run of [main] whose pages are read as the integers [s] and
    [e].  The pages submitted for analysis are, document after document in
    the order of the store, the pages of [pages_of s e doc]: these are the
    integers from [s] to [min(e, page_count)], in ascending order.  A run
    that stops early has submitted an initial part of that list, a run that
    returns has submitted all of it.  A document with
    [min(e, page_count) < s] is passed over without error. *)
Theorem C4_pages_in_order (self : Env) (s e : Z) (st st' : State) (r : outcome unit) :
  data_get self "start_page" (PyInt 1) = PyInt s →
  data_get self "end_page" (PyInt 1) = PyInt e →
  main self st = (r, st') →
  (∃ evs, st_log st' = st_log st ++ evs
          ∧ analysed evs `prefix_of` expected_pages self s e
          ∧ (r = Ok tt → analysed evs = expected_pages self s e))
  ∧ (∀ doc, StronglySorted Z.lt (pages_of s e doc)
            ∧ ∀ p, p ∈ pages_of s e doc ↔ s ≤ p ≤ Z.min e (Document.page_count doc))
  ∧ (∀ doc output_format st0,
       Z.min e (Document.page_count doc) < s →
       pages_of s e doc = []
       ∧ process_document self output_format (PyInt s) (PyInt e) doc st0 = (Ok tt, st0)).
Proof.
  intros Hs He Hrun. split; [|split].
  - destruct (main_obs self analysed (λ doc p, [(Document.id doc, p)]) st r st')
      as (evs & Hlog & Hev); [apply analysed_gate|done|done| |done|].
    { intros doc p. apply process_page_analysed. }
    exists evs. split; [done|].
    destruct Hev as [[Hne ->] | (s' & e' & Hs' & He' & _ & Hpre & Hok)].
    + split; [apply prefix_nil|]. intros ->. by destruct (Hne tt).
    + assert (s' = s) as -> by congruence. assert (e' = e) as -> by congruence.
      unfold expected_pages.
      assert ((get_documents self ≫= λ doc, pages_of s e doc ≫= λ p, [(Document.id doc, p)])
              = (get_documents self ≫= λ doc, pair (Document.id doc) <$> pages_of s e doc))
        as <-.
      { f_equal. }
      split; [done|]. intros ->. by apply (Hok tt).
  - intros doc. split; [apply Zrange_sorted|].
    intros p. unfold pages_of. rewrite elem_of_Zrange. lia.
  - intros doc output_format st0 Hlt. split.
    + unfold pages_of, Zrange. by rewrite seqZ_nil by lia.
    + by apply process_document_empty.
Qed.

Lemma C4_pages_in_order_witness :
  analysed (st_log (main sample_job (initial_state [] ∅)).2) = [(1, 2); (1, 3); (2, 2)].
Proof.
  destruct (C4_pages_in_order sample_job 2 3 (initial_state [] ∅)
              (main sample_job (initial_state [] ∅)).2 (Ok tt))
    as [(evs & Hlog & _ & Hok) _].
  - reflexivity.
  - reflexivity.
  - vm_compute. reflexivity.
  - rewrite Hlog. simpl. rewrite (Hok eq_refl). reflexivity.
Defined.

(** ** Output files: names *)

Lemma strip_prefix_app top rel : strip_prefix top (top ++ rel) = Some rel.
Proof. induction top as [|x top IH]; [done|]. simpl. by rewrite decide_True. Qed.

Lemma strip_prefix_Some top : ∀ p rel, strip_prefix top p = Some rel → p = top ++ rel.
Proof.
  induction top as [|x top IH]; intros p rel; simpl; [congruence|].
  destruct p as [|y p]; [done|]. case_decide; [|done].
  intros ->%IH. by subst.
Qed.

Lemma strip_prefix_common out top p :
  strip_prefix (out ++ top) (out ++ p) = strip_prefix top p.
Proof. induction out as [|x out IH]; [done|]. simpl. by rewrite decide_True. Qed.

Lemma table_writes_cons out ev evs :
  table_writes out (ev :: evs) = table_writes out [ev] ++ table_writes out evs.
Proof. apply (obs_app (obs:=table_writes out) [ev] evs). Qed.

Lemma table_writes_sibling out name c :
  table_writes out [EvWrite (out ++ [name]) c] = [].
Proof.
  unfold table_writes. simpl. rewrite strip_prefix_common. simpl.
  by case_decide.
Qed.

Lemma table_writes_gate out ev : is_gate_event ev → table_writes out [ev] = [].
Proof. by destruct ev. Qed.

Lemma omap_imap_Some {A B C} (f : B → option C) (g : nat → A → B)
    (h : nat → A → C) (l : list A) :
  (∀ i t, f (g i t) = Some (h i t)) → omap f (imap g l) = imap h l.
Proof.
  revert g h. induction l as [|x l IH]; intros g h Hg; [done|].
  simpl. rewrite Hg. f_equal. apply IH. intros i t. apply Hg.
Qed.

Lemma table_writes_table_events out output_format doc p tables :
  table_writes out (table_events (out ++ ["tables"]) output_format doc p tables)
  = imap (λ i t, (table_filename (table_ext output_format) doc p i,
                  table_content output_format t)) tables.
Proof.
  apply omap_imap_Some. intros i t. by rewrite strip_prefix_app.
Qed.

Lemma table_writes_page_events self out output_format doc p :
  table_writes out (page_events self out output_format doc p)
  = match page_tables self doc p with
    | Some tables =>
        imap (λ i t, (table_filename (table_ext output_format) (Document.id doc) p i,
                      table_content output_format t)) tables
    | None => []
    end.
Proof.
  unfold page_events, page_tables. rewrite table_writes_cons.
  destruct (Document.get_large_image doc p) as [img|]; [|done].
  rewrite (table_writes_cons _ (EvWrite _ _)), table_writes_sibling.
  destruct (gif_to_png self img) as [png|]; [|done].
  rewrite (table_writes_cons _ (EvWrite _ _)), table_writes_sibling.
  rewrite (table_writes_cons _ (EvAnalyze _ _)).
  destruct (analyze_document self png) as [tables|]; [|done].
  by rewrite table_writes_table_events.
Qed.

Lemma fmap_bind_list {A B C} (f : B → C) (g : A → list B) (l : list A) :
  f <$> (l ≫= g) = l ≫= (λ x, f <$> g x).
Proof.
  induction l as [|x l IH]; [done|]. by rewrite !bind_cons, fmap_app, IH.
Qed.

Lemma NoDup_fmap_inj_on {A B} (f : A → B) (l : list A) x y :
  NoDup (f <$> l) → x ∈ l → y ∈ l → f x = f y → x = y.
Proof.
  induction l as [|z l IH]; [by intros _ ?%elem_of_nil|].
  rewrite fmap_cons, NoDup_cons, !elem_of_cons.
  intros [Hz Hl] [->|Hx] [->|Hy] Hf; [done| | |by apply IH].
  - destruct Hz. rewrite Hf. by apply list_elem_of_fmap_2.
  - destruct Hz. rewrite <-Hf. by apply list_elem_of_fmap_2.
Qed.

Lemma table_ext_cases output_format :
  ∃ ext, table_ext output_format = String "." ext.
Proof. unfold table_ext. case_decide; eauto. Qed.

(** The names of the table files of a whole job are pairwise distinct when
    the documents have distinct identifiers. *)
Lemma job_table_names_NoDup self out output_format s e :
  NoDup (Document.id <$> get_documents self) →
  NoDup ((get_documents self ≫= λ doc, pages_of s e doc ≫= λ p,
            table_writes out (page_events self out output_format doc p)).*1).
Proof.
  intros Hids. destruct (table_ext_cases output_format) as [ext Hext].
  rewrite fmap_bind_list.
  assert (∀ doc p y,
    y ∈ (table_writes out (page_events self out output_format doc p)).*1 →
    ∃ i : nat, y = table_filename (String "." ext) (Document.id doc) p i) as Hname.
  { intros doc p y. rewrite table_writes_page_events.
    destruct (page_tables self doc p) as [tables|]; [|by intros ?%elem_of_nil].
    rewrite fmap_imap. intros (i & t & -> & _)%elem_of_lookup_imap_1.
    exists i. simpl. by rewrite Hext. }
  apply NoDup_bind.
  - intros d1 d2 y Hd1 Hd2.
    rewrite !fmap_bind_list, !list_elem_of_bind.
    intros (p1 & (i1 & ->)%Hname & _) (p2 & (i2 & Heq)%Hname & _).
    apply table_filename_inj in Heq as (Hid & _).
    by eapply NoDup_fmap_inj_on.
  - intros doc _. rewrite fmap_bind_list. apply NoDup_bind.
    + intros p1 p2 y _ _ (i1 & ->)%Hname (i2 & Heq)%Hname.
      by apply table_filename_inj in Heq as (_ & ? & _).
    + intros p _. rewrite table_writes_page_events.
      destruct (page_tables self doc p) as [tables|]; [|constructor].
      rewrite fmap_imap.
      change (λ n : nat, fst ∘ _) with
        (λ (n : nat) (_ : Table),
           table_filename (table_ext output_format) (Document.id doc) p n).
      rewrite imap_seq_0, Hext. apply NoDup_fmap_2; [|apply NoDup_seq].
      intros i1 i2 Heq. by apply table_filename_inj in Heq as (_ & _ & ? & _).
    + apply NoDup_Zrange.
  - by eapply NoDup_fmap_1.
Qed.

Lemma table_writes_archive out c :
  table_writes out [EvWrite (out ++ ["all_tables.zip"]) c] = [].
Proof. apply table_writes_sibling. Qed.

(** C5. (1) A page that is processed to the end has written, for the tables
    [tables] found on it, exactly one file per table into [tables/], table
    [i] under the name [{id}-{page}-table{i}.csv] with its CSV text when the
    configured format is ["csv"], and under [{id}-{page}-table{i}.xlsx] with
    its spreadsheet for any other value.  (2) Two names are equal only for
    equal (document, page, index).  (3) In any run of [main] over documents
    with distinct identifiers, no name is written twice. *)
Theorem C5_output_file_names :
  (∀ self output_format doc p st st',
     process_page self output_format doc p st = (Ok tt, st') →
     ∃ tables evs,
       page_tables self doc p = Some tables
       ∧ st_log st' = st_log st ++ evs
       ∧ table_writes (st_cwd st) evs
         = imap (λ i t,
                   (pretty (Document.id doc) +:+ "-" +:+ pretty p +:+ "-table"
                      +:+ pretty i
                      +:+ (if decide (output_format = PyStr "csv") then ".csv" else ".xlsx"),
                    if decide (output_format = PyStr "csv")
                    then Bytes (to_csv t) else to_excel t)) tables)
  ∧ (∀ output_format d1 p1 i1 d2 p2 i2,
       table_filename (table_ext output_format) d1 p1 i1
       = table_filename (table_ext output_format) d2 p2 i2 →
       d1 = d2 ∧ p1 = p2 ∧ i1 = i2)
  ∧ (∀ self st r st',
       NoDup (Document.id <$> get_documents self) →
       main self st = (r, st') →
       ∃ evs, st_log st' = st_log st ++ evs
              ∧ NoDup (table_writes (st_cwd st ++ ["out"]) evs).*1).
Proof.
  split; [|split].
  - intros self output_format doc p st st' Hrun.
    destruct (process_page_spec self (st_cwd st) output_format doc p st _ st' eq_refl Hrun)
      as (evs & (Hlog & _) & _ & Hok).
    destruct (Hok eq_refl) as (-> & _ & [tables Htables]).
    exists tables, (page_events self (st_cwd st) output_format doc p).
    split; [done|]. split; [done|].
    by rewrite table_writes_page_events, Htables.
  - intros output_format d1 p1 i1 d2 p2 i2 Heq.
    destruct (table_ext_cases output_format) as [ext Hext]. rewrite Hext in Heq.
    apply table_filename_inj in Heq. tauto.
  - intros self st r st' Hids Hrun.
    set (out := st_cwd st ++ ["out"]).
    destruct (main_obs self (table_writes out)
                (λ doc p, table_writes out
                   (page_events self out (data_get self "output_format" (PyStr "csv")) doc p))
                st r st') as (evs & Hlog & Hev).
    { apply table_writes_gate. }
    { apply table_writes_archive. }
    { done. }
    { intros doc p. apply process_page_obs, _. }
    { done. }
    exists evs. split; [done|].
    destruct Hev as [[_ ->] | (s & e & _ & _ & _ & [k Hk] & _)]; [constructor|].
    pose proof (job_table_names_NoDup self out
                  (data_get self "output_format" (PyStr "csv")) s e Hids) as Hnd.
    rewrite Hk, fmap_app in Hnd. by apply NoDup_app in Hnd as [? _].
Qed.

Lemma C5_output_file_names_witness :
  (table_writes ["out"] (st_log (main sample_job (initial_state [] ∅)).2)).*1
  = ["1-2-table0.csv"; "1-2-table1.csv"; "1-3-table0.csv"; "1-3-table1.csv";
     "2-2-table0.csv"; "2-2-table1.csv"]
  ∧ NoDup (table_writes ["out"] (st_log (main sample_job (initial_state [] ∅)).2)).*1.
Proof.
  split; [vm_compute; reflexivity|].
  destruct C5_output_file_names as (_ & _ & H).
  destruct (H sample_job (initial_state [] ∅)
              (main sample_job (initial_state [] ∅)).1
              (main sample_job (initial_state [] ∅)).2) as (evs & Hlog & Hnd).
  - apply (bool_decide_unpack _). vm_compute. reflexivity.
  - apply surjective_pairing.
  - rewrite Hlog. exact Hnd.
Defined.

(** ** The file tree after the loop *)

Lemma lookup_apply_writes_inv p n evs : ∀ fs,
  foldl apply_write fs evs !! p = Some n →
  fs !! p = Some n ∨ ∃ c, n = File c ∧ EvWrite p c ∈ evs.
Proof.
  induction evs as [|ev evs IH]; intros fs Hl; [by left|].
  cbn [foldl] in Hl. destruct (IH _ Hl) as [Hfs|(c & -> & Hc)].
  - destruct ev as [| | | |q c|]; try (by left).
    cbn [apply_write] in Hfs. destruct (decide (q = p)) as [->|Hne].
    + rewrite lookup_insert_eq in Hfs. injection Hfs as <-.
      right. exists c. split; [done|by left].
    + rewrite lookup_insert_ne in Hfs by done. by left.
  - right. exists c. split; [done|by right].
Qed.

Lemma table_writes_single out ev :
  table_writes out [ev]
  = match ev with
    | EvWrite q c =>
        match strip_prefix (out ++ ["tables"]) q with
        | Some [name] => [(name, c)]
        | _ => []
        end
    | _ => []
    end.
Proof.
  destruct ev; try reflexivity.
  unfold table_writes. simpl.
  destruct (strip_prefix (out ++ ["tables"]) p) as [[|n [|n' rel]]|]; reflexivity.
Qed.

(** What lies in [out/tables] under [name] after the writes [evs] *)
Lemma lookup_apply_writes_table out name evs : ∀ fs,
  foldl apply_write fs evs !! ((out ++ ["tables"]) ++ [name])
  = match written_tables out evs !! name with
    | Some c => Some (File c)
    | None => fs !! ((out ++ ["tables"]) ++ [name])
    end.
Proof.
  induction evs as [|ev evs IH] using rev_ind; intros fs; [done|].
  rewrite foldl_app. cbn [foldl]. unfold written_tables.
  rewrite (obs_app (obs:=table_writes out)), reverse_app, table_writes_single.
  fold (written_tables out evs).
  destruct ev as [| | | |q c|]; try (rewrite app_nil_l; apply IH).
  cbn [apply_write].
  destruct (strip_prefix (out ++ ["tables"]) q) as [[|n [|n' rel]]|] eqn:E.
  - rewrite app_nil_l, lookup_insert_ne; [apply IH|].
    intros ->. by rewrite strip_prefix_app in E.
  - apply strip_prefix_Some in E as ->. cbn [reverse rev_append app list_to_map foldr].
    change (reverse [(n, c)]) with [(n, c)]. cbn [app list_to_map foldr].
    destruct (decide (n = name)) as [->|Hne].
    + by rewrite !lookup_insert_eq.
    + rewrite !lookup_insert_ne; [apply IH|done|].
      intros H%app_inv_head. congruence.
  - rewrite app_nil_l, lookup_insert_ne; [apply IH|].
    intros ->. by rewrite strip_prefix_app in E.
  - rewrite app_nil_l, lookup_insert_ne; [apply IH|].
    intros ->. by rewrite strip_prefix_app in E.
Qed.

Lemma fs_wf_below fs out :
  fs_wf fs → out ≠ [] → fs !! out = None → ∀ rel, fs !! (out ++ rel) = None.
Proof.
  intros Hwf Hne Hout rel. induction rel as [|x rel IH] using rev_ind.
  - by rewrite app_nil_r.
  - destruct (fs !! (out ++ rel ++ [x])) as [n|] eqn:E; [|done].
    rewrite app_assoc in E.
    rewrite (Hwf (out ++ rel) x) in IH; [done|by rewrite E|].
    by destruct out.
Qed.

Lemma elem_of_walk_files top fs rel c :
  (rel, c) ∈ walk_files top fs ↔ rel ≠ [] ∧ fs !! (top ++ rel) = Some (File c).
Proof.
  unfold walk_files. rewrite list_elem_of_omap. split.
  - intros ([q n] & Hq%elem_of_map_to_list & Hf). simpl in Hf.
    destruct n as [|c']; [done|].
    destruct (strip_prefix top q) as [[|x rel']|] eqn:E; [done| |done].
    injection Hf as <- <-. apply strip_prefix_Some in E as ->. done.
  - intros [Hne Hl]. exists (top ++ rel, File c).
    split; [by apply elem_of_map_to_list|]. simpl.
    rewrite strip_prefix_app. by destruct rel.
Qed.

Lemma NoDup_omap_keys {A B} (F : path * A → option (path * B)) top (l : list (path * A)) :
  (∀ x y, F x = Some y → x.1 = top ++ y.1) →
  NoDup l.*1 → NoDup (omap F l).*1.
Proof.
  intros HF. induction l as [|x l IH]; [constructor|].
  rewrite fmap_cons, NoDup_cons. intros [Hx Hl]. simpl.
  destruct (F x) as [y|] eqn:E; [|by apply IH].
  rewrite fmap_cons. apply NoDup_cons. split; [|by apply IH].
  intros ([rel c] & Hrel & ([q n] & Hq & Hf)%list_elem_of_omap)%list_elem_of_fmap.
  simpl in Hrel. apply Hx. apply list_elem_of_fmap. exists (q, n). split; [|done].
  rewrite (HF _ _ E), (HF _ _ Hf). simpl. by rewrite Hrel.
Qed.

Lemma walk_files_NoDup top fs : NoDup (walk_files top fs).*1.
Proof.
  apply (NoDup_omap_keys _ top); [|apply NoDup_fst_map_to_list].
  intros [q n] [rel c] Hf. simpl in *. destruct n as [|c']; [done|].
  destruct (strip_prefix top q) as [[|x rel']|] eqn:E; [done| |done].
  injection Hf as <- <-. by apply strip_prefix_Some.
Qed.

Lemma page_events_writes self out output_format doc p :
  Forall (job_write out) (page_events self out output_format doc p).
Proof.
  unfold page_events. constructor; [done|].
  destruct (Document.get_large_image doc p) as [img|]; [|constructor].
  constructor; [left; eauto|].
  destruct (gif_to_png self img) as [png|]; [|constructor].
  constructor; [left; eauto|]. constructor; [done|].
  destruct (analyze_document self png) as [tables|]; [|constructor].
  apply Forall_forall. intros ev (i & t & -> & _)%elem_of_lookup_imap_1.
  right. eexists. by rewrite <-app_assoc.
Qed.

Lemma job_events_writes self out output_format s e :
  Forall (job_write out) (job_events self out output_format s e).
Proof.
  apply Forall_forall. intros ev.
  unfold job_events. rewrite list_elem_of_bind.
  intros (doc & (p & Hev & _)%list_elem_of_bind & _).
  revert ev Hev. apply Forall_forall, page_events_writes.
Qed.

(** The loop never writes the archive, nor the directory [tables], nor
    anything deeper below it. *)
Lemma job_write_archive out evs c :
  Forall (job_write out) evs → EvWrite (out ++ ["all_tables.zip"]) c ∉ evs.
Proof.
  intros Hw Hin. rewrite Forall_forall in Hw.
  destruct (Hw _ Hin) as [(ext & d & p & H)|(name & H)];
    apply app_inv_head in H; [|done].
  injection H as H. by apply (page_filename_ne ext d p "all_tables.zip").
Qed.

Lemma job_write_deep out evs x y rel c :
  Forall (job_write out) evs → EvWrite ((out ++ ["tables"]) ++ x :: y :: rel) c ∉ evs.
Proof.
  intros Hw Hin. rewrite Forall_forall in Hw.
  destruct (Hw _ Hin) as [(ext & d & p & H)|(name & H)];
    rewrite <-app_assoc in H; by apply app_inv_head in H.
Qed.

Lemma archive_writes_job out evs :
  Forall (job_write out) evs → archive_writes out evs = [].
Proof.
  intros Hw. induction evs as [|ev evs IH]; [done|].
  apply Forall_cons in Hw as [Hev Hw].
  change (ev :: evs) with ([ev] ++ evs).
  rewrite (obs_app (obs:=archive_writes out)), IH, app_nil_r by done.
  destruct ev as [| | | |q c|]; try reflexivity.
  unfold archive_writes. simpl. case_decide as Hq; [|reflexivity]. subst q.
  destruct (job_write_archive out [EvWrite (out ++ ["all_tables.zip"]) c] c).
  - by constructor.
  - by left.
Qed.

Section Finish.
Context (self : Env).

(** A run of [extract_tables] that returns, in full *)
Lemma extract_tables_Ok output_format s e st st' :
  extract_tables self output_format (PyInt s) (PyInt e) st = (Ok tt, st') →
  let out := st_cwd st ++ ["out"] in
  let evs := job_events self out output_format s e in
  let fs_loop :=
    foldl apply_write (<[out ++ ["tables"] := Dir]> (<[out := Dir]> (st_fs st))) evs in
  let ar := ZipArchive (archive_entries out fs_loop) in
  st_fs st !! out = None
  ∧ st_fs st !! (out ++ ["tables"]) = None
  ∧ is_Some (environ_TOKEN self)
  ∧ upload_file_raises self = None
  ∧ st_log st' = st_log st ++ evs ++ [EvWrite (out ++ ["all_tables.zip"]) ar; EvUpload ar]
  ∧ st_fs st' = <[out ++ ["all_tables.zip"] := File ar]> fs_loop
  ∧ st_cwd st' = out.
Proof.
  intros Hrun out evs fs_loop ar.
  destruct (extract_tables_cases _ _ _ _ _ _ _ Hrun)
    as [[Hne _] | (tok & [Htok Htex] & Hout & Htab & Hloop)]; [by destruct (Hne tt)|].
  unfold bind at 1 in Hloop.
  destruct (for_each _ _ _) as [r1 st2] eqn:Hl in Hloop.
  destruct (process_documents_runs_as self out output_format (λ evs, evs)
              (page_events self out output_format) s e
              (get_documents self) (λ doc p, process_page_obs self out output_format _ doc p)
              (loop_start st tok) _ _ eq_refl Hl)
    as (evs1 & (Hlog1 & Hfs1 & _) & _ & Hok1).
  destruct r1 as [[]|x|x]; [|done..].
  destruct (Hok1 () eq_refl) as [-> Hd2].
  destruct (finish_cases self out _ _ _ Hd2 Hloop) as (tail & Hlog2 & _ & Hok2).
  destruct (Hok2 () eq_refl) as (-> & Hup & _ & Hfs2 & Hd').
  cbn [loop_start st_log st_fs] in Hlog1, Hfs1.
  split; [done|]. split; [done|]. split; [by rewrite Htok|]. split; [done|].
  split; [|split; [|done]].
  - rewrite Hlog2, Hlog1, Hfs1. by rewrite <-app_assoc.
  - by rewrite Hfs2, Hfs1.
Qed.
End Finish.

(** ** The archive *)

Lemma archive_entries_spec out fs evs :
  (∀ rel, rel ≠ [] → fs !! ((out ++ ["tables"]) ++ rel) = None) →
  Forall (job_write out) evs →
  NoDup (archive_entries out (foldl apply_write fs evs)).*1
  ∧ ∀ name c, (name, c) ∈ archive_entries out (foldl apply_write fs evs)
              ↔ written_tables out evs !! name = Some c.
Proof.
  intros Hbase Hw.
  assert (∀ rel c, (rel, c) ∈ walk_files (out ++ ["tables"]) (foldl apply_write fs evs)
                   ↔ ∃ n, rel = [n] ∧ written_tables out evs !! n = Some c) as Hwalk.
  { intros rel c. rewrite elem_of_walk_files. split.
    - intros [Hne Hl]. destruct rel as [|x [|y rel]]; [done| |].
      + exists x. split; [done|]. rewrite lookup_apply_writes_table in Hl.
        destruct (written_tables out evs !! x); [congruence|].
        by rewrite Hbase in Hl.
      + apply lookup_apply_writes_inv in Hl as [Hl|(c' & _ & Hin)].
        * by rewrite Hbase in Hl.
        * by destruct (job_write_deep out evs x y rel c').
    - intros (n & -> & Hn). split; [done|].
      by rewrite lookup_apply_writes_table, Hn. }
  split.
  - unfold archive_entries.
    replace (((λ f : path * content, (join_path f.1, f.2)) <$>
                walk_files (out ++ ["tables"]) (foldl apply_write fs evs)).*1)
      with (join_path <$> (walk_files (out ++ ["tables"]) (foldl apply_write fs evs)).*1)
      by by rewrite <-!list_fmap_compose.
    apply NoDup_fmap_2_strong; [|apply walk_files_NoDup].
    intros r1 r2 ([r1' c1] & -> & (n1 & -> & _)%Hwalk)%list_elem_of_fmap
                 ([r2' c2] & -> & (n2 & -> & _)%Hwalk)%list_elem_of_fmap.
    simpl. by intros ->.
  - intros name c. unfold archive_entries. rewrite list_elem_of_fmap. split.
    + intros ([rel c'] & [= -> ->] & (n & -> & Hn)%Hwalk). done.
    + intros Hn. exists ([name], c). split; [done|]. apply Hwalk. eauto.
Qed.

Lemma obs_bind {A X} (obs : list event → list X) `{!Observation obs}
    (f : A → list event) (l : list A) :
  obs (l ≫= f) = l ≫= (λ x, obs (f x)).
Proof.
  induction l as [|x l IH]; [apply obs_nil|].
  by rewrite !bind_cons, (obs_app (obs:=obs)), IH.
Qed.

(** Every file the loop writes into [tables] bears the name of a table. *)
Lemma job_table_write_names self out output_format s e name c :
  (name, c) ∈ table_writes out (job_events self out output_format s e) →
  ∃ d p i, name = table_filename (table_ext output_format) d p i.
Proof.
  unfold job_events. rewrite (obs_bind (table_writes out)), list_elem_of_bind.
  intros (doc & Hin & _). revert Hin.
  rewrite (obs_bind (table_writes out)), list_elem_of_bind.
  intros (p & Hin & _). revert Hin. rewrite table_writes_page_events.
  destruct (page_tables self doc p) as [tables|]; [|by intros ?%elem_of_nil].
  intros (i & t & [= -> ->] & _)%elem_of_lookup_imap_1. eauto.
Qed.

Lemma table_ext_no_slash output_format : contains "/" (table_ext output_format) = false.
Proof. unfold table_ext. by case_decide. Qed.

Lemma written_tables_elem out evs name c :
  written_tables out evs !! name = Some c → (name, c) ∈ table_writes out evs.
Proof.
  unfold written_tables. intros H%elem_of_list_to_map_2.
  by apply elem_of_reverse.
Qed.

Lemma analysed_tail c1 c2 p : analysed [EvWrite p c1; EvUpload c2] = [].
Proof. reflexivity. Qed.

Lemma loop_base_empty (fs0 : gmap path node) out :
  fs_wf fs0 → out ≠ [] → fs0 !! out = None →
  ∀ rel, rel ≠ [] →
    (<[out ++ ["tables"] := Dir]> (<[out := Dir]> fs0)) !! ((out ++ ["tables"]) ++ rel) = None.
Proof.
  intros Hwf Hne Hout rel Hrel.
  rewrite lookup_insert_ne.
  2:{ intros H. rewrite <-(app_nil_r (out ++ ["tables"])) in H at 1.
      apply app_inv_head in H. congruence. }
  rewrite lookup_insert_ne.
  2:{ intros H. rewrite <-app_assoc in H. rewrite <-(app_nil_r out) in H at 1.
      by apply app_inv_head in H. }
  rewrite <-app_assoc. by apply fs_wf_below.
Qed.

(** The end of a run of [main] that returns: the log is the charge, the
    calls of the loop, the archive and its upload; the archive lists what
    the loop left in [out/tables]. *)
Lemma main_Ok_archive (self : Env) (cwd : path) (fs0 : gmap path node) (st' : State) :
  fs_wf fs0 →
  main self (initial_state cwd fs0) = (Ok tt, st') →
  let out := cwd ++ ["out"] in
  ∃ c s e,
    data_get self "start_page" (PyInt 1) = PyInt s
    ∧ data_get self "end_page" (PyInt 1) = PyInt e
    ∧ let evs := job_events self out (data_get self "output_format" (PyStr "csv")) s e in
      let fs_loop :=
        foldl apply_write (<[out ++ ["tables"] := Dir]> (<[out := Dir]> fs0)) evs in
      let entries := archive_entries out fs_loop in
      st_log st' = EvCharge c :: evs ++ [EvWrite (out ++ ["all_tables.zip"]) (ZipArchive entries);
                                         EvUpload (ZipArchive entries)]
      ∧ st_fs st' = <[out ++ ["all_tables.zip"] := File (ZipArchive entries)]> fs_loop
      ∧ NoDup entries.*1
      ∧ ∀ name x, (name, x) ∈ entries ↔ written_tables out evs !! name = Some x.
Proof.
  intros Hwf Hrun out.
  destruct (main_cases self _ _ _ Hrun)
    as [[Hne _] | (c & s & e & _ & _ & Hs & He & _ & Hex)]; [by destruct (Hne tt)|].
  apply extract_tables_Ok in Hex.
  cbn [add_event initial_state st_log st_cwd st_fs app] in Hex. fold out in Hex.
  destruct Hex as (Hout & _ & _ & _ & Hlog & Hfs & _).
  assert (out ≠ []) as Hne by (unfold out; by destruct cwd).
  exists c, s, e. split; [done|]. split; [done|]. intros evs fs_loop entries.
  split; [done|]. split; [done|].
  apply archive_entries_spec; [by apply loop_base_empty|apply job_events_writes].
Qed.

(** C6. Take a run of [main] that returns, started with an empty log in a
    well-formed file tree.  Its log ends with the one write of
    [out/all_tables.zip] followed by the upload of that same archive; what
    precedes (the charge and the whole loop: every page of the job has been
    analysed by then) writes no archive.  The entries of the archive have
    distinct names and, as a map from names to contents, are exactly the
    files written into [out/tables]; each entry is named by the bare file
    name, free of any "/", of a file lying directly in [out/tables]. *)
Theorem C6_archive_once_and_exact (self : Env) (cwd : path)
    (fs0 : gmap path node) (st' : State) :
  fs_wf fs0 →
  main self (initial_state cwd fs0) = (Ok tt, st') →
  let out := cwd ++ ["out"] in
  ∃ pre entries s e,
    st_log st' = pre ++ [EvWrite (out ++ ["all_tables.zip"]) (ZipArchive entries);
                         EvUpload (ZipArchive entries)]
    ∧ archive_writes out pre = []
    ∧ data_get self "start_page" (PyInt 1) = PyInt s
    ∧ data_get self "end_page" (PyInt 1) = PyInt e
    ∧ analysed pre = expected_pages self s e
    ∧ NoDup entries.*1
    ∧ list_to_map entries = written_tables out pre
    ∧ ∀ name c, (name, c) ∈ entries →
        contains "/" name = false
        ∧ st_fs st' !! (out ++ ["tables"; name]) = Some (File c).
Proof.
  intros Hwf Hrun out.
  destruct (main_analysed_all self (initial_state cwd fs0) st' Hrun)
    as (s & e & Hs & He & all & Hall & Han).
  cbn [initial_state st_log app] in Hall. rewrite <-Hall in Han. clear all Hall.
  destruct (main_Ok_archive self cwd fs0 st' Hwf Hrun)
    as (c & s' & e' & Hs' & He' & Hlog & Hfs & Hnd & Hent).
  assert (s' = s) as -> by congruence. assert (e' = e) as -> by congruence.
  fold out in Hlog, Hfs, Hnd, Hent.
  set (fmt := data_get self "output_format" (PyStr "csv")) in *.
  set (evs := job_events self out fmt s e) in *.
  set (base := <[out ++ ["tables"] := Dir]> (<[out := Dir]> fs0)) in *.
  assert (written_tables out (EvCharge c :: evs) = written_tables out evs) as Hwt.
  { unfold written_tables. by rewrite table_writes_cons. }
  exists (EvCharge c :: evs), (archive_entries out (foldl apply_write base evs)), s, e.
  split; [done|]. split; [apply (archive_writes_job out evs), job_events_writes|].
  split; [done|]. split; [done|]. split.
  { rewrite Hlog in Han.
    change (EvCharge c :: evs ++ ?t) with ((EvCharge c :: evs) ++ t) in Han.
    by rewrite (obs_app (obs:=analysed)), analysed_tail, app_nil_r in Han. }
  split; [done|]. split.
  - rewrite Hwt. apply map_eq. intros name. apply option_eq. intros x.
    by rewrite <-elem_of_list_to_map, Hent.
  - intros name x Hin%Hent. split.
    + destruct (job_table_write_names self out fmt s e name x) as (d & p & i & ->).
      { by apply written_tables_elem. }
      apply table_filename_no_slash, table_ext_no_slash.
    + rewrite Hfs, lookup_insert_ne.
      2:{ intros H. by apply app_inv_head in H. }
      change (out ++ ["tables"; name]) with (out ++ ["tables"] ++ [name]).
      by rewrite app_assoc, lookup_apply_writes_table, Hin.
Qed.

Lemma fs_wf_empty : fs_wf ∅.
Proof. intros p x [n Hn]. by rewrite lookup_empty in Hn. Qed.

Lemma C6_archive_once_and_exact_witness :
  let st' := (main sample_job (initial_state [] ∅)).2 in
  ∃ pre entries s e,
    st_log st' = pre ++ [EvWrite ["out"; "all_tables.zip"] (ZipArchive entries);
                         EvUpload (ZipArchive entries)]
    ∧ archive_writes ["out"] pre = []
    ∧ data_get sample_job "start_page" (PyInt 1) = PyInt s
    ∧ data_get sample_job "end_page" (PyInt 1) = PyInt e
    ∧ analysed pre = expected_pages sample_job s e
    ∧ NoDup entries.*1
    ∧ list_to_map entries = written_tables ["out"] pre
    ∧ ∀ name c, (name, c) ∈ entries →
        contains "/" name = false
        ∧ st_fs st' !! ["out"; "tables"; name] = Some (File c).
Proof.
  apply (C6_archive_once_and_exact sample_job [] ∅).
  - apply fs_wf_empty.
  - vm_compute. reflexivity.
Defined.

(** ** Pages without tables *)

Lemma for_each_total {A} (I : State → Prop) (l : list A) (body : A → M unit) :
  (∀ x st, x ∈ l → I st → ∃ st', body x st = (Ok tt, st') ∧ I st') →
  ∀ st, I st → ∃ st', for_each l body st = (Ok tt, st') ∧ I st'.
Proof.
  induction l as [|x l IH]; intros Hbody st Hst; [by exists st|].
  destruct (Hbody x st (list_elem_of_here _ _) Hst) as (st1 & Hx & Hst1).
  destruct (IH (λ y s Hy, Hbody y s (list_elem_of_further _ _ _ Hy)) st1 Hst1)
    as (st2 & Hl & Hst2).
  exists st2. split; [|done]. cbn [for_each]. by erewrite bind_Ok.
Qed.

Lemma write_file_Ok name c st :
  st_fs st !! (st_cwd st ++ [name]) ≠ Some Dir →
  write_file name c st
  = (Ok tt, mkState (st_log st ++ [EvWrite (st_cwd st ++ [name]) c]) (st_cwd st)
                    (<[st_cwd st ++ [name] := File c]> (st_fs st)) (st_credentials st)).
Proof. intros Hnd. by destruct (write_file_cases name c st) as [[? _]|[_ ?]]. Qed.

Lemma page_ready_write out name c log fs cred :
  page_ready out (mkState log out fs cred) →
  name ≠ "tables" →
  fs !! (out ++ [name]) ≠ Some Dir
  ∧ ∀ log', page_ready out (mkState log' out (<[out ++ [name] := File c]> fs) cred).
Proof.
  intros (_ & Htab & Honly) Hne. cbn [st_fs] in *. split.
  - intros H. by apply Honly in H.
  - intros log'. split; [done|]. cbn [st_fs]. split.
    + rewrite lookup_insert_ne; [done|]. intros H. apply app_inv_head in H. congruence.
    + intros f. rewrite lookup_insert. case_decide; [done|]. apply Honly.
Qed.

Section NoTables.
Context (self : Env) (out : path) (output_format : pyval).

(** A page on which the analysis finds no table, processed in a state that
    is ready for it: the page returns, the state is ready for the next
    page, and the only files written are the two images of the page. *)
Lemma process_page_no_tables doc p st :
  page_ready out st →
  page_tables self doc p = Some [] →
  ∃ img png,
    process_page self output_format doc p st
    = (Ok tt,
       mkState (st_log st ++ [EvGetImage (Document.id doc) p;
                              EvWrite (out ++ [page_filename ".gif" (Document.id doc) p]) img;
                              EvWrite (out ++ [page_filename ".png" (Document.id doc) p]) png;
                              EvAnalyze (Document.id doc) p])
               out
               (<[out ++ [page_filename ".png" (Document.id doc) p] := File png]>
                  (<[out ++ [page_filename ".gif" (Document.id doc) p] := File img]>
                     (st_fs st)))
               (st_credentials st))
    ∧ page_ready out
        (mkState (st_log st ++ [EvGetImage (Document.id doc) p;
                              EvWrite (out ++ [page_filename ".gif" (Document.id doc) p]) img;
                              EvWrite (out ++ [page_filename ".png" (Document.id doc) p]) png;
                              EvAnalyze (Document.id doc) p])
               out
               (<[out ++ [page_filename ".png" (Document.id doc) p] := File png]>
                  (<[out ++ [page_filename ".gif" (Document.id doc) p] := File img]>
                     (st_fs st)))
               (st_credentials st)).
Proof.
  intros Hready Htables. destruct st as [log cwd fs cred].
  pose proof Hready as (Hcwd & _). cbn [st_cwd] in Hcwd. subst cwd.
  unfold page_tables in Htables. unfold process_page.
  destruct (Document.get_large_image doc p) as [img|]; [|done].
  destruct (gif_to_png self img) as [png|] eqn:Hpng; [|done].
  exists img, png. cbn [st_log st_fs st_credentials].
  set (gif := page_filename ".gif" (Document.id doc) p).
  set (pngf := page_filename ".png" (Document.id doc) p).
  assert (gif ≠ "tables") as Hgif by by apply page_filename_ne.
  assert (pngf ≠ "tables") as Hpngf by by apply page_filename_ne.
  destruct (page_ready_write out gif img log fs cred Hready Hgif) as [Hw1 Hr1].
  destruct (page_ready_write out pngf png _ _ cred
              (Hr1 (log ++ [EvGetImage (Document.id doc) p;
                            EvWrite (out ++ [gif]) img])) Hpngf) as [Hw2 Hr2].
  split; [|apply Hr2].
  unfold bind at 1, log_event at 1. cbn [st_log st_cwd st_fs st_credentials].
  erewrite bind_Ok by by apply write_file_Ok.
  cbn [st_log st_cwd st_fs st_credentials].
  unfold convert_to_png.
  unfold bind at 1 2, read_file at 1. cbn [st_log st_cwd st_fs st_credentials].
  rewrite lookup_insert_eq, Hpng.
  rewrite write_file_Ok by (cbn [st_log st_cwd st_fs st_credentials]; exact Hw2).
  cbn [st_log st_cwd st_fs st_credentials].
  unfold bind at 1, read_file at 1. cbn [st_log st_cwd st_fs st_credentials].
  rewrite lookup_insert_eq.
  unfold bind at 1, log_event at 1. cbn [st_log st_cwd st_fs st_credentials].
  rewrite Htables.
  destruct (Hr2 []) as (_ & Htab & _). cbn [st_fs] in Htab.
  unfold write_tables.
  assert (∀ body : nat → M unit,
    (chdir "tables" ;; for_each (seq 0 (length (@nil Table))) body ;; chdir "..")
      (mkState (((log ++ [EvGetImage (Document.id doc) p]) ++ [EvWrite (out ++ [gif]) img])
                  ++ [EvWrite (out ++ [pngf]) png] ++ [EvAnalyze (Document.id doc) p])
               out (<[out ++ [pngf] := File png]> (<[out ++ [gif] := File img]> fs)) cred)
    = (Ok tt,
       mkState (log ++ [EvGetImage (Document.id doc) p; EvWrite (out ++ [gif]) img;
                        EvWrite (out ++ [pngf]) png; EvAnalyze (Document.id doc) p])
               out (<[out ++ [pngf] := File png]> (<[out ++ [gif] := File img]> fs)) cred))
    as Hloop.
  { intros body. unfold bind, chdir. cbn [String.eqb Ascii.eqb Bool.eqb].
    cbn [st_log st_cwd st_fs st_credentials]. rewrite Htab.
    cbn [length seq for_each]. unfold ret, set_cwd.
    cbn [st_log st_cwd st_fs st_credentials].
    rewrite removelast_last. by rewrite <-!app_assoc. }
  rewrite <-!app_assoc. rewrite <-!app_assoc in Hloop.
  case_decide; apply Hloop.
Qed.
End NoTables.

Section NoTablesJob.
Context (self : Env).

Lemma process_document_no_tables out output_format s e doc st :
  page_ready out st →
  (∀ p, p ∈ pages_of s e doc → page_tables self doc p = Some []) →
  ∃ st', process_document self output_format (PyInt s) (PyInt e) doc st = (Ok tt, st')
         ∧ page_ready out st'.
Proof.
  intros Hready Hpages.
  unfold process_document, py_add, py_arith, py_gt, py_compare, py_range.
  unfold bind at 1 2 3 4, ret.
  assert ((if match e ?= Document.page_count doc with Gt => true | _ => false end
           then Document.page_count doc + 1 else e + 1)
          = Z.min e (Document.page_count doc) + 1) as ->.
  { destruct (Z.compare_spec e (Document.page_count doc)); lia. }
  apply (for_each_total (page_ready out)); [|done].
  intros p st1 Hp Hst1.
  destruct (process_page_no_tables self out output_format doc p st1 Hst1 (Hpages p Hp))
    as (img & png & Hrun & Hr).
  eauto.
Qed.

Lemma loop_start_ready st tok :
  fs_wf (st_fs st) →
  st_fs st !! (st_cwd st ++ ["out"]) = None →
  page_ready (st_cwd st ++ ["out"]) (loop_start st tok).
Proof.
  intros Hwf Hout. split; [done|]. cbn [loop_start st_fs]. split.
  - apply lookup_insert_eq.
  - intros f. rewrite lookup_insert. case_decide as Hf.
    { intros _. apply app_inv_head in Hf. congruence. }
    rewrite lookup_insert_ne.
    2:{ intros H. rewrite <-(app_nil_r (st_cwd st ++ ["out"])) in H at 1.
        by apply app_inv_head in H. }
    rewrite (fs_wf_below _ _ Hwf); [done| |done]. by destruct (st_cwd st).
Qed.

(** With every call answered and no table on any page, [extract_tables]
    returns. *)
Lemma extract_tables_no_tables output_format s e st :
  fs_wf (st_fs st) →
  st_fs st !! (st_cwd st ++ ["out"]) = None →
  is_Some (environ_TOKEN self) →
  textractor_raises self (environ_TOKEN self) = None →
  upload_file_raises self = None →
  (∀ doc p, doc ∈ get_documents self → p ∈ pages_of s e doc →
            page_tables self doc p = Some []) →
  ∃ st', extract_tables self output_format (PyInt s) (PyInt e) st = (Ok tt, st').
Proof.
  intros Hwf Hout [tok Htok] Htex Hup Hpages. rewrite Htok in Htex.
  set (out := st_cwd st ++ ["out"]) in *.
  assert (st_fs st !! (out ++ ["tables"]) = None) as Htab.
  { apply fs_wf_below; [done| |done]. unfold out. by destruct (st_cwd st). }
  destruct (for_each_total (page_ready out) (get_documents self)
              (process_document self output_format (PyInt s) (PyInt e)))
    with (st := loop_start st tok) as (st2 & Hloop & (Hcwd2 & _ & Honly)).
  { intros doc st1 Hdoc Hst1. apply process_document_no_tables; [done|].
    intros p. by apply Hpages. }
  { by apply loop_start_ready. }
  assert (st_fs st2 !! (st_cwd st2 ++ ["all_tables.zip"]) ≠ Some Dir) as Hzip.
  { rewrite Hcwd2. intros H. by apply Honly in H. }
  eexists.
  unfold extract_tables, setup_credential_file. rewrite Htok.
  unfold bind at 1 2, Textractor at 1. cbn [st_log st_cwd st_fs st_credentials].
  rewrite Htex.
  unfold bind at 1, makedirs at 1. cbn [st_log st_cwd st_fs st_credentials].
  fold out. rewrite Hout.
  unfold set_fs. cbn [st_log st_cwd st_fs st_credentials].
  unfold bind at 1, chdir at 1. cbn [String.eqb Ascii.eqb Bool.eqb].
  cbn [st_log st_cwd st_fs st_credentials]. fold out. rewrite lookup_insert_eq.
  unfold set_cwd. cbn [st_log st_cwd st_fs st_credentials].
  unfold bind at 1, makedirs at 1. cbn [st_log st_cwd st_fs st_credentials].
  rewrite lookup_insert_ne by (intros H; by apply (f_equal length) in H;
    rewrite !length_app in H; simpl in H; lia).
  rewrite Htab. unfold set_fs. cbn [st_log st_cwd st_fs st_credentials].
  fold out. change (mkState (st_log st) out _ (Some tok)) with (loop_start st tok).
  erewrite bind_Ok by exact Hloop.
  unfold bind at 1, write_archive. rewrite (write_file_Ok _ _ _ Hzip).
  unfold upload_file, bind, read_file. cbn [st_log st_cwd st_fs st_credentials].
  rewrite lookup_insert_eq, Hup. reflexivity.
Qed.

Lemma main_no_tables s e st st1 :
  validate self st = (Ok true, st1) →
  data_get self "start_page" (PyInt 1) = PyInt s →
  data_get self "end_page" (PyInt 1) = PyInt e →
  1 ≤ s ≤ e →
  fs_wf (st_fs st) →
  st_fs st !! (st_cwd st ++ ["out"]) = None →
  is_Some (environ_TOKEN self) →
  textractor_raises self (environ_TOKEN self) = None →
  upload_file_raises self = None →
  (∀ doc p, doc ∈ get_documents self → p ∈ pages_of s e doc →
            page_tables self doc p = Some []) →
  ∃ st', main self st = (Ok tt, st').
Proof.
  intros Hv Hs He Hse Hwf Hout Htok Htex Hup Hpages.
  destruct (validate_true_inv _ _ _ Hv) as (c & _ & _ & ->).
  destruct (extract_tables_no_tables (data_get self "output_format" (PyStr "csv"))
              s e (add_event (EvCharge c) st)) as [st' Hex]; try done.
  exists st'. unfold main. erewrite bind_Ok by exact Hv. rewrite Hs, He.
  cbn [negb]. unfold py_lt, py_compare, bind, ret.
  destruct (Z.compare_spec e s); destruct (Z.compare_spec s 1); (done || lia).
Qed.
End NoTablesJob.

Lemma bind_all_nil {A B} (f : A → list B) (l : list A) :
  (∀ x, x ∈ l → f x = []) → l ≫= f = [].
Proof.
  induction l as [|x l IH]; intros Hf; [done|].
  rewrite bind_cons, Hf by left. apply IH. intros y Hy. apply Hf. by right.
Qed.

Lemma job_events_no_tables self out output_format s e :
  (∀ doc p, doc ∈ get_documents self → p ∈ pages_of s e doc →
            page_tables self doc p = Some []) →
  table_writes out (job_events self out output_format s e) = [].
Proof.
  intros Hpages. unfold job_events.
  rewrite (obs_bind (table_writes out)). apply bind_all_nil. intros doc Hdoc.
  rewrite (obs_bind (table_writes out)). apply bind_all_nil. intros p Hp.
  by rewrite table_writes_page_events, (Hpages doc p Hdoc Hp).
Qed.

(** C10. (1) A page on which the analysis finds no table, processed in a
    state ready for it, returns normally and leaves the state ready for the
    next page; it writes nothing into [out/tables].  (2) A job that passes
    the gate with pages [1 <= s <= e], whose every call is answered ([TOKEN]
    is set and the service client is built from it, every image is served,
    decoded and analysed, the upload is accepted) and whose every page in
    range shows no table, returns normally; its log ends with the write and
    the upload of an archive without entries, and no table file was written
    before. *)
Theorem C10_pages_without_tables :
  (∀ self out output_format doc p st,
     page_ready out st →
     page_tables self doc p = Some [] →
     ∃ st' evs,
       process_page self output_format doc p st = (Ok tt, st')
       ∧ page_ready out st'
       ∧ st_log st' = st_log st ++ evs
       ∧ table_writes out evs = []
       ∧ ∀ name, st_fs st' !! (out ++ ["tables"; name])
                 = st_fs st !! (out ++ ["tables"; name]))
  ∧ (∀ self cwd fs0 s e st1,
       validate self (initial_state cwd fs0) = (Ok true, st1) →
       data_get self "start_page" (PyInt 1) = PyInt s →
       data_get self "end_page" (PyInt 1) = PyInt e →
       1 ≤ s ≤ e →
       fs_wf fs0 →
       fs0 !! (cwd ++ ["out"]) = None →
       is_Some (environ_TOKEN self) →
       textractor_raises self (environ_TOKEN self) = None →
       upload_file_raises self = None →
       (∀ doc p, doc ∈ get_documents self → p ∈ pages_of s e doc →
                 page_tables self doc p = Some []) →
       ∃ st' pre,
         main self (initial_state cwd fs0) = (Ok tt, st')
         ∧ st_log st' = pre ++ [EvWrite ((cwd ++ ["out"]) ++ ["all_tables.zip"]) (ZipArchive []);
                                EvUpload (ZipArchive [])]
         ∧ table_writes (cwd ++ ["out"]) pre = []).
Proof.
  split.
  - intros self out output_format doc p st Hready Htables.
    destruct (process_page_no_tables self out output_format doc p st Hready Htables)
      as (img & png & Hrun & Hr).
    eexists _, _. split; [exact Hrun|]. split; [exact Hr|].
    cbn [st_log st_fs]. split; [reflexivity|]. split.
    + change [EvGetImage ?d ?q; ?w1; ?w2; ?a] with ([EvGetImage d q] ++ [w1] ++ [w2] ++ [a]).
      by rewrite !(obs_app (obs:=table_writes out)), !table_writes_sibling.
    + intros name. rewrite !lookup_insert_ne; [done|..];
        intros H; by apply app_inv_head in H.
  - intros self cwd fs0 s e st1 Hv Hs He Hse Hwf Hout Htok Htex Hup Hpages.
    destruct (main_no_tables self s e (initial_state cwd fs0) st1) as [st' Hrun];
      try done.
    destruct (main_Ok_archive self cwd fs0 st' Hwf Hrun)
      as (c & s' & e' & Hs' & He' & Hlog & _ & _ & Hent).
    assert (s' = s) as -> by congruence. assert (e' = e) as -> by congruence.
    set (out := cwd ++ ["out"]) in *.
    set (evs := job_events self out (data_get self "output_format" (PyStr "csv")) s e) in *.
    pose proof (job_events_no_tables self out
                  (data_get self "output_format" (PyStr "csv")) s e Hpages) as Hnone.
    fold evs in Hnone.
    assert (archive_entries out
              (foldl apply_write (<[out ++ ["tables"] := Dir]> (<[out := Dir]> fs0)) evs)
            = []) as Hnil.
    { apply elem_of_nil_inv. intros [name x] Hin%Hent.
      unfold written_tables in Hin. by rewrite Hnone in Hin. }
    rewrite Hnil in Hlog.
    exists st', (EvCharge c :: evs). split; [done|]. split; [done|].
    by rewrite table_writes_cons, Hnone.
Qed.

Lemma C10_pages_without_tables_witness :
  ∃ st' pre,
    main (sample_env (page_config 1 2) [sample_document 1 3; sample_document 2 1] [])
         (initial_state [] ∅) = (Ok tt, st')
    ∧ st_log st' = pre ++ [EvWrite ["out"; "all_tables.zip"] (ZipArchive []);
                           EvUpload (ZipArchive [])]
    ∧ table_writes ["out"] pre = [].
Proof.
  destruct C10_pages_without_tables as [_ H].
  apply (H (sample_env (page_config 1 2) [sample_document 1 3; sample_document 2 1] [])
           [] ∅ 1 2
           (add_event (EvCharge 30) (initial_state [] ∅))).
  - reflexivity.
  - reflexivity.
  - reflexivity.
  - lia.
  - apply fs_wf_empty.
  - reflexivity.
  - by eexists.
  - reflexivity.
  - reflexivity.
  - intros doc p Hdoc _.
    apply elem_of_cons in Hdoc as [->|Hdoc]; [reflexivity|].
    apply elem_of_cons in Hdoc as [->|Hdoc]; [reflexivity|].
    by apply elem_of_nil in Hdoc.
Defined.

(** ** Pages analysed and credits charged *)

Global Instance charged_observation : Observation charged.
Proof. apply omap_observation. Qed.

Lemma charged_cons ev evs :
  charged (ev :: evs)
  = match ev with EvCharge c => [c] | _ => [] end ++ charged evs.
Proof. by destruct ev. Qed.

Lemma charged_table_events dir output_format doc p tables :
  charged (table_events dir output_format doc p tables) = [].
Proof. by apply omap_imap_None. Qed.

Lemma charged_page_events self out output_format doc p :
  charged (page_events self out output_format doc p) = [].
Proof.
  unfold page_events. rewrite charged_cons.
  destruct (Document.get_large_image doc p) as [img|]; [|reflexivity].
  rewrite charged_cons.
  destruct (gif_to_png self img) as [png|]; [|reflexivity].
  rewrite !charged_cons.
  destruct (analyze_document self png) as [tables|]; [|reflexivity].
  by rewrite charged_table_events.
Qed.

Lemma charged_job_events self out output_format s e :
  charged (job_events self out output_format s e) = [].
Proof.
  unfold job_events. rewrite (obs_bind charged). apply bind_all_nil. intros doc _.
  rewrite (obs_bind charged). apply bind_all_nil. intros p _.
  apply charged_page_events.
Qed.

Lemma Zsum_effective_pages s e docs :
  (∀ doc, doc ∈ docs → s - 1 ≤ Z.min e (Document.page_count doc)) →
  Zsum (effective_pages s e <$> docs) = Zsum (raw_pages s e <$> docs).
Proof.
  induction docs as [|doc docs IH]; intros Hdocs; [done|].
  rewrite !fmap_cons. cbn [Zsum foldr].
  fold (Zsum (effective_pages s e <$> docs)). fold (Zsum (raw_pages s e <$> docs)).
  rewrite IH by (intros d Hd; apply Hdocs; by right).
  pose proof (Hdocs doc (list_elem_of_here _ _)).
  unfold effective_pages, raw_pages. lia.
Qed.

(** What a run that returns has analysed and charged.  With [end_page]
    configured as the integer [e] and [start_page] read as the integer [s]:
    the pages analysed are those of [expected_pages], that is
    [max(0, min(e, page_count) - s + 1)] pages for each document; and one
    charge is made, of ten times the sum of the terms
    [min(e, page_count) - s + 1], not clamped.  The charge is ten times the
    number of pages analysed whenever no document ends more than one page
    before [s]. *)
Lemma completed_run_pages_and_cost (self : Env) (s e : Z) (st st' : State) :
  data_get self "start_page" (PyInt 1) = PyInt s →
  data self !! "end_page" = Some (PyInt e) →
  main self st = (Ok tt, st') →
  (∃ evs, st_log st' = st_log st ++ evs
          ∧ analysed evs = expected_pages self s e
          ∧ charged evs
            = [Zsum ((λ doc, Z.min e (Document.page_count doc) - s + 1)
                       <$> get_documents self) * 10])
  ∧ (∀ doc, Z.of_nat (length (pages_of s e doc))
            = Z.max 0 (Z.min e (Document.page_count doc) - s + 1))
  ∧ ((∀ doc, doc ∈ get_documents self → s - 1 ≤ Z.min e (Document.page_count doc)) →
     Zsum ((λ doc, Z.min e (Document.page_count doc) - s + 1) <$> get_documents self)
     = Zsum (effective_pages s e <$> get_documents self)).
Proof.
  intros Hs He Hrun. split; [|split].
  - destruct (main_analysed_all self st st' Hrun)
      as (s' & e' & Hs' & He' & evs & Hlog & Han).
    assert (data_get self "end_page" (PyInt 1) = PyInt e) as He1
      by (unfold data_get; by rewrite He).
    assert (s' = s) as -> by congruence. assert (e' = e) as -> by congruence.
    exists evs. split; [done|]. split; [done|].
    destruct (main_cases self _ _ _ Hrun)
      as [[Hne _] | (c & s' & e' & Hc & _ & Hs'' & He'' & _ & Hex)];
      [by destruct (Hne tt)|].
    assert (s' = s) as -> by congruence. assert (e' = e) as -> by congruence.
    rewrite (cost_loop_int_cost self s e (get_documents self) st He Hs) in Hc.
    injection Hc as <-.
    apply extract_tables_Ok in Hex as (_ & _ & _ & _ & Hlog' & _).
    cbn [add_event st_log st_cwd] in Hlog'. rewrite Hlog, <-app_assoc in Hlog'.
    apply app_inv_head in Hlog' as ->.
    rewrite !(obs_app (obs:=charged)), charged_job_events. reflexivity.
  - intros doc. apply pages_of_length.
  - intros Hdocs. symmetry. by apply Zsum_effective_pages.
Qed.

Example completed_run_pages_and_cost_sample :
  ∃ evs, st_log (main sample_job (initial_state [] ∅)).2 = [] ++ evs
         ∧ analysed evs = expected_pages sample_job 2 3
         ∧ charged evs = [30].
Proof.
  destruct (completed_run_pages_and_cost sample_job 2 3 (initial_state [] ∅)
              (main sample_job (initial_state [] ∅)).2) as [H _].
  - reflexivity.
  - reflexivity.
  - vm_compute. reflexivity.
  - exact H.
Qed.

(** C2 (the program departs from the claim).  With documents of ten and of
    two pages and the range 5 to 6, the run returns having analysed two
    pages, 5 and 6 of the first document: the pages analysed, times ten,
    are 20 credits.  The charge made is 0: in [calculate_cost] the second
    document counts for [2 - 5 + 1 = -2] pages. *)
Theorem C2_short_document_undercharged :
  ∃ st', main short_document_job (initial_state [] ∅) = (Ok tt, st')
         ∧ analysed (st_log st') = [(1, 5); (1, 6)]
         ∧ charged (st_log st') = [0]
         ∧ Zsum (effective_pages 5 6 <$> get_documents short_document_job) * 10 = 20
         ∧ charged (st_log st')
           ≠ [Zsum (effective_pages 5 6 <$> get_documents short_document_job) * 10].
Proof.
  eexists. split; [vm_compute; reflexivity|].
  split; [reflexivity|]. split; [reflexivity|]. split; [reflexivity|].
  vm_compute. discriminate.
Qed.


(** ** Scenarios

    The sample runs of the specification, evaluated. *)

(** One document of five pages, pages 2 to 3, format csv: 20 credits, pages
    2 and 3 analysed. *)
Example scenario_two_of_five_pages :
  let st' := (main (sample_env (page_config 2 3) [sample_document 1 5] [])
                   (initial_state [] ∅)).2 in
  charged (st_log st') = [20] ∧ analysed (st_log st') = [(1, 2); (1, 3)].
Proof. split; vm_compute; reflexivity. Qed.

(** One document of two pages, pages 1 to 10: clamped to two pages. *)
Example scenario_clamped_to_page_count :
  let st' := (main (sample_env (page_config 1 10) [sample_document 1 2] [])
                   (initial_state [] ∅)).2 in
  charged (st_log st') = [20] ∧ analysed (st_log st') = [(1, 1); (1, 2)].
Proof. split; vm_compute; reflexivity. Qed.

(** Documents of three and seven pages, pages 1 to 4: 3 + 4 pages. *)
Example scenario_two_documents :
  let st' := (main (sample_env (page_config 1 4) [sample_document 1 3; sample_document 2 7] [])
                   (initial_state [] ∅)).2 in
  charged (st_log st') = [70]
  ∧ analysed (st_log st') = [(1, 1); (1, 2); (1, 3); (2, 1); (2, 2); (2, 3); (2, 4)].
Proof. split; vm_compute; reflexivity. Qed.

(** Pages 5 to 2: the job stops with the end-before-start message and no
    page is processed. *)
Example scenario_end_before_start :
  main (sample_env (page_config 5 2) [sample_document 1 10] []) (initial_state [] ∅)
  = (Exit 0, mkState [EvCharge (-20); EvMessage msg_end_before_start] [] ∅ None).
Proof. reflexivity. Qed.

(** A page with three tables, format csv: three files in the archive; the
    order in which the directory lists them is not fixed. *)
Example scenario_three_tables :
  let tables := [mkTable "a" (Bytes "x"); mkTable "b" (Bytes "y"); mkTable "c" (Bytes "z")] in
  let st' := (main (sample_env (page_config 1 1) [sample_document 7 1] tables)
                   (initial_state [] ∅)).2 in
  ∃ entries,
    last (st_log st') = Some (EvUpload (ZipArchive entries))
    ∧ entries ≡ₚ [("7-1-table0.csv", Bytes "a");
                  ("7-1-table1.csv", Bytes "b");
                  ("7-1-table2.csv", Bytes "c")].
Proof.
  eexists. split; [vm_compute; reflexivity|].
  exact (reverse_Permutation [("7-1-table0.csv", Bytes "a");
                              ("7-1-table1.csv", Bytes "b");
                              ("7-1-table2.csv", Bytes "c")]).
Qed.


(** ** The ways [main] can end *)

Section Shape.
Context (self : Env).

(** The estimator returns a cost or raises [TypeError]. *)
Lemma cost_loop_outcome docs : ∀ total st r st',
  cost_loop self total docs st = (r, st') →
  (∃ c, r = Ok c) ∨ r = Raise TypeError.
Proof.
  induction docs as [|doc docs IH]; intros total st r st'.
  - intros [= <- <-]. eauto.
  - cbn [cost_loop]. unfold bind at 1.
    destruct (cost_step self total doc st) as [[t|x|x] st1] eqn:E; [by apply IH|..];
      intros [= <- <-]; revert E;
      unfold cost_step, py_le, py_compare, py_sub, py_add, py_arith, bind, ret, raise;
      repeat (case_match; simplify_eq/=); intros; simplify_eq; eauto.
Qed.

Lemma calculate_cost_outcome docs st r st' :
  calculate_cost self docs st = (r, st') →
  (∃ c, r = Ok c) ∧ st' = st ∨ r = Raise TypeError ∧ st' = st.
Proof.
  intros Hc. pose proof (calculate_cost_pure self _ _ _ _ Hc) as ->.
  revert Hc. unfold calculate_cost, bind.
  destruct (cost_loop self 0 docs st) as [r0 st0] eqn:E.
  destruct (cost_loop_outcome _ _ _ _ _ E) as [[c ->]| ->].
  - unfold ret. intros [= <-]. eauto.
  - intros [= <-]. eauto.
Qed.

(** Every way [validate] can end *)
Lemma validate_shape st rv st1 :
  validate self st = (rv, st1) →
  (rv = Exit 0 ∧ get_document_count self = None
   ∧ st1 = with_log [EvMessage msg_no_documents] st)
  ∨ (rv = Exit 0 ∧ truthy (org_id self) = false
     ∧ st1 = with_log [EvMessage msg_no_organization] st)
  ∨ (rv = Raise TypeError ∧ st1 = st
     ∧ calculate_cost self (get_documents self) st = (Raise TypeError, st))
  ∨ (∃ c x, calculate_cost self (get_documents self) st = (Ok c, st)
            ∧ charge_credits_raises self c = Some x
            ∧ st1 = st
            ∧ ((x = ValueError ∨ x = APIError) ∧ rv = Ok false
               ∨ x ≠ ValueError ∧ x ≠ APIError ∧ rv = Raise x))
  ∨ (∃ c, calculate_cost self (get_documents self) st = (Ok c, st)
          ∧ charge_credits_raises self c = None
          ∧ rv = Ok true ∧ st1 = with_log [EvCharge c] st).
Proof.
  unfold validate. destruct (get_document_count self).
  2:{ unfold bind, set_message, log_event, sys_exit. intros [= <- <-]. by left. }
  destruct (truthy (org_id self)) eqn:Horg; cbn [negb].
  2:{ unfold bind, set_message, log_event, sys_exit. intros [= <- <-].
      right. by left. }
  unfold bind at 1.
  destruct (calculate_cost _ _ _) as [r0 st0] eqn:E.
  destruct (calculate_cost_outcome _ _ _ _ E) as [[[c ->] ->] | [-> ->]].
  2:{ intros [= <- <-]. do 2 right. by left. }
  unfold try_except, charge_credits, bind, raise, ret, log_event.
  destruct (charge_credits_raises self c) as [x|] eqn:Hch.
  - intros Hrun. do 3 right. left. exists c, x.
    split; [done|]. split; [done|].
    destruct x; simpl in Hrun; injection Hrun as <- <-; split; try done;
      first [left; split; [by (left + right)|done] | right; by repeat split].
  - intros [= <- <-]. do 4 right. by exists c.
Qed.
End Shape.

Lemma with_log_nil st : with_log [] st = st.
Proof. destruct st. unfold with_log. simpl. by rewrite app_nil_r. Qed.

Lemma with_log_with_log evs1 evs2 st :
  with_log evs2 (with_log evs1 st) = with_log (evs1 ++ evs2) st.
Proof. unfold with_log. simpl. by rewrite app_assoc. Qed.

Section MainShape.
Context (self : Env).

(** Every way [main] can end before the work starts, and what is left
    otherwise.  Before the work starts only the log changes. *)
Lemma main_shape st r st' :
  main self st = (r, st') →
  (∃ evs, st' = with_log evs st
     ∧ (r = Exit 0
        ∧ (evs = [EvMessage msg_no_documents] ∧ get_document_count self = None
           ∨ evs = [EvMessage msg_no_organization] ∧ truthy (org_id self) = false
           ∨ evs = [EvMessage msg_insufficient]
             ∧ (∃ c x, calculate_cost self (get_documents self) st = (Ok c, st)
                       ∧ charge_credits_raises self c = Some x
                       ∧ (x = ValueError ∨ x = APIError))
           ∨ ∃ c, calculate_cost self (get_documents self) st = (Ok c, st)
                  ∧ charge_credits_raises self c = None
                  ∧ (evs = [EvCharge c; EvMessage msg_end_before_start]
                     ∨ evs = [EvCharge c; EvMessage msg_start_below_one]))
        ∨ ∃ x, r = Raise x
               ∧ (evs = []
                  ∨ ∃ c, evs = [EvCharge c]
                         ∧ calculate_cost self (get_documents self) st = (Ok c, st)
                         ∧ charge_credits_raises self c = None)))
  ∨ (∃ c s e,
       calculate_cost self (get_documents self) st = (Ok c, st)
       ∧ charge_credits_raises self c = None
       ∧ data_get self "start_page" (PyInt 1) = PyInt s
       ∧ data_get self "end_page" (PyInt 1) = PyInt e
       ∧ 1 ≤ s ≤ e
       ∧ extract_tables self (data_get self "output_format" (PyStr "csv"))
           (PyInt s) (PyInt e) (with_log [EvCharge c] st) = (r, st')).
Proof.
  unfold main. unfold bind at 1.
  destruct (validate self st) as [rv st1] eqn:Hv.
  destruct (validate_shape self _ _ _ Hv)
    as [(-> & Hn & ->) | [(-> & Horg & ->) | [(-> & -> & Hc)
       | [(c & x & Hc & Hch & -> & Hx) | (c & Hc & Hch & -> & ->)]]]].
  - intros [= <- <-]. left. eexists. split; [done|]. left. split; [done|]. by left.
  - intros [= <- <-]. left. eexists. split; [done|]. left. split; [done|].
    right. by left.
  - intros [= <- <-]. left. exists []. split; [by rewrite with_log_nil|].
    right. exists TypeError. split; [done|]. by left.
  - destruct Hx as [[Hx ->] | (Hx1 & Hx2 & ->)].
    + cbn [negb]. unfold bind, set_message, log_event, sys_exit.
      intros [= <- <-]. left. exists [EvMessage msg_insufficient].
      split; [done|]. left. split; [done|]. do 2 right. left. split; [done|]. eauto.
    + intros [= <- <-]. left. exists []. split; [by rewrite with_log_nil|].
      right. exists x. split; [done|]. by left.
  - cbn [negb].
    assert (∀ P,
      (∃ evs, with_log [EvCharge c] st = with_log evs st
         ∧ (P evs ∨ ∃ x, Raise TypeError = @Raise unit x
               ∧ (evs = []
                  ∨ ∃ c0, evs = [EvCharge c0]
                          ∧ calculate_cost self (get_documents self) st = (Ok c0, st)
                          ∧ charge_credits_raises self c0 = None)))) as Hstop.
    { intros P. exists [EvCharge c]. split; [done|]. right. exists TypeError.
      split; [done|]. right. by exists c. }
    assert (∀ msg,
      msg = msg_end_before_start ∨ msg = msg_start_below_one →
      ∃ evs, add_event (EvMessage msg) (with_log [EvCharge c] st) = with_log evs st
        ∧ (@Exit unit 0 = Exit 0
           ∧ (evs = [EvMessage msg_no_documents] ∧ get_document_count self = None
              ∨ evs = [EvMessage msg_no_organization] ∧ truthy (org_id self) = false
              ∨ evs = [EvMessage msg_insufficient]
                ∧ (∃ c x, calculate_cost self (get_documents self) st = (Ok c, st)
                          ∧ charge_credits_raises self c = Some x
                          ∧ (x = ValueError ∨ x = APIError))
              ∨ ∃ c, calculate_cost self (get_documents self) st = (Ok c, st)
                     ∧ charge_credits_raises self c = None
                     ∧ (evs = [EvCharge c; EvMessage msg_end_before_start]
                        ∨ evs = [EvCharge c; EvMessage msg_start_below_one]))
           ∨ ∃ x, @Exit unit 0 = Raise x
                  ∧ (evs = []
                     ∨ ∃ c, evs = [EvCharge c]
                            ∧ calculate_cost self (get_documents self) st = (Ok c, st)
                            ∧ charge_credits_raises self c = None))) as Hmsg.
    { intros msg Hm. exists [EvCharge c; EvMessage msg].
      split; [apply (with_log_with_log [EvCharge c] [EvMessage msg] st)|].
      left. split; [done|]. do 3 right. exists c. split; [done|]. split; [done|].
      destruct Hm as [-> | ->]; by (left + right). }
    destruct (data_get self "end_page" (PyInt 1)) as [|e|e] eqn:He;
      destruct (data_get self "start_page" (PyInt 1)) as [|s|s] eqn:Hs;
      unfold py_lt, py_compare, bind, ret, raise;
      try (intros [= <- <-]; left; by apply Hstop).
    + destruct (Z.compare_spec e s).
      * destruct (Z.compare_spec s 1).
        -- intros Hrun. right. exists c, s, e. repeat (split; [done || lia|]). done.
        -- unfold set_message, log_event, sys_exit. intros [= <- <-].
           left. apply Hmsg. by right.
        -- intros Hrun. right. exists c, s, e. repeat (split; [done || lia|]). done.
      * unfold set_message, log_event, sys_exit. intros [= <- <-].
        left. apply Hmsg. by left.
      * destruct (Z.compare_spec s 1).
        -- intros Hrun. right. exists c, s, e. repeat (split; [done || lia|]). done.
        -- unfold set_message, log_event, sys_exit. intros [= <- <-].
           left. apply Hmsg. by right.
        -- intros Hrun. right. exists c, s, e. repeat (split; [done || lia|]). done.
    + destruct (String.compare e s);
        try (intros [= <- <-]; left; by apply Hstop).
      unfold set_message, log_event, sys_exit. intros [= <- <-].
      left. apply Hmsg. by left.
Qed.
End MainShape.

(** ** Only the gate exits *)

Lemma never_exits_bind {A B} (m : M A) (k : A → M B) :
  never_exits m → (∀ a, never_exits (k a)) → never_exits (bind m k).
Proof.
  intros Hm Hk st c st'. unfold bind.
  destruct (m st) as [[a|c0|x] st1] eqn:E; [apply Hk|by destruct (Hm _ _ _ E)|done].
Qed.

Lemma never_exits_for_each {A} (l : list A) (body : A → M unit) :
  (∀ x, never_exits (body x)) → never_exits (for_each l body).
Proof.
  intros Hbody. induction l as [|x l IH]; [done|].
  cbn [for_each]. by apply never_exits_bind.
Qed.

Lemma never_exits_write_file name c : never_exits (write_file name c).
Proof.
  intros st c0 st'. by destruct (write_file_cases name c st) as [[_ ->]|[_ ->]].
Qed.

Lemma never_exits_read_file name : never_exits (read_file name).
Proof. intros st c st'. unfold read_file. by repeat case_match. Qed.

Lemma never_exits_chdir name : never_exits (chdir name).
Proof. intros st c st'. unfold chdir. by repeat case_match. Qed.

Lemma never_exits_makedirs name : never_exits (makedirs name).
Proof. intros st c st'. unfold makedirs. by repeat case_match. Qed.

Lemma never_exits_log_event ev : never_exits (log_event ev).
Proof. done. Qed.

Lemma never_exits_raise {A} x : never_exits (@raise A x).
Proof. done. Qed.

Section NeverExits.
Context (self : Env).

Lemma never_exits_write_tables output_format doc p tables :
  never_exits (write_tables output_format doc p tables).
Proof.
  unfold write_tables.
  case_decide; apply never_exits_bind; try apply never_exits_chdir; intros _;
    apply never_exits_bind; try (intros _; apply never_exits_chdir);
    apply never_exits_for_each; intros i; apply never_exits_bind;
    try (intros t; apply never_exits_write_file);
    unfold table_at; destruct (tables !! i); done.
Qed.

Lemma never_exits_process_page output_format doc p :
  never_exits (process_page self output_format doc p).
Proof.
  unfold process_page. apply never_exits_bind; [done|]. intros _.
  destruct (Document.get_large_image doc p) as [img|]; [|done].
  apply never_exits_bind; [apply never_exits_write_file|]. intros _.
  apply never_exits_bind.
  { unfold convert_to_png. apply never_exits_bind; [apply never_exits_read_file|].
    intros g. destruct (gif_to_png self g); [apply never_exits_write_file|done]. }
  intros _. apply never_exits_bind; [apply never_exits_read_file|]. intros image.
  apply never_exits_bind; [done|]. intros _.
  destruct (analyze_document self image); [apply never_exits_write_tables|done].
Qed.

Lemma never_exits_process_document output_format start_page end_page doc :
  never_exits (process_document self output_format start_page end_page doc).
Proof.
  unfold process_document, py_add, py_arith, py_gt, py_compare, py_range.
  apply never_exits_bind; [by repeat case_match|]. intros e1.
  apply never_exits_bind.
  { apply never_exits_bind; [by repeat case_match|]. done. }
  intros c. apply never_exits_bind; [by repeat case_match|]. intros pages.
  apply never_exits_for_each. intros p. apply never_exits_process_page.
Qed.

(** Past the checks nothing calls [sys.exit]. *)
Lemma never_exits_extract_tables output_format start_page end_page :
  never_exits (extract_tables self output_format start_page end_page).
Proof.
  unfold extract_tables. apply never_exits_bind.
  { unfold setup_credential_file. by destruct (environ_TOKEN self). }
  intros _. apply never_exits_bind.
  { intros st c st'. unfold Textractor. by destruct (textractor_raises self _). }
  intros _. apply never_exits_bind; [apply never_exits_makedirs|]. intros _.
  apply never_exits_bind; [apply never_exits_chdir|]. intros _.
  apply never_exits_bind; [apply never_exits_makedirs|]. intros _.
  apply never_exits_bind.
  { apply never_exits_for_each. intros doc. apply never_exits_process_document. }
  intros _. apply never_exits_bind.
  { intros st c st'. unfold write_archive. apply never_exits_write_file. }
  intros _. unfold upload_file. apply never_exits_bind; [apply never_exits_read_file|].
  intros c. by destruct (upload_file_raises self).
Qed.
End NeverExits.

(** ** Further properties of the gate *)

(** X1. With documents selected but no organization ([self.org_id] falsy),
    [main] sets the no-organization message and exits with status 0; the
    cost is not computed and nothing is charged or written. *)
Theorem X1_no_organization_exit (self : Env) (n : Z) (st : State) :
  get_document_count self = Some n →
  truthy (org_id self) = false →
  main self st = (Exit 0, with_log [EvMessage msg_no_organization] st).
Proof.
  intros Hn Horg. unfold main, validate. rewrite Hn, Horg.
  by unfold bind, set_message, log_event, sys_exit.
Qed.

Lemma X1_no_organization_exit_witness :
  main (mkEnv ∅ (Some 1) PyNone [sample_document 1 3] (λ _, None)
              (Some "[default]") default_profile
              (λ _, None) (λ _, None) None) (initial_state [] ∅)
  = (Exit 0, mkState [EvMessage msg_no_organization] [] ∅ None).
Proof.
  exact (X1_no_organization_exit
    (mkEnv ∅ (Some 1) PyNone [sample_document 1 3] (λ _, None)
           (Some "[default]") default_profile
           (λ _, None) (λ _, None) None) 1 (initial_state [] ∅) eq_refl eq_refl).
Defined.

(** X2. When the charge went through and the pages read are integers with
    [start_page <= end_page] but [start_page < 1], [main] has charged the
    cost computed from that range, sets the start-below-one message and
    exits with status 0: the charge precedes the check and is kept. *)
Theorem X2_start_below_one_exit (self : Env) (s e : Z) (st st1 : State) :
  validate self st = (Ok true, st1) →
  data_get self "start_page" (PyInt 1) = PyInt s →
  data_get self "end_page" (PyInt 1) = PyInt e →
  s ≤ e →
  s < 1 →
  ∃ c, calculate_cost self (get_documents self) st = (Ok c, st)
       ∧ main self st
         = (Exit 0, with_log [EvCharge c; EvMessage msg_start_below_one] st).
Proof.
  intros Hv Hs He Hse Hs1.
  destruct (validate_true_inv _ _ _ Hv) as (c & Hc & Hch & ->).
  exists c. split; [done|].
  unfold main. erewrite bind_Ok by done. rewrite Hs, He. cbn [negb].
  unfold py_lt, py_compare, bind, ret.
  destruct (Z.compare_spec e s); [| lia |];
    (destruct (Z.compare_spec s 1); [lia | | lia]);
    unfold set_message, log_event, sys_exit, add_event, with_log; simpl;
    by rewrite <-app_assoc.
Qed.

Lemma X2_start_below_one_exit_witness :
  ∃ c, calculate_cost (sample_env (page_config 0 2) [sample_document 1 5] [])
         [sample_document 1 5] (initial_state [] ∅) = (Ok c, initial_state [] ∅)
       ∧ main (sample_env (page_config 0 2) [sample_document 1 5] []) (initial_state [] ∅)
         = (Exit 0, with_log [EvCharge c; EvMessage msg_start_below_one]
                      (initial_state [] ∅)).
Proof.
  apply (X2_start_below_one_exit
    (sample_env (page_config 0 2) [sample_document 1 5] []) 0 2
    (initial_state [] ∅) (add_event (EvCharge 30) (initial_state [] ∅))).
  - reflexivity.
  - reflexivity.
  - reflexivity.
  - lia.
  - lia.
Defined.

(** X3. An exception of [charge_credits] other than [ValueError] and
    [APIError] is not caught: [main] ends with that exception, with no
    message and the state as it was. *)
Theorem X3_other_charge_exception_propagates (self : Env) (n c : Z) (x : exn)
    (st : State) :
  get_document_count self = Some n →
  truthy (org_id self) = true →
  calculate_cost self (get_documents self) st = (Ok c, st) →
  charge_credits_raises self c = Some x →
  x ≠ ValueError →
  x ≠ APIError →
  main self st = (Raise x, st).
Proof.
  intros Hn Horg Hc Hch Hx1 Hx2. unfold main, validate. rewrite Hn, Horg.
  cbn [negb]. unfold bind at 1 2. rewrite Hc.
  unfold try_except, charge_credits, bind, raise. rewrite Hch.
  by destruct x.
Qed.

Lemma X3_other_charge_exception_propagates_witness :
  main (broke_env KeyError (page_config 1 2) [sample_document 1 5]) (initial_state [] ∅)
  = (Raise KeyError, initial_state [] ∅).
Proof.
  apply (X3_other_charge_exception_propagates
    (broke_env KeyError (page_config 1 2) [sample_document 1 5]) 1 20 KeyError
    (initial_state [] ∅)); (reflexivity || discriminate).
Defined.

Lemma gate_events_cases evs :
  evs = [] ∨ (∃ m, evs = [EvMessage m]) ∨ (∃ c, evs = [EvCharge c])
  ∨ (∃ c m, evs = [EvCharge c; EvMessage m]) →
  Forall is_gate_event evs.
Proof.
  intros [-> | [[m ->] | [[c ->] | (c & m & ->)]]]; by repeat constructor.
Qed.

(** X4. When [start_page] or [end_page], as [main] reads them, is [None]
    or a string, the run never reaches the work: it does not return
    normally, only the log changes, and the log gains nothing but ledger and
    message calls. *)
Theorem X4_none_or_string_pages_stop_at_gate (self : Env) (st st' : State)
    (r : outcome unit) :
  none_or_str (data_get self "start_page" (PyInt 1)) = true
  ∨ none_or_str (data_get self "end_page" (PyInt 1)) = true →
  main self st = (r, st') →
  (∀ a, r ≠ Ok a)
  ∧ ∃ evs, st' = with_log evs st ∧ Forall is_gate_event evs.
Proof.
  intros Hcfg Hrun.
  destruct (main_shape self _ _ _ Hrun)
    as [(evs & -> & Hev) | (c & s & e & _ & _ & Hs & He & _)].
  - split.
    + destruct Hev as [[-> _] | (x & -> & _)]; done.
    + exists evs. split; [done|]. apply gate_events_cases.
      destruct Hev as [[_ [[-> _] | [[-> _] | [[-> _] | (c & _ & _ & [-> | ->])]]]]
                      | (x & _ & [-> | (c & -> & _)])]; eauto 10.
  - rewrite Hs, He in Hcfg. by destruct Hcfg.
Qed.

Lemma X4_none_or_string_pages_stop_at_gate_witness :
  let self := sample_env (<["start_page" := PyStr "2"]> (<["end_page" := PyInt 3]> ∅))
                [sample_document 1 5] [] in
  (∀ a, (main self (initial_state [] ∅)).1 ≠ Ok a)
  ∧ ∃ evs, (main self (initial_state [] ∅)).2 = with_log evs (initial_state [] ∅)
           ∧ Forall is_gate_event evs.
Proof.
  intros self.
  apply (X4_none_or_string_pages_stop_at_gate self (initial_state [] ∅)).
  - left. reflexivity.
  - apply surjective_pairing.
Defined.

(** X5. [main] exits only with status 0, only right after setting one of its
    five messages, and only before the work: apart from the log, which
    holds at most the charge before the message, the state is as it was. *)
Theorem X5_exits_are_status_zero_before_work (self : Env) (c : Z) (st st' : State) :
  main self st = (Exit c, st') →
  c = 0
  ∧ ∃ evs msg,
      st' = with_log (evs ++ [EvMessage msg]) st
      ∧ (evs = [] ∨ ∃ k, evs = [EvCharge k])
      ∧ msg ∈ [msg_no_documents; msg_no_organization; msg_insufficient;
               msg_end_before_start; msg_start_below_one].
Proof.
  intros Hrun.
  destruct (main_shape self _ _ _ Hrun)
    as [(evs & -> & [[[= ->] Hev] | (x & [=] & _)]) | (k & s & e & _ & _ & _ & _ & _ & Hex)].
  - split; [done|].
    destruct Hev as [[-> _] | [[-> _] | [[-> _] | (k & _ & _ & [-> | ->])]]].
    + exists [], msg_no_documents. split; [done|]. split; [by left|]. set_solver.
    + exists [], msg_no_organization. split; [done|]. split; [by left|]. set_solver.
    + exists [], msg_insufficient. split; [done|]. split; [by left|]. set_solver.
    + exists [EvCharge k], msg_end_before_start. split; [done|].
      split; [right; eauto|]. set_solver.
    + exists [EvCharge k], msg_start_below_one. split; [done|].
      split; [right; eauto|]. set_solver.
  - by destruct (never_exits_extract_tables self _ _ _ _ _ _ Hex).
Qed.

Lemma X5_exits_are_status_zero_before_work_witness :
  (0 : Z) = 0
  ∧ ∃ evs msg,
      mkState [EvCharge (-20); EvMessage msg_end_before_start] [] ∅ None
      = with_log (evs ++ [EvMessage msg]) (initial_state [] ∅)
      ∧ (evs = [] ∨ ∃ k, evs = [EvCharge k])
      ∧ msg ∈ [msg_no_documents; msg_no_organization; msg_insufficient;
               msg_end_before_start; msg_start_below_one].
Proof.
  apply (X5_exits_are_status_zero_before_work
    (sample_env (page_config 5 2) [sample_document 1 10] []) 0 (initial_state [] ∅)).
  reflexivity.
Defined.

(** X6. Whatever the configuration and however the run ends, [main] charges
    at most once, and what it charges is the cost [calculate_cost] returned
    for the documents of the store. *)
Theorem X6_at_most_one_charge (self : Env) (st st' : State) (r : outcome unit) :
  main self st = (r, st') →
  ∃ evs, st_log st' = st_log st ++ evs
         ∧ (charged evs = []
            ∨ ∃ c, charged evs = [c]
                   ∧ calculate_cost self (get_documents self) st = (Ok c, st)).
Proof.
  intros Hrun.
  destruct (main_shape self _ _ _ Hrun)
    as [(evs & -> & Hev) | (c & s & e & Hc & _ & _ & _ & _ & Hex)].
  - exists evs. split; [done|].
    destruct Hev as [[_ [[-> _] | [[-> _] | [[-> _] | (c & Hc & _ & [-> | ->])]]]]
                    | (x & _ & [-> | (c & -> & Hc & _)])];
      try (by left); right; by exists c.
  - set (fmt := data_get self "output_format" (PyStr "csv")) in *.
    destruct (extract_tables_obs self charged
                (λ doc p, charged (page_events self (st_cwd st ++ ["out"]) fmt doc p))
                fmt s e (with_log [EvCharge c] st) r st')
      as (evs & Hlog & Hpre & _); [done|done| |done|].
    { intros doc p. apply process_page_obs, _. }
    rewrite bind_all_nil in Hpre.
    2:{ intros doc _. apply bind_all_nil. intros p _. apply charged_page_events. }
    apply prefix_nil_inv in Hpre.
    exists ([EvCharge c] ++ evs). cbn [with_log st_log] in Hlog.
    split; [by rewrite Hlog, app_assoc|].
    right. exists c. by rewrite (obs_app (obs:=charged)), Hpre.
Qed.

Lemma X6_at_most_one_charge_witness :
  ∃ evs, st_log (main sample_job (initial_state [] ∅)).2 = [] ++ evs
         ∧ (charged evs = []
            ∨ ∃ c, charged evs = [c]
                   ∧ calculate_cost sample_job (get_documents sample_job)
                       (initial_state [] ∅) = (Ok c, initial_state [] ∅)).
Proof.
  apply (X6_at_most_one_charge sample_job (initial_state [] ∅) _
           (main sample_job (initial_state [] ∅)).1).
  apply surjective_pairing.
Defined.

(** ** Further properties of the estimator *)

Lemma calculate_cost_not_configured (self : Env) doc docs st :
  (∀ s e, ¬ (data self !! "end_page" = Some (PyInt e)
             ∧ data_get self "start_page" (PyInt 1) = PyInt s)) →
  calculate_cost self (doc :: docs) st = (Raise TypeError, st).
Proof.
  intros Hcfg. unfold calculate_cost. cbn [cost_loop]. unfold cost_step.
  destruct (data_get self "end_page" PyNone) as [|e|x] eqn:Hend; try reflexivity.
  assert (data self !! "end_page" = Some (PyInt e)) as He.
  { unfold data_get in Hend. destruct (data self !! "end_page"); congruence. }
  destruct (data_get self "start_page" (PyInt 1)) as [|s|x] eqn:Hs.
  - unfold py_le, py_compare, py_sub, py_arith, bind, ret, raise.
    by destruct (e ?= Document.page_count doc).
  - by destruct (Hcfg s e).
  - unfold py_le, py_compare, py_sub, py_arith, bind, ret, raise.
    by destruct (e ?= Document.page_count doc).
Qed.

(** X7. For an empty list of documents [calculate_cost] returns 0 whatever
    the configuration.  For a non-empty list it raises [TypeError], and
    leaves the state as it was, when [end_page] is missing, [None] or a
    string (a missing [end_page] has no default here), and also when
    [start_page] is [None] or a string. *)
Theorem X7_calculate_cost_type_error (self : Env) (st : State) :
  calculate_cost self [] st = (Ok 0, st)
  ∧ (none_or_str (data_get self "end_page" PyNone) = true
     ∨ none_or_str (data_get self "start_page" (PyInt 1)) = true →
     ∀ doc docs, calculate_cost self (doc :: docs) st = (Raise TypeError, st)).
Proof.
  split; [reflexivity|].
  intros Hcfg doc docs. unfold calculate_cost. cbn [cost_loop]. unfold cost_step.
  destruct (data_get self "end_page" PyNone) as [|e|x] eqn:Hend; try reflexivity.
  destruct Hcfg as [Hcfg | Hcfg]; [done|].
  destruct (data_get self "start_page" (PyInt 1)) as [|s|x] eqn:Hs; [|done|];
    unfold py_le, py_compare, py_sub, py_arith, bind, ret, raise;
    by destruct (e ?= Document.page_count doc).
Qed.

Lemma X7_calculate_cost_type_error_witness :
  calculate_cost (sample_env (<["start_page" := PyInt 2]> ∅) [] [])
    [sample_document 1 5] (initial_state [] ∅)
  = (Raise TypeError, initial_state [] ∅).
Proof.
  destruct (X7_calculate_cost_type_error
              (sample_env (<["start_page" := PyInt 2]> ∅) [] [])
              (initial_state [] ∅)) as [_ H].
  apply H. left. reflexivity.
Defined.



Lemma length_pages_bind s e docs :
  Z.of_nat (length (docs ≫= pages_of s e)) = Zsum (effective_pages s e <$> docs).
Proof.
  induction docs as [|doc docs IH]; [done|].
  rewrite bind_cons, length_app, Nat2Z.inj_add, IH, pages_of_length, fmap_cons.
  reflexivity.
Qed.

(** X9. With integer pages, when no document ends more than one page before
    [start_page], the cost is ten credits for each page the loop of [main]
    visits: ten times the total length of the page ranges of the
    documents. *)
Theorem X9_cost_is_ten_per_visited_page (self : Env) (docs : list Document.t)
    (s e : Z) (st : State) :
  data self !! "end_page" = Some (PyInt e) →
  data_get self "start_page" (PyInt 1) = PyInt s →
  (∀ doc, doc ∈ docs → s - 1 ≤ Z.min e (Document.page_count doc)) →
  calculate_cost self docs st
  = (Ok (Z.of_nat (length (docs ≫= pages_of s e)) * 10), st).
Proof.
  intros He Hs Hdocs.
  rewrite (cost_loop_int_cost self s e docs st He Hs).
  by rewrite length_pages_bind, Zsum_effective_pages.
Qed.

Lemma X9_cost_is_ten_per_visited_page_witness :
  calculate_cost (sample_env (page_config 1 4) [] [])
    [sample_document 1 3; sample_document 2 7] (initial_state [] ∅)
  = (Ok (Z.of_nat (length ([sample_document 1 3; sample_document 2 7] ≫= pages_of 1 4)) * 10),
     initial_state [] ∅).
Proof.
  apply (X9_cost_is_ten_per_visited_page (sample_env (page_config 1 4) [] [])).
  - reflexivity.
  - reflexivity.
  - intros doc Hdoc.
    apply elem_of_cons in Hdoc as [->|Hdoc]; [simpl; lia|].
    apply elem_of_cons in Hdoc as [->|Hdoc]; [simpl; lia|].
    by apply elem_of_nil in Hdoc.
Defined.

(** ** Past the gate *)

Section PastGate.
Context (self : Env).

(** Past a successful charge and the two range checks, [main] is
    [extract_tables]. *)
Lemma main_validated s e st st1 :
  validate self st = (Ok true, st1) →
  data_get self "start_page" (PyInt 1) = PyInt s →
  data_get self "end_page" (PyInt 1) = PyInt e →
  1 ≤ s ≤ e →
  main self st
  = extract_tables self (data_get self "output_format" (PyStr "csv"))
      (PyInt s) (PyInt e) st1.
Proof.
  intros Hv Hs He Hse. unfold main. erewrite bind_Ok by exact Hv.
  rewrite Hs, He. cbn [negb]. unfold py_lt, py_compare, bind, ret.
  destruct (Z.compare_spec e s); destruct (Z.compare_spec s 1); (done || lia).
Qed.

Lemma for_each_Ok_all {A} (I : State → Prop) (P : A → Prop) (l : list A)
    (body : A → M unit) :
  (∀ x st st', I st → body x st = (Ok tt, st') → I st' ∧ P x) →
  ∀ st st', I st → for_each l body st = (Ok tt, st') → I st' ∧ Forall P l.
Proof.
  intros Hbody. induction l as [|x l IH]; intros st st' Hst.
  - intros [= <-]. by split.
  - cbn [for_each]. unfold bind.
    destruct (body x st) as [[[]|c|y] st1] eqn:Hx; [|done..].
    destruct (Hbody x st st1 Hst Hx) as [Hst1 HPx].
    intros Hl. destruct (IH st1 st' Hst1 Hl) as [Hst' HPl].
    split; [done|]. by constructor.
Qed.

(** A loop over the documents that returns has analysed every page in
    range. *)
Lemma documents_Ok_all_pages out output_format s e docs st st' :
  st_cwd st = out →
  for_each docs (process_document self output_format (PyInt s) (PyInt e)) st
  = (Ok tt, st') →
  st_cwd st' = out
  ∧ Forall (λ doc, Forall (λ p, is_Some (page_tables self doc p)) (pages_of s e doc)) docs.
Proof.
  apply (for_each_Ok_all (λ st, st_cwd st = out)). clear st st'.
  intros doc st st' Hd.
  unfold process_document, py_add, py_arith, py_gt, py_compare, py_range.
  unfold bind at 1 2 3 4, ret.
  assert ((if match e ?= Document.page_count doc with Gt => true | _ => false end
           then Document.page_count doc + 1 else e + 1)
          = Z.min e (Document.page_count doc) + 1) as ->.
  { destruct (Z.compare_spec e (Document.page_count doc)); lia. }
  apply (for_each_Ok_all (λ st, st_cwd st = out)); [|done].
  intros p st1 st2 Hd1 Hp.
  destruct (process_page_spec self out output_format doc p st1 _ st2 Hd1 Hp)
    as (evs & _ & _ & Hok).
  by destruct (Hok eq_refl) as (_ & ? & ?).
Qed.

(** When the archive or its upload fails, nothing is uploaded. *)
Lemma finish_not_Ok st r st' :
  (write_archive ;; upload_file self "all_tables.zip") st = (r, st') →
  (∀ a, r ≠ Ok a) →
  ∃ tail, st_log st' = st_log st ++ tail ∧ uploads tail = [].
Proof.
  unfold bind at 1, write_archive.
  match goal with |- context [write_file ?n ?c st] =>
    destruct (write_file_cases n c st) as [[_ H]|[_ H]]; rewrite H; clear H
  end.
  { intros [= <- <-] _. exists []. by rewrite app_nil_r. }
  unfold upload_file, bind at 1, read_file at 1.
  cbn [st_log st_cwd st_fs st_credentials]. rewrite lookup_insert_eq.
  destruct (upload_file_raises self) as [x|].
  - intros [= <- <-] _. by eexists [_].
  - unfold log_event. intros [= <- <-] Hne. by destruct (Hne tt).
Qed.

(** The credential file is not touched after it was written. *)
Lemma finish_credentials st r st' :
  (write_archive ;; upload_file self "all_tables.zip") st = (r, st') →
  st_credentials st' = st_credentials st.
Proof.
  unfold bind at 1, write_archive.
  match goal with |- context [write_file ?n ?c st] =>
    destruct (write_file_cases n c st) as [[_ H]|[_ H]]; rewrite H; clear H
  end.
  { by intros [= <- <-]. }
  unfold upload_file, bind at 1, read_file at 1.
  cbn [st_log st_cwd st_fs st_credentials]. rewrite lookup_insert_eq.
  destruct (upload_file_raises self) as [x|]; unfold log_event; by intros [= <- <-].
Qed.
End PastGate.

Global Instance uploads_observation : Observation uploads.
Proof. apply omap_observation. Qed.

Lemma uploads_cons ev evs :
  uploads (ev :: evs)
  = match ev with EvUpload c => [c] | _ => [] end ++ uploads evs.
Proof. by destruct ev. Qed.

Lemma uploads_page_events self out output_format doc p :
  uploads (page_events self out output_format doc p) = [].
Proof.
  unfold page_events. rewrite uploads_cons.
  destruct (Document.get_large_image doc p) as [img|]; [|reflexivity].
  rewrite uploads_cons.
  destruct (gif_to_png self img) as [png|]; [|reflexivity].
  rewrite !uploads_cons.
  destruct (analyze_document self png) as [tables|]; [|reflexivity].
  by apply omap_imap_None.
Qed.

Lemma uploads_job_events self out output_format s e :
  uploads (job_events self out output_format s e) = [].
Proof.
  unfold job_events. rewrite (obs_bind uploads). apply bind_all_nil. intros doc _.
  rewrite (obs_bind uploads). apply bind_all_nil. intros p _.
  apply uploads_page_events.
Qed.

(** X10. When the charge went through and the range is valid but [TOKEN] is
    not in the environment, [main] raises [KeyError] right after the charge:
    the credits stay charged, no directory is made and nothing is written. *)
Theorem X10_missing_token_after_charge (self : Env) (s e : Z) (st st1 : State) :
  validate self st = (Ok true, st1) →
  data_get self "start_page" (PyInt 1) = PyInt s →
  data_get self "end_page" (PyInt 1) = PyInt e →
  1 ≤ s ≤ e →
  environ_TOKEN self = None →
  ∃ c, main self st = (Raise KeyError, with_log [EvCharge c] st).
Proof.
  intros Hv Hs He Hse Htok.
  rewrite (main_validated self s e st st1 Hv Hs He Hse).
  destruct (validate_true_inv _ _ _ Hv) as (c & _ & _ & ->).
  exists c. unfold extract_tables, setup_credential_file. by rewrite Htok.
Qed.

Lemma X10_missing_token_after_charge_witness :
  ∃ c, main (mkEnv (page_config 1 2) (Some 1) (PyInt 7) [sample_document 1 5]
                   (λ _, None) None default_profile (λ _, None) (λ _, None) None)
            (initial_state [] ∅)
       = (Raise KeyError, with_log [EvCharge c] (initial_state [] ∅)).
Proof.
  apply (X10_missing_token_after_charge
    (mkEnv (page_config 1 2) (Some 1) (PyInt 7) [sample_document 1 5]
           (λ _, None) None default_profile (λ _, None) (λ _, None) None) 1 2
    (initial_state [] ∅) (add_event (EvCharge 20) (initial_state [] ∅)));
    (reflexivity || lia).
Defined.

(** X11. When the charge went through, the range is valid and the service
    client is built from [TOKEN], but the working directory already holds
    an entry [out], [main] raises [FileExistsError]: the credits are charged
    and the credential file is written, the file tree is as it was and no
    page is requested. *)
Theorem X11_existing_out_directory (self : Env) (s e : Z) (tok : string)
    (st st1 : State) :
  validate self st = (Ok true, st1) →
  data_get self "start_page" (PyInt 1) = PyInt s →
  data_get self "end_page" (PyInt 1) = PyInt e →
  1 ≤ s ≤ e →
  environ_TOKEN self = Some tok →
  textractor_raises self (Some tok) = None →
  is_Some (st_fs st !! (st_cwd st ++ ["out"])) →
  ∃ c, main self st
       = (Raise FileExistsError,
          mkState (st_log st ++ [EvCharge c]) (st_cwd st) (st_fs st) (Some tok)).
Proof.
  intros Hv Hs He Hse Htok Htex [n Hout].
  rewrite (main_validated self s e st st1 Hv Hs He Hse).
  destruct (validate_true_inv _ _ _ Hv) as (c & _ & _ & ->).
  exists c. unfold extract_tables, setup_credential_file. rewrite Htok.
  unfold bind at 1 2, Textractor at 1. cbn [add_event st_log st_cwd st_fs st_credentials].
  rewrite Htex.
  unfold bind at 1, makedirs at 1. cbn [add_event st_log st_cwd st_fs st_credentials].
  by rewrite Hout.
Qed.

Lemma X11_existing_out_directory_witness :
  ∃ c, main (sample_env (page_config 1 2) [sample_document 1 5] [])
            (initial_state [] (<[["out"] := Dir]> ∅))
       = (Raise FileExistsError,
          mkState ([] ++ [EvCharge c]) [] (<[["out"] := Dir]> ∅) (Some "[default]")).
Proof.
  assert (is_Some (st_fs (initial_state [] (<[["out"] := Dir]> ∅))
                     !! (st_cwd (initial_state [] (<[["out"] := Dir]> ∅)) ++ ["out"])))
    as Hout by by eexists.
  assert (1 ≤ 1 ≤ 2) as Hse by lia.
  exact (X11_existing_out_directory
    (sample_env (page_config 1 2) [sample_document 1 5] []) 1 2 "[default]"
    (initial_state [] (<[["out"] := Dir]> ∅))
    (add_event (EvCharge 20) (initial_state [] (<[["out"] := Dir]> ∅)))
    eq_refl eq_refl eq_refl Hse eq_refl eq_refl Hout).
Defined.

(** X12. With pages that read as the integers [s] and [e], a run of [main]
    returns only if the range is valid, [TOKEN] is set and the service
    client was built from it, the upload was accepted and, for every
    document of the store and every page of its range, the image request,
    the decoding and the analysis all succeeded: one page that fails leaves
    the job without a result. *)
Theorem X12_return_needs_every_page (self : Env) (s e : Z) (st st' : State) :
  data_get self "start_page" (PyInt 1) = PyInt s →
  data_get self "end_page" (PyInt 1) = PyInt e →
  main self st = (Ok tt, st') →
  1 ≤ s ≤ e
  ∧ (∃ tok, environ_TOKEN self = Some tok ∧ textractor_raises self (Some tok) = None)
  ∧ upload_file_raises self = None
  ∧ ∀ doc p, doc ∈ get_documents self → p ∈ pages_of s e doc →
             is_Some (page_tables self doc p).
Proof.
  intros Hs He Hrun.
  destruct (main_shape self _ _ _ Hrun)
    as [(evs & _ & [[[=] _] | (x & [=] & _)])
       | (c & s' & e' & _ & _ & Hs' & He' & Hse & Hex)].
  assert (s' = s) as -> by congruence. assert (e' = e) as -> by congruence.
  split; [done|].
  pose proof (extract_tables_Ok self _ _ _ _ _ Hex) as (_ & _ & _ & Hup & _).
  destruct (extract_tables_cases _ _ _ _ _ _ _ Hex)
    as [[Hne _] | (tok & Htok & _ & _ & Hloop)]; [by destruct (Hne tt)|].
  split; [by exists tok|]. split; [done|].
  unfold bind at 1 in Hloop.
  destruct (for_each _ _ _) as [[[]|k|x] st2] eqn:Hl in Hloop; [|done..].
  apply (documents_Ok_all_pages self (st_cwd st ++ ["out"])) in Hl as [_ Hall]; [|done].
  intros doc p Hdoc Hp. rewrite Forall_forall in Hall.
  specialize (Hall doc Hdoc). rewrite Forall_forall in Hall. by apply Hall.
Qed.

Lemma X12_return_needs_every_page_witness :
  1 ≤ 2 ≤ 3
  ∧ (∃ tok, environ_TOKEN sample_job = Some tok
            ∧ textractor_raises sample_job (Some tok) = None)
  ∧ upload_file_raises sample_job = None
  ∧ ∀ doc p, doc ∈ get_documents sample_job → p ∈ pages_of 2 3 doc →
             is_Some (page_tables sample_job doc p).
Proof.
  apply (X12_return_needs_every_page sample_job 2 3 (initial_state [] ∅)
           (main sample_job (initial_state [] ∅)).2).
  - reflexivity.
  - reflexivity.
  - vm_compute. reflexivity.
Defined.

(** X20. When the charge went through and the range is valid but the
    service client cannot be built from the credential file that holds
    [TOKEN], [main] ends with the exception of the client right after
    writing that file: the credits stay charged, no directory is made and
    no page is requested. *)
Theorem X20_client_failure_after_charge (self : Env) (s e : Z) (tok : string)
    (x : exn) (st st1 : State) :
  validate self st = (Ok true, st1) →
  data_get self "start_page" (PyInt 1) = PyInt s →
  data_get self "end_page" (PyInt 1) = PyInt e →
  1 ≤ s ≤ e →
  environ_TOKEN self = Some tok →
  textractor_raises self (Some tok) = Some x →
  ∃ c, main self st
       = (Raise x,
          mkState (st_log st ++ [EvCharge c]) (st_cwd st) (st_fs st) (Some tok)).
Proof.
  intros Hv Hs He Hse Htok Htex.
  rewrite (main_validated self s e st st1 Hv Hs He Hse).
  destruct (validate_true_inv _ _ _ Hv) as (c & _ & _ & ->).
  exists c. unfold extract_tables, setup_credential_file. rewrite Htok.
  unfold bind at 1 2, Textractor at 1. cbn [add_event st_log st_cwd st_fs st_credentials].
  by rewrite Htex.
Qed.

Lemma X20_client_failure_after_charge_witness :
  ∃ c, main bad_token_job (initial_state [] ∅)
       = (Raise ConfigParseError, mkState ([] ++ [EvCharge c]) [] ∅ (Some "t")).
Proof.
  assert (1 ≤ 1 ≤ 2) as Hse by lia.
  exact (X20_client_failure_after_charge bad_token_job 1 2 "t" ConfigParseError
           (initial_state [] ∅) (add_event (EvCharge 20) (initial_state [] ∅))
           eq_refl eq_refl eq_refl Hse eq_refl eq_refl).
Defined.

Section Uploads.
Context (self : Env).

Lemma extract_tables_not_Ok_uploads output_format s e st r st' :
  extract_tables self output_format (PyInt s) (PyInt e) st = (r, st') →
  (∀ a, r ≠ Ok a) →
  ∃ evs, st_log st' = st_log st ++ evs ∧ uploads evs = [].
Proof.
  intros Hrun Hne.
  destruct (extract_tables_cases _ _ _ _ _ _ _ Hrun)
    as [[_ Hlog] | (tok & _ & _ & _ & Hloop)].
  { exists []. by rewrite app_nil_r. }
  unfold bind at 1 in Hloop.
  destruct (for_each _ _ _) as [r1 st2] eqn:Hl in Hloop.
  destruct (process_documents_runs_as self (st_cwd st ++ ["out"]) output_format uploads
              (λ doc p, uploads (page_events self (st_cwd st ++ ["out"]) output_format doc p))
              s e (get_documents self)
              (λ doc p, process_page_obs self _ output_format uploads doc p)
              (loop_start st tok) _ _ eq_refl Hl)
    as (evs1 & (Hlog1 & _ & _) & Hpre1 & _).
  rewrite bind_all_nil in Hpre1.
  2:{ intros doc _. apply bind_all_nil. intros p _. apply uploads_page_events. }
  apply prefix_nil_inv in Hpre1. cbn [loop_start st_log] in Hlog1.
  destruct r1 as [[]|k|x].
  - destruct (finish_not_Ok self _ _ _ Hloop Hne) as (tail & Hlog2 & Htail).
    exists (evs1 ++ tail). split; [by rewrite Hlog2, Hlog1, app_assoc|].
    by rewrite (obs_app (obs:=uploads)), Hpre1, Htail.
  - injection Hloop as <- <-. by exists evs1.
  - injection Hloop as <- <-. by exists evs1.
Qed.
End Uploads.

(** X13. [main] uploads exactly when it returns.  A run that ends otherwise
    has uploaded nothing.  A run that returns has uploaded one archive, as
    its last call, and that archive is the file [out/all_tables.zip] left on
    disk. *)
Theorem X13_upload_iff_return (self : Env) (st st' : State) (r : outcome unit) :
  main self st = (r, st') →
  ∃ evs, st_log st' = st_log st ++ evs
         ∧ ((∀ a, r ≠ Ok a) ∧ uploads evs = []
            ∨ r = Ok tt
              ∧ ∃ ar, uploads evs = [ar]
                      ∧ last evs = Some (EvUpload ar)
                      ∧ st_fs st' !! ((st_cwd st ++ ["out"]) ++ ["all_tables.zip"])
                        = Some (File ar)).
Proof.
  intros Hrun.
  destruct (main_shape self _ _ _ Hrun)
    as [(evs & -> & Hev) | (c & s & e & _ & _ & _ & _ & _ & Hex)].
  - exists evs. split; [done|]. left. split.
    + destruct Hev as [[-> _] | (x & -> & _)]; done.
    + destruct Hev as [[_ [[-> _] | [[-> _] | [[-> _] | (c & _ & _ & [-> | ->])]]]]
                      | (x & _ & [-> | (c & -> & _)])]; reflexivity.
  - destruct r as [[]|k|x].
    + apply extract_tables_Ok in Hex as (_ & _ & _ & _ & Hlog & Hfs & _).
      cbn [with_log st_log st_cwd st_fs] in Hlog, Hfs.
      match type of Hlog with _ = _ ++ ?l ++ [?w; EvUpload ?a] =>
        exists (EvCharge c :: l ++ [w; EvUpload a]);
        split; [by rewrite Hlog, <-app_assoc|];
        right; split; [done|]; exists a; split; [|split]
      end.
      * rewrite uploads_cons, (obs_app (obs:=uploads)), uploads_job_events.
        reflexivity.
      * match goal with |- last (?x :: ?l ++ [?w; ?u]) = _ =>
          replace (x :: l ++ [w; u]) with ((x :: l ++ [w]) ++ [u])
            by (simpl; by rewrite <-app_assoc)
        end.
        apply last_snoc.
      * by rewrite Hfs, lookup_insert_eq.
    + destruct (extract_tables_not_Ok_uploads self _ s e _ _ _ Hex) as (evs & Hlog & Hup);
        [done|].
      exists ([EvCharge c] ++ evs). cbn [with_log st_log] in Hlog.
      split; [by rewrite Hlog, app_assoc|]. left. split; [done|].
      by rewrite (obs_app (obs:=uploads)), Hup.
    + destruct (extract_tables_not_Ok_uploads self _ s e _ _ _ Hex) as (evs & Hlog & Hup);
        [done|].
      exists ([EvCharge c] ++ evs). cbn [with_log st_log] in Hlog.
      split; [by rewrite Hlog, app_assoc|]. left. split; [done|].
      by rewrite (obs_app (obs:=uploads)), Hup.
Qed.

Lemma X13_upload_iff_return_witness :
  let failing := mkEnv (page_config 1 2) (Some 1) (PyInt 7) [sample_document 1 5]
                       (λ _, None) (Some "[default]") default_profile
                       (λ _, Some (Bytes "PNG")) (λ _, None) None in
  ∃ evs, st_log (main failing (initial_state [] ∅)).2 = [] ++ evs
         ∧ ((∀ a, (main failing (initial_state [] ∅)).1 ≠ Ok a) ∧ uploads evs = []
            ∨ (main failing (initial_state [] ∅)).1 = Ok tt
              ∧ ∃ ar, uploads evs = [ar]
                      ∧ last evs = Some (EvUpload ar)
                      ∧ st_fs (main failing (initial_state [] ∅)).2
                          !! (([] ++ ["out"]) ++ ["all_tables.zip"])
                        = Some (File ar)).
Proof.
  intros failing.
  apply (X13_upload_iff_return failing (initial_state [] ∅)).
  apply surjective_pairing.
Defined.

Section Returned.
Context (self : Env).

Lemma extract_tables_Ok_credentials output_format s e st st' :
  extract_tables self output_format (PyInt s) (PyInt e) st = (Ok tt, st') →
  is_Some (environ_TOKEN self) ∧ st_credentials st' = environ_TOKEN self.
Proof.
  intros Hrun.
  destruct (extract_tables_cases _ _ _ _ _ _ _ Hrun)
    as [[Hne _] | (tok & [Htok Htex] & _ & _ & Hloop)]; [by destruct (Hne tt)|].
  split; [by rewrite Htok|].
  unfold bind at 1 in Hloop.
  destruct (for_each _ _ _) as [r1 st2] eqn:Hl in Hloop.
  destruct (process_documents_runs_as self (st_cwd st ++ ["out"]) output_format (λ evs, evs)
              (page_events self (st_cwd st ++ ["out"]) output_format) s e
              (get_documents self)
              (λ doc p, process_page_obs self _ output_format _ doc p)
              (loop_start st tok) _ _ eq_refl Hl)
    as (evs1 & (_ & _ & Hcred) & _ & _).
  destruct r1 as [[]|k|x]; [|done..].
  by rewrite (finish_credentials self _ _ _ Hloop), Hcred, Htok.
Qed.
End Returned.

(** X14. A run of [main] that returns started where no [out] existed; it
    leaves the process in that new directory [out] (it does not change
    back), and the credential file holds the value of [TOKEN]. *)
Theorem X14_state_after_return (self : Env) (st st' : State) :
  main self st = (Ok tt, st') →
  st_fs st !! (st_cwd st ++ ["out"]) = None
  ∧ st_cwd st' = st_cwd st ++ ["out"]
  ∧ is_Some (environ_TOKEN self)
  ∧ st_credentials st' = environ_TOKEN self.
Proof.
  intros Hrun.
  destruct (main_shape self _ _ _ Hrun)
    as [(evs & _ & [[[=] _] | (x & [=] & _)]) | (c & s & e & _ & _ & _ & _ & _ & Hex)].
  destruct (extract_tables_Ok_credentials self _ _ _ _ _ Hex) as [Htok Hcred].
  apply extract_tables_Ok in Hex as (Hout & _ & _ & _ & _ & _ & Hcwd).
  done.
Qed.

Lemma X14_state_after_return_witness :
  let st' := (main sample_job (initial_state ["job"] ∅)).2 in
  (∅ : gmap path node) !! ["job"; "out"] = None
  ∧ st_cwd st' = ["job"; "out"]
  ∧ is_Some (environ_TOKEN sample_job)
  ∧ st_credentials st' = environ_TOKEN sample_job.
Proof.
  apply (X14_state_after_return sample_job (initial_state ["job"] ∅)).
  vm_compute. reflexivity.
Defined.

(** X15. A job whose store lists no document (a query that matches
    nothing: the count is not [None]) and that configures no page runs to
    the end even though [end_page] is missing, provided the service client
    is built from [TOKEN] and the upload is accepted: it charges 0 credits,
    makes the two directories and uploads an archive without entries. *)
Theorem X15_job_without_documents (self : Env) (n : Z) (cwd : path)
    (fs0 : gmap path node) :
  get_document_count self = Some n →
  get_documents self = [] →
  truthy (org_id self) = true →
  charge_credits_raises self 0 = None →
  data self !! "start_page" = None →
  data self !! "end_page" = None →
  is_Some (environ_TOKEN self) →
  textractor_raises self (environ_TOKEN self) = None →
  upload_file_raises self = None →
  fs_wf fs0 →
  fs0 !! (cwd ++ ["out"]) = None →
  ∃ st', main self (initial_state cwd fs0) = (Ok tt, st')
         ∧ st_log st'
           = [EvCharge 0;
              EvWrite ((cwd ++ ["out"]) ++ ["all_tables.zip"]) (ZipArchive []);
              EvUpload (ZipArchive [])].
Proof.
  intros Hn Hdocs Horg Hch Hs He Htok Htex Hup Hwf Hout.
  assert (data_get self "start_page" (PyInt 1) = PyInt 1) as Hs1
    by (unfold data_get; by rewrite Hs).
  assert (data_get self "end_page" (PyInt 1) = PyInt 1) as He1
    by (unfold data_get; by rewrite He).
  assert (validate self (initial_state cwd fs0)
          = (Ok true, add_event (EvCharge 0) (initial_state cwd fs0))) as Hv.
  { unfold validate. rewrite Hn, Horg, Hdocs. cbn [negb].
    unfold calculate_cost. cbn [cost_loop]. unfold bind at 1 2. unfold ret at 1 2.
    change (0 * 10) with 0.
    unfold try_except, bind, charge_credits. by rewrite Hch. }
  destruct (main_no_tables self 1 1 (initial_state cwd fs0) _ Hv Hs1 He1)
    as [st' Hrun]; [lia|done|done|done|done|done| |].
  { rewrite Hdocs. by intros doc p ?%elem_of_nil. }
  exists st'. split; [done|].
  destruct (main_shape self _ _ _ Hrun)
    as [(evs & _ & [[[=] _] | (x & [=] & _)]) | (c & s & e & Hc & _ & Hs' & He' & _ & Hex)].
  rewrite Hdocs in Hc. injection Hc as <-.
  assert (s = 1) as -> by congruence. assert (e = 1) as -> by congruence.
  apply extract_tables_Ok in Hex as (_ & _ & _ & _ & Hlog & _).
  cbn [with_log initial_state st_log st_cwd st_fs app] in Hlog.
  unfold job_events in Hlog. rewrite Hdocs in Hlog. cbn [mbind list_bind app foldl] in Hlog.
  assert (archive_entries (cwd ++ ["out"])
            (<[(cwd ++ ["out"]) ++ ["tables"] := Dir]> (<[cwd ++ ["out"] := Dir]> fs0)) = [])
    as Hnil.
  { apply elem_of_nil_inv. intros [name x].
    destruct (archive_entries_spec (cwd ++ ["out"])
                (<[(cwd ++ ["out"]) ++ ["tables"] := Dir]> (<[cwd ++ ["out"] := Dir]> fs0)) [])
      as [_ Hent]; [|constructor|].
    - apply loop_base_empty; [done| |done]. by destruct cwd.
    - cbn [foldl] in Hent. by intros Hin%Hent. }
  rewrite Hnil in Hlog. exact Hlog.
Qed.

Lemma X15_job_without_documents_witness :
  ∃ st', main (mkEnv ∅ (Some 0) (PyInt 7) [] (λ _, None) (Some "[default]") default_profile
                     (λ _, None) (λ _, None) None) (initial_state [] ∅)
         = (Ok tt, st')
         ∧ st_log st'
           = [EvCharge 0;
              EvWrite (([] ++ ["out"]) ++ ["all_tables.zip"]) (ZipArchive []);
              EvUpload (ZipArchive [])].
Proof.
  apply (X15_job_without_documents
           (mkEnv ∅ (Some 0) (PyInt 7) [] (λ _, None) (Some "[default]") default_profile
                  (λ _, None) (λ _, None) None) 0 [] ∅);
    try reflexivity.
  - by eexists.
  - apply fs_wf_empty.
Defined.





(** X18. The names of the page images, [{id}-page{n}{ext}] with an
    extension that starts with a dot, determine the document id, the page
    number and the extension: pages of different documents or different
    pages never share an image file, and the GIF and the PNG of a page are
    two files. *)
Theorem X18_page_filename_inj (e1 e2 : string) (d1 p1 d2 p2 : Z) :
  page_filename (String "." e1) d1 p1 = page_filename (String "." e2) d2 p2 →
  d1 = d2 ∧ p1 = p2 ∧ e1 = e2.
Proof.
  unfold page_filename. intros H.
  apply pretty_Z_split in H as [-> H]; [|done].
  apply (inj (String.app "page")) in H.
  apply pretty_Z_split in H as [-> ->]; done.
Qed.

Lemma X18_page_filename_inj_witness :
  (12 : Z) = 12 ∧ (3 : Z) = 3 ∧ "gif" = "gif".
Proof.
  apply (X18_page_filename_inj "gif" "gif" 12 3 12 3). reflexivity.
Defined.

(** X19. A page whose image request, decoding or analysis fails does not
    return: the exception reaches the caller, no table file of the page is
    written, and when it is the image request that fails the file tree is
    left as it was. *)
Theorem X19_failed_page_writes_no_table (self : Env) (output_format : pyval)
    (doc : Document.t) (p : Z) (st st' : State) (r : outcome unit) :
  process_page self output_format doc p st = (r, st') →
  page_tables self doc p = None →
  r ≠ Ok tt
  ∧ (∃ evs, st_log st' = st_log st ++ evs
            ∧ st_fs st' = foldl apply_write (st_fs st) evs
            ∧ table_writes (st_cwd st) evs = [])
  ∧ (Document.get_large_image doc p = None → st_fs st' = st_fs st).
Proof.
  intros Hrun Hnone.
  destruct (process_page_spec self (st_cwd st) output_format doc p st r st' eq_refl Hrun)
    as (evs & (Hlog & Hfs & Hcred) & Hpre & Hok).
  split.
  { intros ->. destruct (Hok eq_refl) as (_ & _ & [? Hsome]). congruence. }
  split.
  - exists evs. split; [done|]. split; [done|].
    apply (obs_prefix (table_writes (st_cwd st))) in Hpre.
    rewrite table_writes_page_events, Hnone in Hpre.
    by apply prefix_nil_inv in Hpre.
  - intros Himg. unfold page_events in Hpre. rewrite Himg in Hpre.
    destruct Hpre as [k Hk]. rewrite Hfs.
    destruct evs as [|ev [|ev' evs]]; [done| |done].
    simpl in Hk. by simplify_eq.
Qed.

Lemma X19_failed_page_writes_no_table_witness :
  let self := mkEnv ∅ (Some 1) (PyInt 7) [] (λ _, None) (Some "[default]") default_profile
                    (λ _, None) (λ _, None) None in
  let doc := Document.mk 1 3 (λ _, Some (Bytes "gif")) in
  let st := initial_state ["job"; "out"] ∅ in
  let run := process_page self (PyStr "csv") doc 2 st in
  run.1 ≠ Ok tt
  ∧ (∃ evs, st_log run.2 = st_log st ++ evs
            ∧ st_fs run.2 = foldl apply_write (st_fs st) evs
            ∧ table_writes (st_cwd st) evs = [])
  ∧ (Document.get_large_image doc 2 = None → st_fs run.2 = st_fs st).
Proof.
  intros self doc st run.
  apply (X19_failed_page_writes_no_table self (PyStr "csv") doc 2 st run.2 run.1).
  - apply surjective_pairing.
  - reflexivity.
Defined.
